(** * QuantArena: the per-agent trading pipeline and the recovery layer

    A shallow embedding of [agent_v2/langgraph_trading_agent.py]
    (class [LangGraphTradingAgent]) and the properties its specification
    states about it.

    Conventions of the embedding.
    - Python [float]/[int] amounts of money and shares are exact rationals
      ([Q]); rounding of binary floating point is not modelled.
    - A Python dict used as a record (a decision, a holding, a trade, a
      daily-asset point) is an insertion-ordered association list
      [pydict] of dynamically typed values [pyval], so that [d.get(k, v)],
      [d[k]] (KeyError) and the presence of a key mean what they mean in
      the source.
    - [state['holdings']] maps a stock code to a *reference* to the
      holding's dict; the dicts live in a store ([heap]).  Nodes of the
      pipeline run in a state-and-exception monad over that store, so an
      in-place update of a holding is visible through every alias.
    - The market-data provider, the clock and the configuration are
      parameters ([Env]); console and UI logging is left out. *)

From Stdlib Require Import QArith Qround Qabs Qminmax Lqa ZArith Ascii String Sorted.
From stdpp Require Import gmap strings list fin_maps.

Set Warnings "-register-all".
Open Scope string_scope.

(** ** Python values *)

Inductive pyval : Type :=
| VNone
| VStr (s : string)
| VNum (q : Q)
| VDict (d : list (string * pyval)).

Abbreviation pydict := (list (string * pyval)).

(** [d.get(k)] as an option: [None] when the key is absent. *)
Fixpoint dget (k : string) (d : pydict) : option pyval :=
  match d with
  | [] => None
  | (k', v) :: d' => if String.eqb k k' then Some v else dget k d'
  end.

(** [d.get(k, dflt)]. *)
Definition dget_or (k : string) (dflt : pyval) (d : pydict) : pyval :=
  match dget k d with Some v => v | None => dflt end.

(** [d[k] = v]: overwrite in place, or append a new key. *)
Fixpoint dset (k : string) (v : pyval) (d : pydict) : pydict :=
  match d with
  | [] => [(k, v)]
  | (k', v') :: d' => if String.eqb k k' then (k', v) :: d' else (k', v') :: dset k v d'
  end.

(** Truth value of an object ([if x:], [x or y], [not x]). *)
Definition truthy (v : pyval) : bool :=
  match v with
  | VNone => false
  | VStr s => negb (String.eqb s "")
  | VNum q => negb (Qeq_bool q 0)
  | VDict d => match d with [] => false | _ => true end
  end.

(** [a or b]. *)
Definition py_or (a b : pyval) : pyval := if truthy a then a else b.

(** [v == 'literal']. *)
Definition py_eq_str (v : pyval) (s : string) : bool :=
  match v with VStr s' => String.eqb s' s | _ => false end.

(** [v == n] for a numeric literal [n]. *)
Definition py_eq_num (v : pyval) (n : Q) : bool :=
  match v with VNum q => Qeq_bool q n | _ => false end.

Definition Qlt_bool (x y : Q) : bool := negb (Qle_bool y x).

(** [max(a, b)]: the first argument unless the second is larger. *)
Definition py_max (a b : Q) : Q := if Qlt_bool a b then b else a.

(** [min(a, b)]: the first argument unless the second is smaller. *)
Definition py_min (a b : Q) : Q := if Qlt_bool b a then b else a.

(** [int(x)]: truncation towards zero. *)
Definition py_int (x : Q) : Z := Z.quot (Qnum x) (Z.pos (Qden x)).

(** [x // 100]: floor division. *)
Definition floordiv100 (x : Q) : Z := Qfloor (x / 100).

(** ** Exceptions and the store *)

Inductive exn : Type :=
| KeyError (k : string)
| TypeError
| ZeroDivisionError
| AttributeError
| ValueError.

Inductive outcome (A : Type) : Type :=
| Ok (a : A)
| Raise (e : exn).
Arguments Ok {A} a.
Arguments Raise {A} e.

Definition loc := positive.
Abbreviation heap := (gmap loc pydict).

(** A computation reads and writes the store and either returns or
    raises; the store it leaves behind is kept in both cases. *)
Definition M (A : Type) : Type := heap -> outcome A * heap.

Definition ret {A} (a : A) : M A := fun h => (Ok a, h).
Definition raise {A} (e : exn) : M A := fun h => (Raise e, h).
Definition bind {A B} (m : M A) (f : A -> M B) : M B :=
  fun h => match m h with
           | (Ok a, h') => f a h'
           | (Raise e, h') => (Raise e, h')
           end.

Notation "'do' x <- m ; k" := (bind m (fun x => k))
  (at level 10, x name, m at level 100, k at level 200, right associativity).
Notation "m ;; k" := (bind m (fun _ => k))
  (at level 100, k at level 200, right associativity).

(** A number used in arithmetic or an ordering comparison; anything else
    is a TypeError. *)
Definition as_num (v : pyval) : M Q :=
  match v with VNum q => ret q | _ => raise TypeError end.

(** [d[k]]. *)
Definition getitem (k : string) (d : pydict) : M pyval :=
  match dget k d with Some v => ret v | None => raise (KeyError k) end.

(** The dict a reference points to. *)
Definition deref (l : loc) : M pydict := fun h => (Ok (h !!! l), h).

(** [obj[k] = v] on the dict behind [l], in place. *)
Definition obj_set (l : loc) (k : string) (v : pyval) : M unit :=
  fun h => (Ok tt, <[l := dset k v (h !!! l)]> h).

(** A dict literal evaluated: a new object. *)
Definition alloc (d : pydict) : M loc :=
  fun h => let l := fresh (dom h) in (Ok l, <[l := d]> h).

Fixpoint for_each {A S} (body : A -> S -> M S) (xs : list A) (s : S) : M S :=
  match xs with
  | [] => ret s
  | x :: xs' => do s' <- body x s; for_each body xs' s'
  end.

(** ** The environment of an agent *)

Record Env : Type := {
  (** [data_provider.get_daily_price(code, date)]: a bar, or [None]. *)
  get_daily_price : string -> string -> option pydict;
  (** [data_provider.get_stock_basic_info(code)]. *)
  get_stock_basic_info : string -> pydict;
  (** [datetime.now().strftime('%H:%M:%S')]. *)
  now : string;
  (** [config['max_holdings']], default 5. *)
  max_holdings : Z;
  (** [config['ai_confidence_threshold']], default 0.30. *)
  ai_confidence_threshold : Q;
  (** [self.should_stop_callback and self.should_stop_callback()]. *)
  should_stop : bool
}.

(** ** [TradingState] *)

Record TradingState : Type := {
  trade_date : string;
  cash : Q;
  initial_capital : Q;
  holdings : gmap string loc;
  total_assets : Q;
  candidates : list pydict;
  sell_analysis : list pyval;   (* state['sell_analysis']['decisions'] *)
  buy_analysis : list pyval;    (* state['buy_analysis']['decisions'] *)
  sell_trades : list pydict;
  buy_trades : list pydict;
  trade_history : list pydict;
  daily_assets : list pydict
}.

Definition set_cash (c : Q) (s : TradingState) : TradingState :=
  {| trade_date := trade_date s; cash := c; initial_capital := initial_capital s;
     holdings := holdings s; total_assets := total_assets s;
     candidates := candidates s;
     sell_analysis := sell_analysis s; buy_analysis := buy_analysis s;
     sell_trades := sell_trades s; buy_trades := buy_trades s;
     trade_history := trade_history s; daily_assets := daily_assets s |}.

Definition set_holdings (hs : gmap string loc) (s : TradingState) : TradingState :=
  {| trade_date := trade_date s; cash := cash s; initial_capital := initial_capital s;
     holdings := hs; total_assets := total_assets s;
     candidates := candidates s;
     sell_analysis := sell_analysis s; buy_analysis := buy_analysis s;
     sell_trades := sell_trades s; buy_trades := buy_trades s;
     trade_history := trade_history s; daily_assets := daily_assets s |}.

Definition set_total_assets (t : Q) (s : TradingState) : TradingState :=
  {| trade_date := trade_date s; cash := cash s; initial_capital := initial_capital s;
     holdings := holdings s; total_assets := t;
     candidates := candidates s;
     sell_analysis := sell_analysis s; buy_analysis := buy_analysis s;
     sell_trades := sell_trades s; buy_trades := buy_trades s;
     trade_history := trade_history s; daily_assets := daily_assets s |}.

Definition set_buy_analysis (ds : list pyval) (s : TradingState) : TradingState :=
  {| trade_date := trade_date s; cash := cash s; initial_capital := initial_capital s;
     holdings := holdings s; total_assets := total_assets s;
     candidates := candidates s;
     sell_analysis := sell_analysis s; buy_analysis := ds;
     sell_trades := sell_trades s; buy_trades := buy_trades s;
     trade_history := trade_history s; daily_assets := daily_assets s |}.

Definition set_sell_trades (ts : list pydict) (s : TradingState) : TradingState :=
  {| trade_date := trade_date s; cash := cash s; initial_capital := initial_capital s;
     holdings := holdings s; total_assets := total_assets s;
     candidates := candidates s;
     sell_analysis := sell_analysis s; buy_analysis := buy_analysis s;
     sell_trades := ts; buy_trades := buy_trades s;
     trade_history := trade_history s; daily_assets := daily_assets s |}.

Definition set_buy_trades (ts : list pydict) (s : TradingState) : TradingState :=
  {| trade_date := trade_date s; cash := cash s; initial_capital := initial_capital s;
     holdings := holdings s; total_assets := total_assets s;
     candidates := candidates s;
     sell_analysis := sell_analysis s; buy_analysis := buy_analysis s;
     sell_trades := sell_trades s; buy_trades := ts;
     trade_history := trade_history s; daily_assets := daily_assets s |}.

Definition set_trade_history (ts : list pydict) (s : TradingState) : TradingState :=
  {| trade_date := trade_date s; cash := cash s; initial_capital := initial_capital s;
     holdings := holdings s; total_assets := total_assets s;
     candidates := candidates s;
     sell_analysis := sell_analysis s; buy_analysis := buy_analysis s;
     sell_trades := sell_trades s; buy_trades := buy_trades s;
     trade_history := ts; daily_assets := daily_assets s |}.

Definition set_daily_assets (ds : list pydict) (s : TradingState) : TradingState :=
  {| trade_date := trade_date s; cash := cash s; initial_capital := initial_capital s;
     holdings := holdings s; total_assets := total_assets s;
     candidates := candidates s;
     sell_analysis := sell_analysis s; buy_analysis := buy_analysis s;
     sell_trades := sell_trades s; buy_trades := buy_trades s;
     trade_history := trade_history s; daily_assets := ds |}.

(** ** Node 1: [_update_holdings_prices] *)

(** [holdings[code]['hold_days'] = holdings[code].get('hold_days', 0) + 1] *)
Definition bump_hold_days (l : loc) : M unit :=
  do h <- deref l;
  do n <- as_num (dget_or "hold_days" (VNum 0) h);
  obj_set l "hold_days" (VNum (n + 1)).

(** The body of the loop over [list(holdings.keys())], for one code. *)
Definition update_price (env : Env) (date : string) (code : string) (l : loc) : M unit :=
  match get_daily_price env code date with
  | Some ((_ :: _) as stock_data) =>
      do current_price <- as_num (dget_or "close" (VNum 0) stock_data);
      (if Qlt_bool 0 current_price then
         obj_set l "current_price" (VNum current_price) ;;
         do h <- deref l;
         do cost_v <- getitem "cost" h;
         do cost <- as_num cost_v;
         (if Qlt_bool 0 cost then
            obj_set l "profit_pct" (VNum ((current_price - cost) / cost * 100))
          else
            obj_set l "profit_pct" (VNum 0) ;;
            obj_set l "cost" (VNum current_price)) ;;
         bump_hold_days l
       else
         bump_hold_days l) ;;
      do h <- deref l;
      match dget "name" h with
      | Some v =>
          if truthy v then ret tt
          else obj_set l "name" (dget_or "name" (VStr code) (get_stock_basic_info env code))
      | None => obj_set l "name" (dget_or "name" (VStr code) (get_stock_basic_info env code))
      end
  | _ => bump_hold_days l
  end.

(** One term of [sum(h['amount'] * h.get('current_price', h.get('cost', 0)))]. *)
Definition holding_value (acc : Q) (l : loc) : M Q :=
  do h <- deref l;
  do amount_v <- getitem "amount" h;
  do amount <- as_num amount_v;
  do price <- as_num (dget_or "current_price" (dget_or "cost" (VNum 0) h) h);
  ret (acc + amount * price)%Q.

(** The loops visit the holdings in the order of [map_to_list], Python in
    the order of insertion. The rounds touch different objects and the sum
    is exact, so the order shows only in which of two exceptions is raised
    first. *)
Definition _update_holdings_prices (env : Env) (state : TradingState) : M TradingState :=
  for_each (fun '(code, l) (_ : unit) => update_price env (trade_date state) code l)
           (map_to_list (holdings state)) tt ;;
  do holdings_value <- for_each (fun l acc => holding_value acc l)
                                (snd <$> map_to_list (holdings state)) 0%Q;
  ret (set_total_assets (cash state + holdings_value)%Q state).

(** ** Node 3: [_execute_sells] *)

(** The loop carries the state, [processed_codes] and [sell_trades]. *)
Record sell_loop : Type := {
  sl_state : TradingState;
  sl_processed : gset string;
  sl_trades : list pydict
}.

Definition sell_continue (state : TradingState) (processed : gset string)
    (trades : list pydict) : M sell_loop :=
  ret {| sl_state := state; sl_processed := processed; sl_trades := trades |}.

(** [trade_record = {...}] of a sale. *)
Definition sell_trade_record (env : Env) (state : TradingState) (decision : pydict)
    (code : string) (amount current_price : pyval)
    (sell_amount commission stamp_tax profit profit_pct : Q) : pydict :=
  [ ("date", VStr (trade_date state));
    ("time", VStr (now env));
    ("action", VStr "sell");
    ("code", VStr code);
    ("name", dget_or "name" (VStr "未知") (get_stock_basic_info env code));
    ("amount", amount);
    ("price", current_price);
    ("total", VNum sell_amount);
    ("commission", VNum (commission + stamp_tax));
    ("profit", VNum profit);
    ("profit_pct", VNum profit_pct);
    ("reason", dget_or "reason" (VStr "AI决策卖出") decision) ].

(** The sale itself (the part of the loop body after the T+1 check). *)
Definition sell_holding (env : Env) (decision : pydict) (code : string) (holding : pydict)
    (state : TradingState) (processed : gset string) (trades : list pydict) : M sell_loop :=
  do amount_v <- getitem "amount" holding;
  do current_price_v <- getitem "current_price" holding;
  do amount <- as_num amount_v;
  do current_price <- as_num current_price_v;
  let sell_amount := (amount * current_price)%Q in
  let commission := py_max (sell_amount * (3 # 10000)) 5 in
  let stamp_tax := (sell_amount * (1 # 1000))%Q in
  let net_income := (sell_amount - commission - stamp_tax)%Q in
  do cost_v <- getitem "cost" holding;
  do cost <- as_num cost_v;
  let cost_total := (amount * cost)%Q in
  let profit := (net_income - cost_total)%Q in
  if Qeq_bool cost_total 0 then raise ZeroDivisionError else
  let profit_pct := (profit / cost_total * 100)%Q in
  let trade_record :=
    sell_trade_record env state decision code amount_v current_price_v
                      sell_amount commission stamp_tax profit profit_pct in
  sell_continue
    (set_trade_history (trade_history state ++ [trade_record])
       (set_holdings (delete code (holdings state))
          (set_cash (cash state + net_income)%Q state)))
    processed (trades ++ [trade_record]).

(** The body of [for decision in decisions]. Every [continue] returns the
    loop state as it stands. *)
Definition sell_decision (env : Env) (decision : pyval) (acc : sell_loop) : M sell_loop :=
  let state := sl_state acc in
  match decision with
  | VDict d =>
      if negb (py_eq_str (dget_or "action" VNone d) "sell") then ret acc else
      let code := dget_or "code" VNone d in
      if negb (truthy code) then ret acc else
      match code with
      | VStr c =>
          if decide (c ∈ sl_processed acc) then ret acc else
          let processed := {[c]} ∪ sl_processed acc in
          match holdings state !! c with
          | None => sell_continue state processed (sl_trades acc)
          | Some l =>
              do holding <- deref l;
              if py_eq_num (dget_or "hold_days" (VNum 0) holding) 0
              then sell_continue state processed (sl_trades acc)   (* T+1 *)
              else sell_holding env d c holding state processed (sl_trades acc)
          end
      | VDict _ => raise TypeError        (* unhashable: code in processed_codes *)
      | _ => ret acc                      (* a number is never a key of holdings *)
      end
  | _ => ret acc                          (* not isinstance(decision, dict) *)
  end.

Definition _execute_sells (env : Env) (state : TradingState) : M TradingState :=
  do r <- for_each (sell_decision env) (sell_analysis state)
            {| sl_state := state; sl_processed := ∅; sl_trades := [] |};
  ret (set_sell_trades (sl_trades r) (sl_state r)).

(** ** Node 5: [_analyze_candidates], from the LLM reply on *)

(** What one attempt [self.llm.invoke(prompt)] followed by
    [_extract_json_array] gives: an exception (which may be the vendor's
    insufficient-balance error), or the parsed array. *)
Inductive llm_reply : Type :=
| LlmRaises (insufficient_balance : bool)
| LlmReturns (decisions : list pyval).

(** The body of [for d in decisions]: [None] is [continue]. *)
Definition normalize_buy_decision (confidence_threshold : Q) (d : pyval) : M (option pyval) :=
  match d with
  | VDict d =>
      let code := py_or (dget_or "stock_code" VNone d) (dget_or "code" VNone d) in
      if negb (truthy code) then ret None else
      let confidence_v := dget_or "confidence" (VNum 0) d in
      do confidence <- as_num confidence_v;
      if Qlt_bool confidence confidence_threshold then ret None else
      let normalized_decision : pydict :=
        [ ("code", code);
          ("action", VStr "buy");
          ("suggested_amount", dget_or "suggested_amount" (VNum 0) d);
          ("confidence", confidence_v);
          ("reason", dget_or "reason" (VStr "") d);
          ("expected_days", dget_or "expected_days" (VNum 5) d) ] in
      ret (Some (VDict normalized_decision))
  | _ => ret None
  end.

Definition normalize_buy_decisions (confidence_threshold : Q) (decisions : list pyval)
    : M (list pyval) :=
  for_each (fun d (buy_decisions : list pyval) =>
              do r <- normalize_buy_decision confidence_threshold d;
              ret match r with Some n => (buy_decisions ++ [n])%list | None => buy_decisions end)
           decisions [].

(** The log line of an accepted decision formats [reason[:50]]: a reason
    that is not a string cannot be sliced. *)
Definition log_buy_decision (dec : pyval) : M unit :=
  match dec with
  | VDict d =>
      match dget_or "reason" (VStr "无原因") d with
      | VStr _ => ret tt
      | _ => raise TypeError
      end
  | _ => ret tt
  end.

(** [try: ... except Exception: ...] *)
Definition try_except {A} (m : M A) (handler : exn -> M A) : M A :=
  fun h => match m h with
           | (Ok a, h') => (Ok a, h')
           | (Raise e, h') => handler e h'
           end.

(** [for attempt in range(max_retries)], counted down: [attempts] are the
    rounds left, [llm] gives the reply of each round. An exception inside
    the [try] (also one of the normalisation) leads to the next round, and
    to an empty decision list after the last. *)
Fixpoint analyze_retry (env : Env) (llm : nat -> llm_reply) (attempt attempts : nat)
    (state : TradingState) : M TradingState :=
  match attempts with
  | O => ret state
  | S attempts' =>
      let on_error (insufficient_balance : bool) : M TradingState :=
        if insufficient_balance then ret (set_buy_analysis [] state)
        else match attempts' with
             | O => ret (set_buy_analysis [] state)
             | _ => analyze_retry env llm (S attempt) attempts' state
             end in
      match llm attempt with
      | LlmRaises ib => on_error ib
      | LlmReturns [] => ret (set_buy_analysis [] state)
      | LlmReturns decisions =>
          try_except
            (do buy_decisions <-
               normalize_buy_decisions (ai_confidence_threshold env) decisions;
             for_each (fun dec (_ : unit) => log_buy_decision dec) buy_decisions tt ;;
             ret (set_buy_analysis buy_decisions state))
            (fun _ => on_error false)
      end
  end.

(** The node. Building the prompt is string formatting and is left out,
    except for the two places where it can raise on the state:
    [daily_profit / state['initial_capital']] and [s['code']]. *)
Definition _analyze_candidates (env : Env) (llm : nat -> llm_reply) (state : TradingState)
    : M TradingState :=
  if should_stop env then ret (set_buy_analysis [] state) else
  match candidates state with
  | [] => ret (set_buy_analysis [] state)
  | _ =>
      if Qeq_bool (initial_capital state) 0 then raise ZeroDivisionError else
      for_each (fun s (_ : unit) => do _ <- getitem "code" s; ret tt) (candidates state) tt ;;
      analyze_retry env llm 0 3 state
  end.

(** ** Node 6: [_execute_buys] *)

Record buy_loop : Type := {
  bl_state : TradingState;
  bl_processed : gset string;
  bl_trades : list pydict
}.

Definition buy_continue (state : TradingState) (processed : gset string)
    (trades : list pydict) : M buy_loop :=
  ret {| bl_state := state; bl_processed := processed; bl_trades := trades |}.

(** [exit_plan.get(k, '未设置')]; a value that is not a dict has no [get]. *)
Definition exit_plan_get (exit_plan : pyval) (k : string) : M pyval :=
  match exit_plan with
  | VDict e => ret (dget_or k (VStr "未设置") e)
  | _ => raise AttributeError
  end.

(** [state['holdings'][code] = {...}] *)
Definition buy_holding_record (env : Env) (state : TradingState) (decision : pydict)
    (code : string) (amount : Z) (price : Q)
    (profit_target stop_loss invalidation : pyval) : pydict :=
  [ ("amount", VNum (inject_Z amount));
    ("cost", VNum price);
    ("date", VStr (trade_date state));
    ("current_price", VNum price);
    ("profit_pct", VNum 0);
    ("hold_days", VNum 0);
    ("buy_date", VStr (trade_date state));
    ("name", dget_or "name" (VStr "未知") (get_stock_basic_info env code));
    ("profit_target", profit_target);
    ("stop_loss", stop_loss);
    ("invalidation", invalidation);
    ("expected_days", dget_or "expected_days" (VNum 5) decision) ].

(** [trade_record = {...}] of a purchase; [cash] is [state['cash']] after
    the deduction. *)
Definition buy_trade_record (env : Env) (state : TradingState) (decision : pydict)
    (code : string) (amount : Z) (price stock_cost commission total_cost cash : Q)
    (profit_target stop_loss invalidation : pyval) : pydict :=
  [ ("date", VStr (trade_date state));
    ("time", VStr (now env));
    ("action", VStr "buy");
    ("code", VStr code);
    ("name", dget_or "name" (VStr "未知") (get_stock_basic_info env code));
    ("amount", VNum (inject_Z amount));
    ("price", VNum price);
    ("total", VNum stock_cost);
    ("commission", VNum commission);
    ("reason", dget_or "reason" (VStr "AI决策买入") decision);
    ("profit_target", profit_target);
    ("stop_loss", stop_loss);
    ("invalidation", invalidation);
    ("expected_days", dget_or "expected_days" (VNum 5) decision);
    ("cash_before", VNum (cash + total_cost));
    ("assets_before", VNum (total_assets state)) ].

(** The purchase itself, once the amount is fixed and the gates of the
    loop body have passed. *)
Definition buy_stock (env : Env) (decision : pydict) (code : string) (amount : Z) (price : Q)
    (stock_cost commission total_cost : Q)
    (state : TradingState) (processed : gset string) (trades : list pydict) : M buy_loop :=
  let cash' := (cash state - total_cost)%Q in
  let exit_plan := dget_or "exit_plan" (VDict []) decision in
  do profit_target <- exit_plan_get exit_plan "profit_target";
  do stop_loss <- exit_plan_get exit_plan "stop_loss";
  do invalidation <- exit_plan_get exit_plan "invalidation";
  do l <- alloc (buy_holding_record env state decision code amount price
                                    profit_target stop_loss invalidation);
  let trade_record :=
    buy_trade_record env state decision code amount price stock_cost commission
                     total_cost cash' profit_target stop_loss invalidation in
  buy_continue
    (set_trade_history (trade_history state ++ [trade_record])
       (set_holdings (<[code := l]> (holdings state))
          (set_cash cash' state)))
    processed (trades ++ [trade_record]).

(** The body of [for decision in decisions]. *)
Definition buy_decision (env : Env) (decision : pyval) (acc : buy_loop) : M buy_loop :=
  let state := bl_state acc in
  match decision with
  | VDict d =>
      if negb (py_eq_str (dget_or "action" VNone d) "buy") then ret acc else
      let code := dget_or "code" VNone d in
      if negb (truthy code) then ret acc else
      match code with
      | VStr c =>
          if decide (c ∈ bl_processed acc) then ret acc else
          let processed := {[c]} ∪ bl_processed acc in
          let skip := buy_continue state processed (bl_trades acc) in
          let suggested_amount_v := dget_or "suggested_amount" (VNum 100) d in
          match get_daily_price env c (trade_date state) with
          | Some ((_ :: _) as stock_data) =>
              do price <- as_num (dget_or "close" (VNum 0) stock_data);
              if Qle_bool price 0 then skip else
              let max_amount := (py_int (cash state / price / 100) * 100)%Z in
              do suggested_amount <- as_num suggested_amount_v;
              let amount := py_min suggested_amount (inject_Z max_amount) in
              let amount := (floordiv100 amount * 100)%Z in
              if (amount <? 100)%Z then skip else
              let stock_cost := (inject_Z amount * price)%Q in
              let commission := py_max (stock_cost * (3 # 10000)) 5 in
              let total_cost := (stock_cost + commission)%Q in
              if Qlt_bool (cash state) total_cost then skip else
              let max_single_position := (total_assets state * (40 # 100))%Q in
              if Qlt_bool max_single_position stock_cost then skip else
              buy_stock env d c amount price stock_cost commission total_cost
                        state processed (bl_trades acc)
          | _ => skip
          end
      | VDict _ => raise TypeError        (* unhashable: code in processed_codes *)
      | _ => ret acc                      (* the provider has no bar for a number *)
      end
  | _ => ret acc
  end.

Definition _execute_buys (env : Env) (state : TradingState) : M TradingState :=
  if (max_holdings env <=? Z.of_nat (size (holdings state)))%Z
  then ret (set_buy_trades [] state) else
  let min_cash_reserve := (initial_capital state * (5 # 100))%Q in
  if Qlt_bool (cash state) min_cash_reserve
  then ret (set_buy_trades [] state) else
  let max_buy_cash := (cash state * (95 # 100))%Q in   (* computed, never used *)
  do r <- for_each (buy_decision env) (buy_analysis state)
            {| bl_state := state; bl_processed := ∅; bl_trades := [] |};
  ret (set_buy_trades (bl_trades r) (bl_state r)).

(** ** Node 7: [_record_daily_assets] *)

(** One term of [sum(h['amount'] * h['current_price'])]. *)
Definition market_value (acc : Q) (l : loc) : M Q :=
  do h <- deref l;
  do amount_v <- getitem "amount" h;
  do price_v <- getitem "current_price" h;
  do amount <- as_num amount_v;
  do price <- as_num price_v;
  ret (acc + amount * price)%Q.

Definition _record_daily_assets (state : TradingState) : M TradingState :=
  do holdings_value <- for_each (fun l acc => market_value acc l)
                                (snd <$> map_to_list (holdings state)) 0%Q;
  let total := (cash state + holdings_value)%Q in
  let daily_record : pydict :=
    [ ("date", VStr (trade_date state));
      ("total_assets", VNum total);
      ("cash", VNum (cash state));
      ("holdings_value", VNum holdings_value);
      ("holdings_count", VNum (inject_Z (Z.of_nat (size (holdings state))))) ] in
  ret (set_daily_assets (daily_assets state ++ [daily_record])
         (set_total_assets total state)).

(** ** The agent and [run_single_day] *)

(** The attributes of [self] that a trading day reads and writes. [H] is
    what a code maps to in [self.holdings]: a reference while the pipeline
    runs, the holding's dict itself in the recovery layer, which rebuilds
    the holdings from scratch. *)
Record Agent (H : Type) : Type := {
  self_initial_capital : Q;
  self_cash : Q;
  self_holdings : gmap string H;
  self_total_assets : Q;
  self_trade_history : list pydict;
  self_daily_assets : list pydict
}.
Arguments self_initial_capital {H} _.
Arguments self_cash {H} _.
Arguments self_holdings {H} _.
Arguments self_total_assets {H} _.
Arguments self_trade_history {H} _.
Arguments self_daily_assets {H} _.

(** The four nodes that talk to the LLM or to the candidate pool. What
    they do to the state is a parameter of the pipeline. *)
Record Nodes : Type := {
  _evaluate_holdings : TradingState -> M TradingState;
  _find_candidates : TradingState -> M TradingState;
  analyze_llm : nat -> llm_reply;
  _daily_reflection : TradingState -> M TradingState
}.

(** [self.app.invoke(state)]: the eight nodes in the order of
    [_build_workflow]. *)
Definition app_invoke (env : Env) (nodes : Nodes) (state : TradingState) : M TradingState :=
  do s <- _update_holdings_prices env state;
  do s <- _evaluate_holdings nodes s;
  do s <- _execute_sells env s;
  do s <- _find_candidates nodes s;
  do s <- _analyze_candidates env (analyze_llm nodes) s;
  do s <- _execute_buys env s;
  do s <- _record_daily_assets s;
  _daily_reflection nodes s.

(** [run_single_day]. It returns nothing; what is observable is [self],
    the store, and whether the call raised. [dict(self.holdings)] copies
    the mapping from codes to references, not the dicts referred to. The
    UI callback that follows a successful run is left out. *)
Definition run_single_day (env : Env) (nodes : Nodes) (date : string)
    (self : Agent loc) (h : heap) : Agent loc * outcome unit * heap :=
  if should_stop env then (self, Ok tt, h) else
  let state :=
    {| trade_date := date; cash := self_cash self;
       initial_capital := self_initial_capital self;
       holdings := self_holdings self; total_assets := self_total_assets self;
       candidates := []; sell_analysis := []; buy_analysis := [];
       sell_trades := []; buy_trades := [];
       trade_history := self_trade_history self;
       daily_assets := self_daily_assets self |} in
  let pre_state :=
    {| self_initial_capital := self_initial_capital self;
       self_cash := self_cash self;
       self_holdings := self_holdings self;
       self_total_assets := self_total_assets self;
       self_trade_history := self_trade_history self;
       self_daily_assets := self_daily_assets self |} in
  match app_invoke env nodes state h with
  | (Ok result_state, h') =>
      ({| self_initial_capital := self_initial_capital self;
          self_cash := cash result_state;
          self_holdings := holdings result_state;
          self_total_assets := total_assets result_state;
          self_trade_history := trade_history result_state;
          self_daily_assets := daily_assets result_state |}, Ok tt, h')
  | (Raise e, h') => (pre_state, Raise e, h')
  end.

(** What an observer reads through [self.holdings]: every code with the
    current content of its holding. *)
Definition holdings_view (h : heap) (hs : gmap string loc) : gmap string pydict :=
  (fun l => h !!! l) <$> hs.

(** ** The recovery layer: [detect_data_corruption] and [rollback_to_date]

    These methods read [self] only through values, so [self.holdings] maps
    a code to the holding's dict itself here. They raise or return without
    touching a shared store; [pure] computations are [outcome]s. *)

Definition obind {A B} (m : outcome A) (f : A -> outcome B) : outcome B :=
  match m with Ok a => f a | Raise e => Raise e end.

Notation "'let*' x := m 'in' k" := (obind m (fun x => k))
  (at level 10, x name, m at level 100, k at level 200, right associativity).

(** A number, or TypeError. *)
Definition num (v : pyval) : outcome Q :=
  match v with VNum q => Ok q | _ => Raise TypeError end.

Fixpoint ofold {A S} (body : A -> S -> outcome S) (xs : list A) (s : S) : outcome S :=
  match xs with
  | [] => Ok s
  | x :: xs' => let* s' := body x s in ofold body xs' s'
  end.

(** ['-' in s] *)
Fixpoint has_dash (s : string) : bool :=
  match s with
  | EmptyString => false
  | String a s' => Ascii.eqb a "-"%char || has_dash s'
  end.

(** [f"{s[:4]}-{s[4:6]}-{s[6:8]}"] *)
Definition to_iso (s : string) : string :=
  substring 0 4 s ++ "-" ++ substring 4 2 s ++ "-" ++ substring 6 2 s.

(** [if '-' not in s and len(s) == 8: s = f"..."] *)
Definition normalize_date (s : string) : string :=
  if negb (has_dash s) && Nat.eqb (String.length s) 8 then to_iso s else s.

(** ['-' in d] for a dict: a key test. *)
Definition has_dash_key (d : pydict) : bool :=
  match dget "-" d with Some _ => true | None => false end.

(** The second component of what [detect_data_corruption] returns: a
    value, or the [datetime] object [prev_date] (as a day number). *)
Inductive report : Type :=
| RVal (v : pyval)
| RDatetime (d : Z).

(** [sum(h.get('amount', 0) * h.get('current_price', h.get('price', 0))
        for h in self.holdings.values())] *)
Definition recovery_holdings_value (hs : gmap string pydict) : outcome Q :=
  ofold (fun h acc =>
           let* amount := num (dget_or "amount" (VNum 0) h) in
           let* price := num (dget_or "current_price" (dget_or "price" (VNum 0) h) h) in
           Ok (acc + amount * price)%Q)
        (snd <$> map_to_list hs) 0%Q.

(** [_get_first_date] *)
Definition _get_first_date (daily_assets : list pydict) : outcome pyval :=
  match daily_assets with
  | [] => Ok VNone
  | first_entry :: _ =>
      match dget_or "date" VNone first_entry with
      | VStr s => Ok (VStr (normalize_date s))
      | VNum q => if Qeq_bool q 0 then Ok (VNum q) else Raise TypeError
      | VDict d =>
          match d with
          | [] => Ok (VDict d)
          | _ => if negb (has_dash_key d) && Nat.eqb (length d) 8
                 then Raise TypeError else Ok (VDict d)
          end
      | VNone => Ok VNone
      end
  end.

(** [_get_trade_date_for_sort]: a string, or the date itself when it is a
    dict the function lets through. *)
Inductive sort_key : Type :=
| KStr (s : string)
| KDict.

Definition _get_trade_date_for_sort (trade : pydict) : sort_key :=
  let trade_date := py_or (dget_or "date" VNone trade) (dget_or "trade_date" VNone trade) in
  if negb (truthy trade_date) then KStr "0000-00-00" else
  match trade_date with
  | VStr s => KStr (normalize_date s)
  | VDict d => if negb (has_dash_key d) && Nat.eqb (length d) 8
               then KStr "0000-00-00" else KDict
  | _ => KStr "0000-00-00"
  end.

Definition key_string (k : sort_key) : string :=
  match k with KStr s => s | KDict => "" end.

Fixpoint insert_by_date (t : pydict) (sorted : list pydict) : list pydict :=
  match sorted with
  | [] => [t]
  | u :: rest =>
      if String.ltb (key_string (_get_trade_date_for_sort t))
                    (key_string (_get_trade_date_for_sort u))
      then t :: u :: rest
      else u :: insert_by_date t rest
  end.

(** [sorted(trades, key=_get_trade_date_for_sort)]: stable; comparing a
    dict key with anything is a TypeError. *)
Definition sorted_by_date (trades : list pydict) : outcome (list pydict) :=
  if existsb (fun t => match _get_trade_date_for_sort t with KDict => true | _ => false end)
             trades
     && Nat.leb 2 (length trades)
  then Raise TypeError
  else Ok (foldl (fun acc t => insert_by_date t acc) [] trades).

(** The body of [for trade in sorted_trades]. A numeric stock code cannot
    be a key of the model's holdings; it is treated like the unhashable
    one. *)
Definition replay_trade (trade : pydict) (hs : gmap string pydict)
    : outcome (gmap string pydict) :=
  let code := py_or (dget_or "code" VNone trade) (dget_or "stock_code" VNone trade) in
  if negb (truthy code) then Ok hs else
  match code with
  | VStr c =>
      let action := dget_or "action" VNone trade in
      let amount_v := dget_or "amount" (VNum 0) trade in
      let price_v := dget_or "price" (VNum 0) trade in
      if py_eq_str action "buy" then
        match hs !! c with
        | Some holding =>
            let* old_amount := num (dget_or "amount" VNone holding) in
            let* old_cost := num (dget_or "cost" VNone holding) in
            let* amount := num amount_v in
            let new_amount := (old_amount + amount)%Q in
            let* price := num price_v in
            let new_cost := (old_cost + amount * price)%Q in
            let avg := if Qlt_bool 0 new_amount then VNum (new_cost / new_amount) else price_v in
            Ok (<[c := dset "price" avg
                         (dset "cost" (VNum new_cost)
                            (dset "amount" (VNum new_amount) holding))]> hs)
        | None =>
            let* amount := num amount_v in
            let* price := num price_v in
            Ok (<[c := [ ("amount", amount_v);
                         ("cost", VNum (amount * price));
                         ("price", price_v);
                         ("current_price", price_v) ]]> hs)
        end
      else if py_eq_str action "sell" then
        match hs !! c with
        | Some holding =>
            let* old_amount := num (dget_or "amount" VNone holding) in
            let* amount := num amount_v in
            let left := (old_amount - amount)%Q in
            if Qle_bool left 0 then Ok (delete c hs) else
            if Qeq_bool (left + amount) 0 then Raise ZeroDivisionError else
            let sell_ratio := (amount / (left + amount))%Q in
            let* cost := num (dget_or "cost" VNone holding) in
            Ok (<[c := dset "cost" (VNum (cost * (1 - sell_ratio)))
                         (dset "amount" (VNum left) holding)]> hs)
        | None => Ok hs
        end
      else Ok hs
  | _ => Raise TypeError
  end.

Definition replay_trades (trades : list pydict) : outcome (gmap string pydict) :=
  ofold replay_trade trades ∅.

Section Recovery.

(** [datetime.strptime(s, '%Y-%m-%d')] as a day number; [None] is its
    ValueError. *)
Variable strptime : string -> option Z.

(** [self._update_holdings_current_prices(last_date)] is called by
    [rollback_to_date] inside a [try] and is not defined in the class;
    [None] is the call raising. *)
Variable _update_holdings_current_prices :
  pyval -> gmap string pydict -> option (gmap string pydict).

(** *** [detect_data_corruption] *)

(** [prev_date] and [self._prev_assets] between two rounds of the loop. *)
Record scan : Type := {
  prev_date : option Z;
  _prev_assets : option Q
}.

Inductive scan_step : Type :=
| Stop (r : outcome (bool * report))
| Continue (s : scan).

(** [return True, self._get_first_date() if prev_date is None else prev_date].
    When [_get_first_date] raises, the handler of [detect_data_corruption]
    calls it again and the exception escapes. *)
Definition first_or_prev (daily_assets : list pydict) (s : scan) : scan_step :=
  match prev_date s with
  | Some d => Stop (Ok (true, RDatetime d))
  | None => Stop (let* v := _get_first_date daily_assets in Ok (true, RVal v))
  end.

Definition flag (date_str : string) : scan_step := Stop (Ok (true, RVal (VStr date_str))).

(** The date of an entry as the loop rewrites it ([entry['date'] = date_str]). *)
Definition entry_date_str (original : string) : string :=
  if has_dash original then original else to_iso original.

(** The body of [for idx, entry in enumerate(self.daily_assets)]. *)
Definition check_entry (daily_assets : list pydict) (s : scan) (entry : pydict) : scan_step :=
  match dget_or "date" VNone entry with
  | VStr original =>
      if String.eqb original "" then first_or_prev daily_assets s else
      if negb (has_dash original) && negb (Nat.eqb (String.length original) 8)
      then first_or_prev daily_assets s else
      let date_str := entry_date_str original in
      match strptime date_str with
      | None => first_or_prev daily_assets s
      | Some date_obj =>
          if match prev_date s with Some p => (date_obj <? p)%Z | None => false end
          then flag date_str else
          match py_or (dget_or "total_assets" VNone entry) (dget_or "assets" VNone entry) with
          | VNum total_assets =>
              if Qlt_bool total_assets 0 then flag date_str else
              let cash_check :=
                match dget_or "cash" (VNum 0) entry with
                | VNum cash =>
                    if Qlt_bool cash 0 then flag date_str
                    else Continue {| prev_date := Some date_obj;
                                     _prev_assets := Some total_assets |}
                | _ => flag date_str
                end in
              match prev_date s, _prev_assets s with
              | Some p, Some prev_assets_val =>
                  if Qlt_bool 0 prev_assets_val then
                    let asset_change_pct :=
                      ((total_assets - prev_assets_val) / prev_assets_val * 100)%Q in
                    let days_diff := (date_obj - p)%Z in
                    if (3 <? days_diff)%Z then flag date_str
                    else if (days_diff =? 1)%Z then
                      if Qlt_bool asset_change_pct (-12) || Qlt_bool 30 asset_change_pct
                      then flag date_str else cash_check
                    else if (1 <? days_diff)%Z then
                      let max_allowed_change := inject_Z (days_diff * 10) in
                      if Qlt_bool max_allowed_change (Qabs asset_change_pct)
                      then flag date_str else cash_check
                    else cash_check
                  else cash_check
              | _, _ => cash_check
              end
          | _ => flag date_str
          end
      end
  | _ => first_or_prev daily_assets s
  end.

Fixpoint scan_entries (daily_assets : list pydict) (s : scan) (entries : list pydict)
    : scan_step :=
  match entries with
  | [] => Continue s
  | entry :: rest =>
      match check_entry daily_assets s entry with
      | Stop r => Stop r
      | Continue s' => scan_entries daily_assets s' rest
      end
  end.

(** The date strings of [self.daily_assets] once the loop has rewritten
    them. *)
Definition daily_dates (daily_assets : list pydict) : list string :=
  omap (fun entry => match dget_or "date" VNone entry with
                     | VStr s => Some (entry_date_str s)
                     | _ => None
                     end) daily_assets.

(** The body of [for trade in self.trade_history] (check 3): [None] goes
    on to the next trade. *)
Definition check_trade (dates : list string) (trade : pydict)
    : option (outcome (bool * report)) :=
  let trade_date := py_or (dget_or "date" VNone trade) (dget_or "trade_date" VNone trade) in
  if negb (truthy trade_date) then None else
  match trade_date with
  | VStr original =>
      if negb (has_dash original) && negb (Nat.eqb (String.length original) 8)
      then Some (Ok (true, RVal (VStr original))) else
      let trade_date := entry_date_str original in
      if existsb (String.eqb trade_date) dates then None
      else Some (Ok (true, RVal (VStr trade_date)))
  | VDict d =>
      if has_dash_key d || Nat.eqb (length d) 8 then Some (Raise TypeError)
      else Some (Ok (true, RVal (VDict d)))
  | _ => Some (Raise TypeError)
  end.

Fixpoint check_trades (dates : list string) (trades : list pydict)
    : outcome (bool * report) :=
  match trades with
  | [] => Ok (false, RVal VNone)
  | trade :: rest =>
      match check_trade dates trade with
      | Some r => r
      | None => check_trades dates rest
      end
  end.

(** Checks 2 and 3, after the loop has accepted every entry. *)
Definition check_state (self : Agent pydict) : outcome (bool * report) :=
  match last (self_daily_assets self) with
  | None => Ok (false, RVal VNone)
  | Some last_entry =>
      let* last_total :=
        num (py_or (dget_or "total_assets" VNone last_entry)
                   (dget_or "assets" (VNum 0) last_entry)) in
      let* holdings_value := recovery_holdings_value (self_holdings self) in
      let expected_total := (self_cash self + holdings_value)%Q in
      if Qlt_bool (expected_total * (5 # 100)) (Qabs (last_total - expected_total))
         && Qlt_bool 100 expected_total
      then Ok (true, RVal match dget_or "date" VNone last_entry with
                          | VStr s => VStr (entry_date_str s)
                          | v => v
                          end)
      else check_trades (daily_dates (self_daily_assets self)) (self_trade_history self)
  end.

(** [detect_data_corruption]: [(is_corrupted, first_corrupted_date)], or
    the exception that escapes its handler. An exception inside the [try]
    gives [(True, self._get_first_date())]. *)
Definition detect_data_corruption (self : Agent pydict) : outcome (bool * report) :=
  match self_daily_assets self with
  | [] => Ok (false, RVal VNone)
  | _ =>
      match scan_entries (self_daily_assets self)
                         {| prev_date := None; _prev_assets := None |}
                         (self_daily_assets self) with
      | Stop r => r
      | Continue _ =>
          match check_state self with
          | Ok r => Ok r
          | Raise _ => let* v := _get_first_date (self_daily_assets self) in Ok (true, RVal v)
          end
      end
  end.

(** *** [rollback_to_date] *)

(** [_is_trade_before_date]; its bare [except] keeps every trade whose
    date cannot be read. *)
Definition _is_trade_before_date (trade : pydict) (target_dt : Z) : bool :=
  match py_or (dget_or "date" VNone trade) (dget_or "trade_date" VNone trade) with
  | VStr s =>
      if String.eqb s "" then true else
      if negb (has_dash s) && negb (Nat.eqb (String.length s) 8) then true else
      match strptime (entry_date_str s) with
      | Some trade_dt => (trade_dt <? target_dt)%Z
      | None => true
      end
  | _ => true
  end.

(** The body of the loop that builds [filtered_assets]. *)
Definition filter_entry (target_dt : Z) (entry : pydict) (filtered : list pydict)
    : outcome (list pydict) :=
  let entry_date := dget_or "date" VNone entry in
  if negb (truthy entry_date) then Ok filtered else
  match entry_date with
  | VStr s =>
      let entry_date := normalize_date s in
      let entry := if negb (has_dash s) && Nat.eqb (String.length s) 8
                   then dset "date" (VStr entry_date) entry else entry in
      match strptime entry_date with
      | Some entry_dt =>
          if (entry_dt <? target_dt)%Z then Ok (filtered ++ [entry])%list else Ok filtered
      | None => Ok filtered
      end
  | _ => Raise TypeError
  end.

(** [rollback_to_date]: [Some] is the agent after a call that returned
    [True]; [None] is a call that returned [False] (the fields assigned
    before the exception stay assigned; that state is not described). *)
Definition rollback_to_date (self : Agent pydict) (target_date : string)
    : option (Agent pydict) :=
  let target_date := normalize_date target_date in
  match strptime target_date with
  | None => None
  | Some target_dt =>
      match ofold (filter_entry target_dt) (self_daily_assets self) [] with
      | Raise _ => None
      | Ok filtered_assets =>
          let trade_history :=
            List.filter (fun trade => _is_trade_before_date trade target_dt)
                        (self_trade_history self) in
          match last filtered_assets with
          | Some last_entry =>
              let last_date := dget_or "date" VNone last_entry in
              let total_assets_v :=
                py_or (dget_or "total_assets" VNone last_entry)
                      (dget_or "assets" (VNum (self_initial_capital self)) last_entry) in
              let cash_v := dget_or "cash" total_assets_v last_entry in
              let result :=
                let* sorted_trades := sorted_by_date trade_history in
                let* replayed := replay_trades sorted_trades in
                let holdings :=
                  match _update_holdings_current_prices last_date replayed with
                  | Some updated => updated
                  | None => replayed
                  end in
                let* holdings_value := recovery_holdings_value holdings in
                let* total_assets := num total_assets_v in
                let expected_cash := (total_assets - holdings_value)%Q in
                let* cash := if Qle_bool 0 expected_cash then Ok expected_cash
                             else num cash_v in
                Ok {| self_initial_capital := self_initial_capital self;
                      self_cash := cash;
                      self_holdings := holdings;
                      self_total_assets := total_assets;
                      self_trade_history := trade_history;
                      self_daily_assets := filtered_assets |} in
              match result with Ok self' => Some self' | Raise _ => None end
          | None =>
              Some {| self_initial_capital := self_initial_capital self;
                      self_cash := self_initial_capital self;
                      self_holdings := ∅;
                      self_total_assets := self_initial_capital self;
                      self_trade_history := trade_history;
                      self_daily_assets := [] |}
          end
      end
  end.

End Recovery.

(** *** A concrete [strptime] for zero-padded dates

    [strptime_iso] reads the ten-character form [YYYY-MM-DD], checks that
    the date exists, and numbers the days (day 0 is 1970-01-01). It is the
    parser the worked examples below are run with; the theorems hold for
    every parser. *)

Definition digit (a : ascii) : option Z :=
  let n := Z.of_nat (nat_of_ascii a) in
  if ((48 <=? n) && (n <=? 57))%Z then Some (n - 48)%Z else None.

Fixpoint digits (s : string) (acc : Z) : option Z :=
  match s with
  | EmptyString => Some acc
  | String a s' => match digit a with
                   | Some d => digits s' (acc * 10 + d)%Z
                   | None => None
                   end
  end.

Definition is_leap (y : Z) : bool :=
  ((y mod 4 =? 0) && (negb (y mod 100 =? 0) || (y mod 400 =? 0)))%Z.

Definition days_in_month (y m : Z) : Z :=
  if (m =? 2)%Z then (if is_leap y then 29 else 28)%Z
  else if ((m =? 4) || (m =? 6) || (m =? 9) || (m =? 11))%Z then 30%Z
  else 31%Z.

Definition days_from_civil (y m d : Z) : Z :=
  let y' := (if m <=? 2 then y - 1 else y)%Z in
  let era := (y' / 400)%Z in
  let yoe := (y' - era * 400)%Z in
  let doy := ((153 * (if 2 <? m then m - 3 else m + 9) + 2) / 5 + d - 1)%Z in
  let doe := (yoe * 365 + yoe / 4 - yoe / 100 + doy)%Z in
  (era * 146097 + doe - 719468)%Z.

Definition strptime_iso (s : string) : option Z :=
  if negb (Nat.eqb (String.length s) 10) then None else
  if negb (String.eqb (substring 4 1 s) "-" && String.eqb (substring 7 1 s) "-") then None else
  match digits (substring 0 4 s) 0, digits (substring 5 2 s) 0, digits (substring 8 2 s) 0 with
  | Some y, Some m, Some d =>
      if ((1 <=? y) && (1 <=? m) && (m <=? 12) && (1 <=? d) && (d <=? days_in_month y m))%Z
      then Some (days_from_civil y m d) else None
  | _, _, _ => None
  end.

(** ** What the specification prescribes for a rollback

    The two definitions below follow the words of the specification, to
    be compared with what [rollback_to_date] computes. *)

Definition trade_number (k : string) (t : pydict) : Q :=
  match dget k t with Some (VNum q) => q | _ => 0%Q end.

(** "cash = initial_capital − Σ buy_costs + Σ sell_net_income" over a
    trade log; a buy costs its total plus its commission, a sale brings
    its total less the fees recorded in its commission. *)
Definition spec_cash_from_log (initial_capital : Q) (trades : list pydict) : Q :=
  foldl (fun cash t =>
           if py_eq_str (dget_or "action" VNone t) "buy"
           then (cash - (trade_number "total" t + trade_number "commission" t))%Q
           else if py_eq_str (dget_or "action" VNone t) "sell"
           then (cash + (trade_number "total" t - trade_number "commission" t))%Q
           else cash)
        initial_capital trades.





Open Scope list_scope.

(** * Predicates of the statements *)

(** What one round of the sell loop can have done: nothing to the
    portfolio, or the sale of the whole holding of a code whose
    [hold_days] is not 0. *)
Inductive sell_step (env : Env) (acc : sell_loop) (h : heap) : sell_loop -> Prop :=
| sell_skipped acc' :
    sl_state acc' = sl_state acc -> sl_trades acc' = sl_trades acc ->
    sell_step env acc h acc'
| sell_sold d c l amount_v price_v a p c0 processed :
    holdings (sl_state acc) !! c = Some l ->
    py_eq_num (dget_or "hold_days" (VNum 0) (h !!! l)) 0 = false ->
    dget "amount" (h !!! l) = Some amount_v -> amount_v = VNum a ->
    dget "current_price" (h !!! l) = Some price_v -> price_v = VNum p ->
    dget "cost" (h !!! l) = Some (VNum c0) ->
    Qeq_bool (a * c0) 0 = false ->
    let state := sl_state acc in
    let sell_amount := (a * p)%Q in
    let commission := py_max (sell_amount * (3 # 10000)) 5 in
    let stamp_tax := (sell_amount * (1 # 1000))%Q in
    let net_income := (sell_amount - commission - stamp_tax)%Q in
    let profit := (net_income - a * c0)%Q in
    let t := sell_trade_record env state d c amount_v price_v sell_amount commission
               stamp_tax profit (profit / (a * c0) * 100)%Q in
    sell_step env acc h
      {| sl_state := set_trade_history (trade_history state ++ [t])
                       (set_holdings (delete c (holdings state))
                          (set_cash (cash state + net_income)%Q state));
         sl_processed := processed;
         sl_trades := sl_trades acc ++ [t] |}.

(** What one round of the buy loop can have done: nothing to the
    portfolio, or a purchase that passed the gates of the loop body. *)
Inductive buy_step (env : Env) (decision : pyval) (acc : buy_loop) (h : heap)
  : buy_loop -> heap -> Prop :=
| buy_skipped acc' :
    bl_state acc' = bl_state acc -> bl_trades acc' = bl_trades acc ->
    buy_step env decision acc h acc' h
| buy_bought d c stock_data price suggested e :
    let state := bl_state acc in
    decision = VDict d ->
    dget_or "action" VNone d = VStr "buy" ->
    dget_or "code" VNone d = VStr c ->
    c ∉ bl_processed acc ->
    get_daily_price env c (trade_date state) = Some stock_data ->
    dget_or "close" (VNum 0) stock_data = VNum price ->
    Qle_bool price 0 = false ->
    dget_or "suggested_amount" (VNum 100) d = VNum suggested ->
    let max_amount := (py_int (cash state / price / 100) * 100)%Z in
    let amount := (floordiv100 (py_min suggested (inject_Z max_amount)) * 100)%Z in
    (amount <? 100)%Z = false ->
    let stock_cost := (inject_Z amount * price)%Q in
    let commission := py_max (stock_cost * (3 # 10000)) 5 in
    let total_cost := (stock_cost + commission)%Q in
    Qlt_bool (cash state) total_cost = false ->
    Qlt_bool (total_assets state * (40 # 100)) stock_cost = false ->
    dget_or "exit_plan" (VDict []) d = VDict e ->
    let profit_target := dget_or "profit_target" (VStr "未设置") e in
    let stop_loss := dget_or "stop_loss" (VStr "未设置") e in
    let invalidation := dget_or "invalidation" (VStr "未设置") e in
    let l := fresh (dom h) in
    let cash' := (cash state - total_cost)%Q in
    let t := buy_trade_record env state d c amount price stock_cost commission
               total_cost cash' profit_target stop_loss invalidation in
    buy_step env decision acc h
      {| bl_state := set_trade_history (trade_history state ++ [t])
                       (set_holdings (<[c := l]> (holdings state))
                          (set_cash cash' state));
         bl_processed := {[c]} ∪ bl_processed acc;
         bl_trades := bl_trades acc ++ [t] |}
      (<[l := buy_holding_record env state d c amount price
                profit_target stop_loss invalidation]> h).

(** Every lot bought on date [D] still has [hold_days] 0: what
    [_execute_buys] establishes for the lots of the day, and what makes
    the T+1 check of [_execute_sells] a check of the purchase date. *)
Definition T1_inv (D : string) (h : heap) (hs : gmap string loc) : Prop :=
  forall c l, hs !! c = Some l ->
    py_eq_str (dget_or "buy_date" VNone (h !!! l)) D = true ->
    py_eq_num (dget_or "hold_days" (VNum 0) (h !!! l)) 0 = true.

(** Every reference of the holdings points into the store. *)
Definition holdings_wf (h : heap) (hs : gmap string loc) : Prop :=
  forall c l, hs !! c = Some l -> l ∈ dom h.


(** The fee a sale trade records under ["commission"]. *)
Definition commission_with_stamp_tax (t : pydict) : Prop :=
  exists a p q,
    dget "amount" t = Some (VNum a)
    /\ dget "price" t = Some (VNum p)
    /\ dget "total" t = Some (VNum (a * p))
    /\ dget "commission" t = Some (VNum q)
    /\ (q == Qmax (a * p * (3 # 10000)) 5 + a * p * (1 # 1000))%Q
    /\ dget "stamp_tax" t = None.



(** A decision without an ["exit_plan"]. *)
Definition no_exit_plan (decision : pyval) : Prop :=
  match decision with
  | VDict d => dget "exit_plan" d = None
  | _ => True
  end.

(** A holding or a trade whose exit plan is the placeholder. *)
Definition exit_plan_unset (record : pydict) : Prop :=
  dget "profit_target" record = Some (VStr "未设置")
  /\ dget "stop_loss" record = Some (VStr "未设置")
  /\ dget "invalidation" record = Some (VStr "未设置").

(** ** What a rollback leaves behind *)

Section RolledBack.

Variable strptime : string -> option Z.
Variable _update_holdings_current_prices :
  pyval -> gmap string pydict -> option (gmap string pydict).





End RolledBack.

(** ** Worked example: a log to recover

    200 shares bought at 10 on 2025-01-06, worth 11 a share the next day;
    the entry of 2025-01-08 is damaged. [_update_holdings_current_prices]
    is not defined in the class, so the call raises. *)

Definition no_price_update : pyval -> gmap string pydict -> option (gmap string pydict) :=
  fun _ _ => None.

Definition daily_point (date : string) (total cash : Q) : pydict :=
  [("date", VStr date); ("total_assets", VNum total); ("cash", VNum cash)].

Definition damaged_agent : Agent pydict :=
  {| self_initial_capital := 10000;
     self_cash := 7995;
     self_holdings := {[ "000001.SZ" := [("amount", VNum 200); ("cost", VNum 10);
                                         ("current_price", VNum 11)] ]};
     self_total_assets := 5000;
     self_trade_history :=
       [ [("date", VStr "20250106"); ("action", VStr "buy"); ("code", VStr "000001.SZ");
          ("amount", VNum 200); ("price", VNum 10); ("total", VNum 2000);
          ("commission", VNum 5)] ];
     self_daily_assets :=
       [ daily_point "20250106" 9995 7995;
         daily_point "20250107" 10195 7995;
         daily_point "20250108" 5000 7995 ] |}.

(** A curve that rises by 20% from one day to the next. *)
Definition rising_agent : Agent pydict :=
  {| self_initial_capital := 10000;
     self_cash := 12000;
     self_holdings := ∅;
     self_total_assets := 12000;
     self_trade_history := [];
     self_daily_assets :=
       [ daily_point "20250103" 10000 10000;
         daily_point "20250104" 12000 12000 ] |}.

(** ** Worked examples: a market, an agent and its LLM *)

Definition set_candidates (cs : list pydict) (s : TradingState) : TradingState :=
  {| trade_date := trade_date s; cash := cash s; initial_capital := initial_capital s;
     holdings := holdings s; total_assets := total_assets s;
     candidates := cs;
     sell_analysis := sell_analysis s; buy_analysis := buy_analysis s;
     sell_trades := sell_trades s; buy_trades := buy_trades s;
     trade_history := trade_history s; daily_assets := daily_assets s |}.

Definition set_sell_analysis (ds : list pyval) (s : TradingState) : TradingState :=
  {| trade_date := trade_date s; cash := cash s; initial_capital := initial_capital s;
     holdings := holdings s; total_assets := total_assets s;
     candidates := candidates s;
     sell_analysis := ds; buy_analysis := buy_analysis s;
     sell_trades := sell_trades s; buy_trades := buy_trades s;
     trade_history := trade_history s; daily_assets := daily_assets s |}.

(** A provider that knows the closes of a table [(code, date, close)]. *)
Definition table_env (closes : list (string * string * Q)) (max_h : Z) : Env :=
  {| get_daily_price := fun code date =>
       match List.find (fun '(c, d, _) => String.eqb c code && String.eqb d date) closes with
       | Some (_, _, close) => Some [("trade_date", VStr date); ("code", VStr code);
                                     ("close", VNum close)]
       | None => None
       end;
     get_stock_basic_info := fun code => [("code", VStr code); ("name", VStr code)];
     now := "15:00:00";
     max_holdings := max_h;
     ai_confidence_threshold := 3 # 10;
     should_stop := false |}.

(** An agent before its first day. *)
Definition new_agent (capital : Q) : Agent loc :=
  {| self_initial_capital := capital; self_cash := capital; self_holdings := ∅;
     self_total_assets := capital; self_trade_history := []; self_daily_assets := [] |}.

(** A day on which the sell analysis yields [sells], the candidate pool
    is [pool] and the LLM answers the buy prompt with [buys]; no
    reflection. *)
Definition day_nodes (sells : list pyval) (pool : list pydict) (buys : list pyval) : Nodes :=
  {| _evaluate_holdings := fun s => ret (set_sell_analysis sells s);
     _find_candidates := fun s => ret (set_candidates pool s);
     analyze_llm := fun _ => LlmReturns buys;
     _daily_reflection := fun s => ret s |}.

Definition candidate (code : string) : pydict := [("code", VStr code); ("name", VStr code)].

(** A buy decision as the LLM words it. *)
Definition llm_buy (code : string) (amount : pyval) : pyval :=
  VDict [ ("stock_code", VStr code);
          ("suggested_amount", amount);
          ("confidence", VNum (8 # 10));
          ("reason", VStr "breakout on volume");
          ("expected_days", VNum 3);
          ("exit_plan", VDict [ ("profit_target", VStr "+8%");
                                ("stop_loss", VStr "-4%");
                                ("invalidation", VStr "closes below MA20") ]) ].

Definition sell_order (code : string) : pyval :=
  VDict [("action", VStr "sell"); ("code", VStr code); ("reason", VStr "stop loss")].

Definition closes_2025 : list (string * string * Q) :=
  [ ("000001.SZ", "20250106", 10%Q); ("000001.SZ", "20250107", 11%Q);
    ("600000.SH", "20250106", 10%Q); ("600000.SH", "20250107", 10%Q) ].

(** Day 1 of the examples: 200 shares of 000001.SZ bought at 10. *)
Definition day1 : Agent loc * outcome unit * heap :=
  run_single_day (table_env closes_2025 5)
    (day_nodes [] [candidate "000001.SZ"] [llm_buy "000001.SZ" (VNum 200)])
    "20250106" (new_agent 10000) ∅.

Definition agent_after_day1 : Agent loc := fst (fst day1).
Definition heap_after_day1 : heap := snd day1.

(** Prices at which five purchases of 100 shares use up the cash to the
    last cent, and the fifth stock collapses the next day. Every price,
    cost and balance of the example is a binary fraction, so the code's
    floating-point arithmetic is exact on it. *)
Definition closes_collapse : list (string * string * Q) :=
  [ ("000001.SZ", "20250106", 20%Q); ("000001.SZ", "20250107", 20%Q);
    ("600000.SH", "20250106", 20%Q); ("600000.SH", "20250107", 20%Q);
    ("000002.SZ", "20250106", 20%Q); ("000002.SZ", "20250107", 20%Q);
    ("600036.SH", "20250106", 20%Q); ("600036.SH", "20250107", 20%Q);
    ("000858.SZ", "20250106", 79 # 4); ("000858.SZ", "20250107", 1 # 32) ].

(** Day 2: the LLM recommends 100 more shares of the stock already held. *)
Definition day2_rebuy : Agent loc * outcome unit * heap :=
  run_single_day (table_env closes_2025 5)
    (day_nodes [] [candidate "000001.SZ"] [llm_buy "000001.SZ" (VNum 100)])
    "20250107" agent_after_day1 heap_after_day1.

(** Day 2: the LLM writes the amount as a string, ["200"]. *)
Definition day2_failing : Agent loc * outcome unit * heap :=
  run_single_day (table_env closes_2025 5)
    (day_nodes [] [candidate "600000.SH"] [llm_buy "600000.SH" (VStr "200")])
    "20250107" agent_after_day1 heap_after_day1.

(** Five purchases that use up the cash, then the sale of the stock that
    collapsed. *)
Definition collapse_day1 : Agent loc * outcome unit * heap :=
  run_single_day (table_env closes_collapse 5)
    (day_nodes []
       [candidate "000001.SZ"; candidate "600000.SH"; candidate "000002.SZ";
        candidate "600036.SH"; candidate "000858.SZ"]
       [llm_buy "000001.SZ" (VNum 100); llm_buy "600000.SH" (VNum 100);
        llm_buy "000002.SZ" (VNum 100); llm_buy "600036.SH" (VNum 100);
        llm_buy "000858.SZ" (VNum 100)])
    "20250106" (new_agent 10000) ∅.

Definition collapse_day2 : Agent loc * outcome unit * heap :=
  run_single_day (table_env closes_collapse 5)
    (day_nodes [sell_order "000858.SZ"] [] [])
    "20250107" (fst (fst collapse_day1)) (snd collapse_day1).

(** The state dict of a day that starts from an agent. *)
Definition state_of (self : Agent loc) (date : string) : TradingState :=
  {| trade_date := date; cash := self_cash self;
     initial_capital := self_initial_capital self;
     holdings := self_holdings self; total_assets := self_total_assets self;
     candidates := []; sell_analysis := []; buy_analysis := [];
     sell_trades := []; buy_trades := [];
     trade_history := self_trade_history self;
     daily_assets := self_daily_assets self |}.

(** The sell loop about to process its first decision. *)
Definition sell_loop_start (state : TradingState) : sell_loop :=
  {| sl_state := state; sl_processed := ∅; sl_trades := [] |}.


(** The holding of day 1 one day later, at a close of 11 (scenario A of
    the specification). *)
Definition aged_heap : heap :=
  {[ 1%positive := [ ("amount", VNum 200); ("cost", VNum 10); ("current_price", VNum 11);
                      ("profit_pct", VNum 10); ("hold_days", VNum 1);
                      ("buy_date", VStr "20250106") ] ]}.

Definition buy_order (code : string) (amount : Q) : pyval :=
  VDict [("code", VStr code); ("action", VStr "buy"); ("suggested_amount", VNum amount)].


(** ** More of the agent: dates, results, the scan for a gap *)

(** [_normalize_trade_date]: [trade_date.replace('-', '')]. *)
Fixpoint _normalize_trade_date (trade_date : string) : string :=
  match trade_date with
  | EmptyString => EmptyString
  | String a rest =>
      if Ascii.eqb a "-"%char then _normalize_trade_date rest
      else String a (_normalize_trade_date rest)
  end.

(** A date in the form [YYYY-MM-DD], as far as its dashes go: ten
    characters, dashes in the two places and nowhere else. *)
Definition iso_shaped (s : string) : Prop :=
  String.length s = 10%nat
  /\ substring 4 1 s = "-"
  /\ substring 7 1 s = "-"
  /\ has_dash (substring 0 4 s) = false
  /\ has_dash (substring 5 2 s) = false
  /\ has_dash (substring 8 2 s) = false.

(** *** [_calculate_result] *)

(** The dict [_calculate_result] returns. *)
Record BacktestResult : Type := {
  res_initial_capital : Q;
  res_final_assets : Q;
  res_total_return : Q;
  res_max_drawdown : Q;
  res_win_rate : Q;
  res_trade_count : nat;
  res_daily_assets : list pydict;
  res_trade_history : list pydict;
  res_holdings : gmap string loc
}.

(** The body of [for record in state['daily_assets']]; the loop carries
    [peak] and [max_drawdown]. *)
Definition drawdown_step (record : pydict) (acc : Q * Q) : outcome (Q * Q) :=
  let '(peak, max_drawdown) := acc in
  match dget "total_assets" record with
  | None => Raise (KeyError "total_assets")
  | Some v =>
      let* assets := num v in
      let peak := if Qlt_bool peak assets then assets else peak in
      if Qeq_bool peak 0 then Raise ZeroDivisionError else
      let drawdown := ((peak - assets) / peak * 100)%Q in
      Ok (peak, if Qlt_bool max_drawdown drawdown then drawdown else max_drawdown)
  end.

(** [t.get('action') == 'sell'] *)
Definition is_sell (t : pydict) : bool := py_eq_str (dget_or "action" VNone t) "sell".

(** [t.get('action') == 'sell' and t.get('profit', 0) > 0] *)
Definition is_win (t : pydict) : outcome bool :=
  if is_sell t then
    let* profit := num (dget_or "profit" (VNum 0) t) in Ok (Qlt_bool 0 profit)
  else Ok false.

(** The list comprehension [win_trades]. *)
Definition win_trades (trade_history : list pydict) : outcome (list pydict) :=
  ofold (fun t acc => let* win := is_win t in Ok (if win then acc ++ [t] else acc)%list)
        trade_history [].

Definition _calculate_result (state : TradingState) : outcome BacktestResult :=
  let initial_capital := initial_capital state in
  let final_assets := total_assets state in
  if Qeq_bool initial_capital 0 then Raise ZeroDivisionError else
  let total_return := ((final_assets - initial_capital) / initial_capital * 100)%Q in
  let* scanned := ofold drawdown_step (daily_assets state) (initial_capital, 0%Q) in
  let max_drawdown := snd scanned in
  let* win_trades := win_trades (trade_history state) in
  let total_sell_trades := List.filter is_sell (trade_history state) in
  let win_rate :=
    match total_sell_trades with
    | [] => 0%Q
    | _ => (inject_Z (Z.of_nat (length win_trades))
            / inject_Z (Z.of_nat (length total_sell_trades)) * 100)%Q
    end in
  Ok {| res_initial_capital := initial_capital;
        res_final_assets := final_assets;
        res_total_return := total_return;
        res_max_drawdown := max_drawdown;
        res_win_rate := win_rate;
        res_trade_count := length total_sell_trades;
        res_daily_assets := daily_assets state;
        res_trade_history := trade_history state;
        res_holdings := holdings state |}.

(** *** [find_first_continuous_data_end] *)

Section GapScan.

(** [datetime.strptime(s, '%Y-%m-%d')] as a day number, [None] being its
    ValueError, and [d.strftime('%Y-%m-%d')]. *)
Variable strptime : string -> option Z.
Variable strftime : Z -> string.

(** [prev_date_obj.strftime('%Y-%m-%d')] if there is a previous date,
    [None] otherwise. *)
Definition last_continuous (prev_date_obj : option Z) : option string :=
  strftime <$> prev_date_obj.

(** The loop over [self.daily_assets], from the entry it stands at:
    the entries as the loop leaves them (it rewrites the date of an entry
    in the form without dashes) and what the method returns,
    [(last_continuous_date, first_gap_date)]. A truthy date that is not
    a string ends in a TypeError: a number cannot be searched for a dash,
    a dict is no argument for [strptime] nor for a slice (for a dict of
    eight keys without the key ["-"], Python 3.12 and later raise KeyError
    at the slice instead). *)
Fixpoint find_gap (prev_date_obj : option Z) (entries : list pydict)
    : list pydict * outcome (option string * option string) :=
  match entries with
  | [] => ([], Ok (last_continuous prev_date_obj, None))
  | entry :: rest =>
      let skip prev entry' :=
        let '(rest', r) := find_gap prev rest in (entry' :: rest', r) in
      let date := dget_or "date" VNone entry in
      if negb (truthy date) then skip prev_date_obj entry else
      match date with
      | VStr s =>
          let date_str := normalize_date s in
          let entry' := if negb (has_dash s) && Nat.eqb (String.length s) 8
                        then dset "date" (VStr date_str) entry else entry in
          match strptime date_str with
          | None => (entry' :: rest, Ok (last_continuous prev_date_obj, Some date_str))
          | Some date_obj =>
              match prev_date_obj with
              | Some p =>
                  if (3 <? date_obj - p)%Z
                  then (entry' :: rest, Ok (Some (strftime p), Some date_str))
                  else if (date_obj <? p)%Z
                  then (entry' :: rest, Ok (Some (strftime p), Some date_str))
                  else skip (Some date_obj) entry'
              | None => skip (Some date_obj) entry'
              end
          end
      | _ => (entry :: rest, Raise TypeError)
      end
  end.

(** [find_first_continuous_data_end]: the agent with its daily assets as
    the scan leaves them, and the pair returned. *)
Definition find_first_continuous_data_end (self : Agent pydict)
    : Agent pydict * outcome (option string * option string) :=
  let '(daily_assets, r) := find_gap None (self_daily_assets self) in
  ({| self_initial_capital := self_initial_capital self;
      self_cash := self_cash self;
      self_holdings := self_holdings self;
      self_total_assets := self_total_assets self;
      self_trade_history := self_trade_history self;
      self_daily_assets := daily_assets |}, r).

(** The day of an entry that the scan reads a date from. *)
Definition gap_day (entry : pydict) : option Z :=
  match dget_or "date" VNone entry with
  | VStr s => if String.eqb s "" then None else strptime (normalize_date s)
  | _ => None
  end.

(** An entry the scan passes over or reads: its date is falsy, or a
    string that parses. *)
Definition dated_or_blank (entry : pydict) : Prop :=
  truthy (dget_or "date" VNone entry) = false \/ is_Some (gap_day entry).

(** A day and the next one the scan reads: not earlier, and at most three
    days later. *)
Definition close_days (d1 d2 : Z) : Prop := (d1 <= d2 <= d1 + 3)%Z.

End GapScan.

(** *** [_extract_json_array] *)

(** ['[' in content]: the text from the first bracket on,
    [content[content.find('['):]]. *)
Fixpoint from_first_bracket (content : string) : option string :=
  match content with
  | EmptyString => None
  | String char rest =>
      if Ascii.eqb char "["%char then Some content else from_first_bracket rest
  end.

(** The loop [for i in range(start_idx, len(content))], over the
    characters that are left: [content[start_idx:i+1]] for the [i] at
    which a closing bracket brings [bracket_count] back to 0, [None] when
    the text ends before. *)
Fixpoint scan_array (chars : string) (bracket_count : Z) (in_string escape_next : bool)
    : option string :=
  match chars with
  | EmptyString => None
  | String char rest =>
      let next bracket_count in_string escape_next :=
        String char <$> scan_array rest bracket_count in_string escape_next in
      if escape_next then next bracket_count in_string false
      else if Ascii.eqb char "\"%char then next bracket_count in_string true
      else if Ascii.eqb char "034"%char then next bracket_count (negb in_string) false
      else if negb in_string then
        if Ascii.eqb char "["%char then next (bracket_count + 1)%Z in_string false
        else if Ascii.eqb char "]"%char then
          if (bracket_count - 1 =? 0)%Z then Some (String char EmptyString)
          else next (bracket_count - 1)%Z in_string false
        else next bracket_count in_string false
      else next bracket_count in_string false
  end.

(** The inside of a string literal: characters other than the quote and
    the backslash, and escapes (a backslash and the character after it). *)
Inductive string_body : string -> Prop :=
| sb_end : string_body ""
| sb_char c s :
    Ascii.eqb c "034"%char = false -> Ascii.eqb c "\"%char = false ->
    string_body s -> string_body (String c s)
| sb_escape c s : string_body s -> string_body (String "\"%char (String c s)).

(** The text between the brackets of an array: characters other than
    brackets, quotes and backslashes, string literals, and arrays. *)
Inductive array_body : string -> Prop :=
| ab_end : array_body ""
| ab_char c s :
    Ascii.eqb c "["%char = false -> Ascii.eqb c "]"%char = false ->
    Ascii.eqb c "034"%char = false -> Ascii.eqb c "\"%char = false ->
    array_body s -> array_body (String c s)
| ab_string q s :
    string_body q -> array_body s ->
    array_body (String "034"%char (q ++ String "034"%char s))
| ab_array inner s :
    array_body inner -> array_body s ->
    array_body (String "["%char (inner ++ String "]"%char s)).

(** No opening bracket. *)
Fixpoint no_bracket (s : string) : bool :=
  match s with
  | EmptyString => true
  | String char rest => negb (Ascii.eqb char "["%char) && no_bracket rest
  end.

Section ExtractJson.

(** The values [json.loads] returns, with Python's [None] among them. *)
Variable J : Type.
Variable py_none : J.

(** [json.loads(s)]; [None] when it raises. *)
Variable json_loads : string -> option J.

(** [content.strip()] *)
Variable strip : string -> string.

(** Group 1 of the first match of the pattern for a fenced block holding
    an array, if the pattern matches. *)
Variable code_block_match : string -> option string.

Definition _extract_json_array (content : string) : J :=
  match json_loads (strip content) with
  | Some v => v
  | None =>
      match from_option json_loads None (code_block_match content) with
      | Some v => v
      | None =>
          match from_first_bracket content with
          | None => py_none
          | Some chars =>
              match scan_array chars 0 false false with
              | Some json_str => default py_none (json_loads json_str)
              | None => py_none
              end
          end
      end
  end.

End ExtractJson.

(** *** The data provider's [_format_date] *)

(** [BaostockProviderV2._format_date] *)
Definition _format_date (date_str : string) : string :=
  if has_dash date_str then date_str
  else (substring 0 4 date_str ++ "-" ++ substring 4 2 date_str ++ "-"
        ++ substring 6 2 date_str)%string.


(** A decision as [_analyze_candidates] hands it to [_execute_buys]: a
    buy of a stock, with a confidence that reaches the threshold. *)
Definition confident_buy (threshold : Q) (decision : pyval) : Prop :=
  exists d code confidence,
    decision = VDict d
    /\ dget "action" d = Some (VStr "buy")
    /\ dget "code" d = Some code
    /\ truthy code = true
    /\ dget "confidence" d = Some (VNum confidence)
    /\ (threshold <= confidence)%Q.

(** A holding one trading day older: [hold_days] (0 when the key is
    missing) has grown by one. *)
Definition aged_one_day (before after : pydict) : Prop :=
  exists n, dget_or "hold_days" (VNum 0) before = VNum n
            /\ dget "hold_days" after = Some (VNum (n + 1)).

(** The provider has no usable close for the code on the date: no bar
    (suspended or delisted), an empty one, or a close that is not
    positive. *)
Definition no_valid_price (env : Env) (code date : string) : Prop :=
  match get_daily_price env code date with
  | None => True
  | Some stock_data =>
      stock_data = [] \/ exists close, dget_or "close" (VNum 0) stock_data = VNum close
                                       /\ (close <= 0)%Q
  end.

(** The valuation of a holding is the one of the day before. *)
Definition price_kept (before after : pydict) : Prop :=
  dget "current_price" after = dget "current_price" before
  /\ dget "cost" after = dget "cost" before
  /\ dget "profit_pct" after = dget "profit_pct" before
  /\ dget "amount" after = dget "amount" before.

(** ** What an accepted log looks like *)

Section Plausible.

Variable strptime : string -> option Z.

(** The day of a daily-asset point whose date the loop can read. *)
Definition entry_day (entry : pydict) : option Z :=
  match dget_or "date" VNone entry with
  | VStr s =>
      if String.eqb s "" then None
      else if negb (has_dash s) && negb (Nat.eqb (String.length s) 8) then None
      else strptime (entry_date_str s)
  | _ => None
  end.

(** [entry.get('total_assets') or entry.get('assets')], when a number. *)
Definition entry_total (entry : pydict) : option Q :=
  match py_or (dget_or "total_assets" VNone entry) (dget_or "assets" VNone entry) with
  | VNum t => Some t
  | _ => None
  end.

(** A point the loop of [detect_data_corruption] has nothing against on
    its own: a date it reads, total assets and cash that are numbers and
    not negative. *)
Definition plausible_entry (entry : pydict) : Prop :=
  exists d t c,
    entry_day entry = Some d
    /\ entry_total entry = Some t /\ (0 <= t)%Q
    /\ dget_or "cash" (VNum 0) entry = VNum c /\ (0 <= c)%Q.

(** The change [pct] (in percent) over [gap] days is within what the loop
    lets pass. *)
Definition within_band (gap : Z) (pct : Q) : Prop :=
  (gap <= 3)%Z
  /\ (gap = 1%Z -> (-12 <= pct)%Q /\ (pct <= 30)%Q)
  /\ ((1 < gap)%Z -> (Qabs pct <= inject_Z (gap * 10))%Q).

(** A point and the next one: the date does not go back and, when the
    earlier total is positive, the change is within the band. *)
Definition plausible_step (e1 e2 : pydict) : Prop :=
  forall d1 t1 d2 t2,
    entry_day e1 = Some d1 -> entry_total e1 = Some t1 ->
    entry_day e2 = Some d2 -> entry_total e2 = Some t2 ->
    (d1 <= d2)%Z
    /\ ((0 < t1)%Q -> within_band (d2 - d1) ((t2 - t1) / t1 * 100)).

(** A trade without a date, or dated on a day that has a daily-asset
    point. *)
Definition trade_on_record (dates : list string) (trade : pydict) : Prop :=
  match py_or (dget_or "date" VNone trade) (dget_or "trade_date" VNone trade) with
  | VStr s => s = "" \/ entry_date_str s ∈ dates
  | v => truthy v = false
  end.

(** The total of the last point agrees with the agent's cash and
    holdings, as check 2 of [detect_data_corruption] wants it: within 5%
    of [cash + Σ amount·current_price], or that sum is at most 100. *)
Definition consistent_with (self : Agent pydict) (last_entry : pydict) : Prop :=
  exists last_total value,
    py_or (dget_or "total_assets" VNone last_entry) (dget_or "assets" (VNum 0) last_entry)
    = VNum last_total
    /\ recovery_holdings_value (self_holdings self) = Ok value
    /\ ((Qabs (last_total - (self_cash self + value)) <= (self_cash self + value) * (5 # 100))%Q
        \/ (self_cash self + value <= 100)%Q).

End Plausible.

(** A rebuilt holding whose ["cost"] is the cost of the whole position:
    the number of shares times the average price under ["price"]. *)
Definition cost_is_pool (holding : pydict) : Prop :=
  exists amount cost price,
    dget "amount" holding = Some (VNum amount)
    /\ dget "cost" holding = Some (VNum cost)
    /\ dget "price" holding = Some (VNum price)
    /\ (0 < amount)%Q
    /\ (cost == amount * price)%Q.

(** A trade that, if it is a purchase, is one of a positive number of
    shares. *)
Definition buys_shares (trade : pydict) : Prop :=
  py_eq_str (dget_or "action" VNone trade) "buy" = true ->
  exists amount, dget_or "amount" (VNum 0) trade = VNum amount /\ (0 < amount)%Q.

(** ** Node 2: [_evaluate_holdings], up to the forced sales *)

Section EvaluateHoldings.

(** [self.config.get('stop_loss_pct', 0.05)] and
    [self.config.get('stop_profit_pct', 0.15)]. *)
Variable stop_loss_config stop_profit_config : Q.

(** The [reason] of a forced sale, an f-string over the profit and the
    threshold: of a stop loss ([true]) or of a stop profit ([false]). *)
Variable forced_reason : bool -> Q -> Q -> string.

(** The rest of the method, from the holdings data for the prompt on:
    the prompt, the LLM and the reading of its reply. *)
Variable ai_evaluation : TradingState -> M TradingState.

(** [if 'name' not in holdings[code] or not holdings[code].get('name'):
       holdings[code]['name'] = stock_info.get('name', code)] *)
Definition ensure_name (env : Env) (code : string) (l : loc) : M unit :=
  do holding <- deref l;
  match dget "name" holding with
  | Some v =>
      if truthy v then ret tt
      else obj_set l "name" (dget_or "name" (VStr code) (get_stock_basic_info env code))
  | None => obj_set l "name" (dget_or "name" (VStr code) (get_stock_basic_info env code))
  end.

(** The decision of a forced sale. *)
Definition forced_decision (stop_loss : bool) (code : string) (amount : pyval)
    (profit_pct threshold : Q) : pyval :=
  VDict [ ("action", VStr "sell");
          ("code", VStr code);
          ("amount", amount);
          ("reason", VStr (forced_reason stop_loss profit_pct threshold)) ].

(** The body of [for code, holding in state['holdings'].items()]; the loop
    carries [forced_sells]. *)
Definition forced_sell (stop_loss_pct stop_profit_pct : Q) (code : string) (l : loc)
    (forced_sells : list pyval) : M (list pyval) :=
  do holding <- deref l;
  do profit_pct <- as_num (dget_or "profit_pct" (VNum 0) holding);
  if Qle_bool profit_pct (- stop_loss_pct) then
    do amount <- getitem "amount" holding;
    ret (forced_sells ++ [forced_decision true code amount profit_pct stop_loss_pct])
  else if Qle_bool stop_profit_pct profit_pct then
    do amount <- getitem "amount" holding;
    ret (forced_sells ++ [forced_decision false code amount profit_pct stop_profit_pct])
  else ret forced_sells.

(** [_evaluate_holdings] (the name is taken by the field of [Nodes]). The
    loops visit the holdings in the order of [map_to_list], Python in the
    order of insertion: the forced sales are the same, their order in the
    list may differ. *)
Definition evaluate_holdings (env : Env) (state : TradingState) : M TradingState :=
  if should_stop env then ret (set_sell_analysis [] state) else
  if bool_decide (holdings state = ∅) then ret (set_sell_analysis [] state) else
  for_each (fun '(code, l) (_ : unit) => ensure_name env code l)
           (map_to_list (holdings state)) tt ;;
  let stop_loss_pct := (stop_loss_config * 100)%Q in
  let stop_profit_pct := (stop_profit_config * 100)%Q in
  do forced_sells <- for_each (fun '(code, l) forced_sells =>
                                 forced_sell stop_loss_pct stop_profit_pct code l forced_sells)
                              (map_to_list (holdings state)) [];
  match forced_sells with
  | [] => ai_evaluation state
  | _ => ret (set_sell_analysis forced_sells state)
  end.

(** The profit of a holding has reached one of the two thresholds. *)
Definition stop_reached (holding : pydict) : Prop :=
  exists profit_pct,
    dget_or "profit_pct" (VNum 0) holding = VNum profit_pct
    /\ ((profit_pct <= - (stop_loss_config * 100))%Q
        \/ (stop_profit_config * 100 <= profit_pct)%Q).

End EvaluateHoldings.

(** A decision to sell all shares of a holding of [code]. *)
Definition sells_holding (code : string) (holding : pydict) (decision : pyval) : Prop :=
  exists d, decision = VDict d
            /\ dget "action" d = Some (VStr "sell")
            /\ dget "code" d = Some (VStr code)
            /\ dget "amount" d = dget "amount" holding.

(** The holding may be sold today: its [hold_days] is not 0. *)
Definition sellable (holding : pydict) : Prop :=
  py_eq_num (dget_or "hold_days" (VNum 0) holding) 0 = false.

(** Two stores that differ at most in the names of holdings. *)
Definition names_apart (h h1 : heap) : Prop :=
  forall l k, k <> "name" -> dget k (h1 !!! l) = dget k (h !!! l).

(** ** The arena's table: [ArenaManager.get_current_rankings] *)

(** An entry of [self.agents]. *)
Record AgentInfo (H : Type) : Type := {
  info_name : string;
  info_agent : Agent H;
  info_color : string
}.
Arguments info_name {H} _.
Arguments info_agent {H} _.
Arguments info_color {H} _.

(** The dict appended to [rankings] for an agent. *)
Record Standing : Type := {
  st_name : string;
  st_profit_pct : Q;
  st_total_assets : Q;
  st_cash : Q;
  st_holdings_count : nat;
  st_max_drawdown : Q;
  st_win_rate : Q;
  st_trade_count : nat;
  st_color : string
}.

(** The dict with the keys ['rank'] and ['medal'] that the last loop
    adds. *)
Record Ranking : Type := {
  rk_standing : Standing;
  rk_rank : nat;
  rk_medal : string
}.

(** One step of [max(d['total_assets'] for d in agent.daily_assets)]:
    [current] is the largest value so far, replaced if the next one is
    greater. Two strings compare without an error, and which of them is
    kept does not show: the subtraction that follows raises TypeError for
    either. *)
Definition larger_total (d : pydict) (current : pyval) : outcome pyval :=
  match dget "total_assets" d with
  | None => Raise (KeyError "total_assets")
  | Some v =>
      match v, current with
      | VNum a, VNum b => Ok (if Qlt_bool b a then v else current)
      | VStr _, VStr _ => Ok current
      | _, _ => Raise TypeError
      end
  end.

Definition max_total (first : pydict) (rest : list pydict) : outcome pyval :=
  match dget "total_assets" first with
  | None => Raise (KeyError "total_assets")
  | Some v => ofold larger_total rest v
  end.

(** [max_drawdown] of the table: 0, or the fall from the highest daily
    total to the agent's total assets now, if that is more. *)
Definition table_drawdown {H} (agent : Agent H) : outcome Q :=
  match self_daily_assets agent with
  | [] => Ok 0%Q
  | first :: rest =>
      let* max_assets_v := max_total first rest in
      let* max_assets := num max_assets_v in
      if Qeq_bool max_assets 0 then Raise ZeroDivisionError else
      let current_drawdown := ((max_assets - self_total_assets agent) / max_assets * 100)%Q in
      Ok (py_max 0 current_drawdown)
  end.

(** [[t for t in sell_trades if t.get('profit', 0) > 0]] *)
Definition successful_trades (sell_trades : list pydict) : outcome (list pydict) :=
  ofold (fun t acc => let* profit := num (dget_or "profit" (VNum 0) t) in
                      Ok (if Qlt_bool 0 profit then acc ++ [t] else acc)%list)
        sell_trades [].

(** The body of [for agent_info in self.agents]. *)
Definition standing {H} (initial_capital : Q) (agent_info : AgentInfo H) : outcome Standing :=
  let name := info_name agent_info in
  let agent := info_agent agent_info in
  if Qeq_bool initial_capital 0 then Raise ZeroDivisionError else
  let profit_pct := ((self_total_assets agent - initial_capital) / initial_capital * 100)%Q in
  let* max_drawdown := table_drawdown agent in
  let sell_trades := List.filter is_sell (self_trade_history agent) in
  let* successful_trades := successful_trades sell_trades in
  let win_rate :=
    match sell_trades with
    | [] => 0%Q
    | _ => (inject_Z (Z.of_nat (length successful_trades))
            / inject_Z (Z.of_nat (length sell_trades)) * 100)%Q
    end in
  Ok {| st_name := name;
        st_profit_pct := profit_pct;
        st_total_assets := self_total_assets agent;
        st_cash := self_cash agent;
        st_holdings_count := size (self_holdings agent);
        st_max_drawdown := max_drawdown;
        st_win_rate := win_rate;
        st_trade_count := length (self_trade_history agent);
        st_color := info_color agent_info |}.

(** The first loop: the standings in the order of [self.agents]. *)
Definition standings {H} (initial_capital : Q) (agents : list (AgentInfo H))
    : outcome (list Standing) :=
  ofold (fun agent_info rankings =>
           let* s := standing initial_capital agent_info in Ok (rankings ++ [s])%list)
        agents [].

(** [rankings.sort(key=lambda x: x['profit_pct'], reverse=True)]: by
    falling profit, entries of equal profit in the order they had (the
    sort is stable, also with [reverse]). An entry is put behind those
    whose profit is not smaller. *)
Fixpoint insert_by_profit (x : Standing) (l : list Standing) : list Standing :=
  match l with
  | [] => [x]
  | y :: l' =>
      if Qlt_bool (st_profit_pct y) (st_profit_pct x) then x :: y :: l'
      else y :: insert_by_profit x l'
  end.

Definition sort_by_profit (l : list Standing) : list Standing :=
  foldl (fun sorted x => insert_by_profit x sorted) [] l.

(** [['🥇', '🥈', '🥉', ''][idx] if idx < 4 else ''] *)
Definition medal (idx : nat) : string := nth idx ["🥇"; "🥈"; "🥉"; ""] "".

(** [config.get('trading', {}).get('initial_capital', 10000)] is
    [initial_capital]. *)
Definition get_current_rankings {H} (initial_capital : Q) (agents : list (AgentInfo H))
    : outcome (list Ranking) :=
  let* rankings := standings initial_capital agents in
  Ok (imap (fun idx rank => {| rk_standing := rank; rk_rank := idx + 1; rk_medal := medal idx |})
           (sort_by_profit rankings)).

(** The entries of a list whose profit is [q]. *)
Definition with_profit (q : Q) (l : list Standing) : list Standing :=
  List.filter (fun s => Qeq_bool (st_profit_pct s) q) l.

(** No entry has a smaller profit than one behind it. *)
Definition by_falling_profit (l : list Standing) : Prop :=
  StronglySorted (fun s1 s2 => (st_profit_pct s2 <= st_profit_pct s1)%Q) l.

(** The total of a day of the log, if it is a number, is not negative. *)
Definition total_not_negative (d : pydict) : Prop :=
  forall a, dget "total_assets" d = Some (VNum a) -> (0 <= a)%Q.

(** ** Node 4: [_find_candidates] *)

Section FindCandidates.

(** [self.config.get('min_cash_to_buy', 500)] and
    [self.config.get('analyze_stock_count', 20)], a count. *)
Variable min_cash_to_buy : Q.
Variable analyze_stock_count : nat.

(** The offset looked up under [self.model_provider] (0 to 3). *)
Variable model_offset : Z.

(** [data_provider.get_index_data(date)],
    [data_provider.get_candidate_pool(date).get('hot_codes', [])] and
    [data_provider.get_candidates(trade_date=date, max_price=..., limit=limit)]. *)
Variable get_index_data : string -> pydict.
Variable pool_hot_codes : string -> list string.
Variable get_candidates : string -> nat -> list pydict.

(** [state.get('hot_codes', [])]: the state keeps the hot codes, the hot
    sectors and the index data under keys that [TradingState] leaves out;
    what the method writes to them is left out with them. *)
Variable state_hot_codes : list string.

(** [int(s)]; [None] is its ValueError. *)
Variable py_int_of_str : string -> option Z.

(** The log line for an index: [index_data[key].get('pct_chg', 0)]
    formatted with [+.2f], if the key is there. *)
Definition index_line (key : string) (index_data : pydict) : outcome unit :=
  match dget key index_data with
  | None => Ok tt
  | Some (VDict index) =>
      match dget_or "pct_chg" (VNum 0) index with
      | VNum _ => Ok tt
      | VStr _ => Raise ValueError
      | _ => Raise TypeError
      end
  | Some _ => Raise AttributeError
  end.

(** [c.get('code') in hot_set] *)
Definition is_hot (hot_codes : list string) (c : pydict) : outcome bool :=
  match dget_or "code" VNone c with
  | VStr code => Ok (bool_decide (code ∈ hot_codes))
  | VDict _ => Raise TypeError
  | _ => Ok false
  end.

(** [[c for c in candidates if c.get('code') in hot_set]] ([true]) and
    [[c for c in candidates if c.get('code') not in hot_set]] ([false]). *)
Definition hot_filter (hot_codes : list string) (keep_hot : bool) (candidates : list pydict)
    : outcome (list pydict) :=
  ofold (fun c acc => let* hot := is_hot hot_codes c in
                      Ok (if Bool.eqb hot keep_hot then acc ++ [c] else acc)%list)
        candidates [].

(** [_find_candidates] (the name is taken by the field of [Nodes]). *)
Definition find_candidates (env : Env) (state : TradingState) : outcome TradingState :=
  if should_stop env then Ok (set_candidates [] state) else
  if Qlt_bool (cash state) min_cash_to_buy then Ok (set_candidates [] state) else
  let index_data := get_index_data (trade_date state) in
  let* _ := index_line "sh_index" index_data in
  let* _ := index_line "hs300" index_data in
  let hot_codes := (state_hot_codes ++ pool_hot_codes (trade_date state))%list in
  let candidates := get_candidates (trade_date state) (analyze_stock_count * 5) in
  let* candidates :=
    match candidates, hot_codes with
    | _ :: _, _ :: _ =>
        let* hot_candidates := hot_filter hot_codes true candidates in
        let* other_candidates := hot_filter hot_codes false candidates in
        Ok (hot_candidates ++ other_candidates)%list
    | _, _ => Ok candidates
    end in
  let analyze_count := analyze_stock_count in
  match py_int_of_str (trade_date state) with
  | None => Raise ValueError
  | Some trade_date_int =>
      let batch_number := ((trade_date_int + model_offset) mod 5)%Z in
      let start_idx := (Z.to_nat batch_number * analyze_count)%nat in
      if (start_idx <? length candidates)%nat
      then Ok (set_candidates (take analyze_count (drop start_idx candidates)) state)
      else Ok (set_candidates (take analyze_count candidates) state)
  end.

End FindCandidates.



(** ** Worked examples: more days, logs and results *)

(** A day back from a day number: the inverse of [days_from_civil], and
    [strftime('%Y-%m-%d')] on it. *)
Definition civil_from_days (z : Z) : Z * Z * Z :=
  let z := (z + 719468)%Z in
  let era := (z / 146097)%Z in
  let doe := (z - era * 146097)%Z in
  let yoe := ((doe - doe / 1460 + doe / 36524 - doe / 146096) / 365)%Z in
  let y := (yoe + era * 400)%Z in
  let doy := (doe - (365 * yoe + yoe / 4 - yoe / 100))%Z in
  let mp := ((5 * doy + 2) / 153)%Z in
  let d := (doy - (153 * mp + 2) / 5 + 1)%Z in
  let m := (if mp <? 10 then mp + 3 else mp - 9)%Z in
  ((if m <=? 2 then y + 1 else y)%Z, m, d).

Definition digit_char (n : Z) : ascii := ascii_of_nat (Z.to_nat (48 + n mod 10)).

Definition pad2 (n : Z) : string :=
  String (digit_char (n / 10)) (String (digit_char n) "").

Definition pad4 (n : Z) : string :=
  String (digit_char (n / 1000)) (String (digit_char (n / 100)) (pad2 n)).

Definition strftime_iso (day : Z) : string :=
  let '(y, m, d) := civil_from_days day in
  (pad4 y ++ "-" ++ pad2 m ++ "-" ++ pad2 d)%string.

(** The day after day 1, with the sale of the stock asked for twice. *)
Definition selling_twice : TradingState :=
  set_sell_analysis [sell_order "000001.SZ"; sell_order "000001.SZ"]
    (state_of agent_after_day1 "20250107").

(** The first day, with the purchase of a stock asked for twice. *)
Definition buying_twice : TradingState :=
  set_buy_analysis [buy_order "000001.SZ" 100; buy_order "000001.SZ" 100]
    (state_of (new_agent 10000) "20250106").

(** A candidate pool of one stock on the first day. *)
Definition analysing : TradingState :=
  set_candidates [candidate "000001.SZ"] (state_of (new_agent 10000) "20250106").

(** An LLM that answers with a confident and a hesitant recommendation. *)
Definition llm_two_minds : nat -> llm_reply :=
  fun _ => LlmReturns [ llm_buy "000001.SZ" (VNum 200);
                        VDict [ ("stock_code", VStr "600000.SH");
                                ("suggested_amount", VNum 100);
                                ("confidence", VNum (1 # 10)) ] ].

(** A log whose second point is dated before the first. *)
Definition backdated_agent : Agent pydict :=
  {| self_initial_capital := 10000;
     self_cash := 10000;
     self_holdings := ∅;
     self_total_assets := 10000;
     self_trade_history := [];
     self_daily_assets :=
       [ daily_point "20250106" 10000 10000;
         daily_point "20250103" 10000 10000 ] |}.

(** A log whose second point has a date that is no date. *)
Definition misdated_agent : Agent pydict :=
  {| self_initial_capital := 10000;
     self_cash := 10000;
     self_holdings := ∅;
     self_total_assets := 10000;
     self_trade_history := [];
     self_daily_assets :=
       [ daily_point "20250106" 10000 10000;
         daily_point "2025-13-45" 10000 10000 ] |}.

(** A log that jumps from 2025-01-07 to 2025-01-15. *)
Definition gapped_agent : Agent pydict :=
  {| self_initial_capital := 10000;
     self_cash := 10000;
     self_holdings := ∅;
     self_total_assets := 10000;
     self_trade_history := [];
     self_daily_assets :=
       [ daily_point "20250106" 10000 10000;
         daily_point "20250107" 10000 10000;
         daily_point "20250115" 10000 10000 ] |}.

(** The state at the end of a run: 10000 grew to 11000, fell to 9900 and
    ended at 10450; two sales, one at a profit. *)
Definition finished_state : TradingState :=
  {| trade_date := "20250109"; cash := 10450; initial_capital := 10000;
     holdings := ∅; total_assets := 10450;
     candidates := []; sell_analysis := []; buy_analysis := [];
     sell_trades := []; buy_trades := [];
     trade_history :=
       [ [("action", VStr "buy"); ("code", VStr "000001.SZ")];
         [("action", VStr "sell"); ("code", VStr "000001.SZ"); ("profit", VNum 1000)];
         [("action", VStr "buy"); ("code", VStr "600000.SH")];
         [("action", VStr "sell"); ("code", VStr "600000.SH"); ("profit", VNum (-550))] ];
     daily_assets :=
       [ daily_point "20250106" 10000 10000;
         daily_point "20250107" 11000 11000;
         daily_point "20250108" 9900 9900;
         daily_point "20250109" 10450 10450 ] |}.

(** A [json.loads] that reads one text, the array [[1, [2]]], and raises
    on every other; Python's [None] is [None]. *)
Definition loads_nested (s : string) : option (option string) :=
  if String.eqb s "[1, [2]]" then Some (Some s) else None.

(** A holding of day 1 a day later, ten percent under water. *)
Definition losing_heap : heap :=
  {[ 1%positive := [ ("amount", VNum 200); ("cost", VNum 10); ("current_price", VNum 9);
                      ("profit_pct", VNum (-10)); ("hold_days", VNum 1);
                      ("buy_date", VStr "20250106") ] ]}.

(** An evaluation by the LLM that finds nothing to sell, and reasons
    without figures. *)
Definition nothing_to_sell : TradingState -> M TradingState :=
  fun state => ret (set_sell_analysis [] state).

Definition plain_reason : bool -> Q -> Q -> string :=
  fun stop_loss _ _ => if stop_loss then "stop loss" else "stop profit".

(** The agent at the end of the run of [finished_state], and an arena of
    three: the first and the third agent stand alike. *)
Definition finished_agent : Agent pydict :=
  {| self_initial_capital := 10000;
     self_cash := 10450;
     self_holdings := ∅;
     self_total_assets := 10450;
     self_trade_history := trade_history finished_state;
     self_daily_assets := daily_assets finished_state |}.

Definition arena : list (AgentInfo pydict) :=
  [ {| info_name := "alpha"; info_agent := finished_agent; info_color := "red" |};
    {| info_name := "beta"; info_agent := rising_agent; info_color := "blue" |};
    {| info_name := "gamma"; info_agent := finished_agent; info_color := "green" |} ].

(** A day with three candidates of which the second is hot, and a
    [trade_date] read as a decimal number. *)
Definition three_candidates : string -> nat -> list pydict :=
  fun _ _ => [candidate "000001.SZ"; candidate "600000.SH"; candidate "600519.SH"].

Definition int_of_digits (s : string) : option Z :=
  match s with
  | EmptyString => None
  | _ => digits s 0
  end.

(** * Properties *)

(** ** Arithmetic and the monad *)

Lemma Qlt_bool_true (x y : Q) : Qlt_bool x y = true <-> (x < y)%Q.
Proof.
  unfold Qlt_bool. rewrite negb_true_iff. split.
  - intros H. apply Qnot_le_lt. intros Hle. apply Qle_bool_iff in Hle. congruence.
  - intros H. destruct (Qle_bool y x) eqn:E; [|reflexivity].
    apply Qle_bool_iff in E. exfalso. apply (Qlt_not_le _ _ H E).
Qed.

Lemma Qlt_bool_false (x y : Q) : Qlt_bool x y = false <-> (y <= x)%Q.
Proof. unfold Qlt_bool. rewrite negb_false_iff. apply Qle_bool_iff. Qed.

Lemma py_max_Qmax (a b : Q) : (py_max a b == Qmax a b)%Q.
Proof.
  unfold py_max. destruct (Qlt_bool a b) eqn:E.
  - apply Qlt_bool_true in E. symmetry. apply Q.max_r. lra.
  - apply Qlt_bool_false in E. symmetry. apply Q.max_l. lra.
Qed.

Lemma py_max_bounds (a b : Q) : (a <= py_max a b /\ b <= py_max a b)%Q.
Proof.
  unfold py_max. destruct (Qlt_bool a b) eqn:E.
  - apply Qlt_bool_true in E. lra.
  - apply Qlt_bool_false in E. lra.
Qed.

(** A loop keeps what every round keeps. *)
Lemma for_each_inv_in {A S} (body : A -> S -> M S) (P : S -> heap -> Prop) (xs : list A) :
  (forall x s h s' h', x ∈ xs -> P s h -> body x s h = (Ok s', h') -> P s' h') ->
  forall s h s' h', P s h -> for_each body xs s h = (Ok s', h') -> P s' h'.
Proof.
  induction xs as [|x xs IH]; intros Hstep s h s' h' HP Hrun; simpl in Hrun.
  - unfold ret in Hrun. by simplify_eq.
  - unfold bind in Hrun. destruct (body x s h) as [[s1|e] h1] eqn:E; [|done].
    eapply IH; [|eapply (Hstep x); [left|exact HP|exact E]|exact Hrun].
    intros y t0 k0 t1 k1 Hy. apply Hstep. by right.
Qed.

Lemma for_each_inv {A S} (body : A -> S -> M S) (P : S -> heap -> Prop) :
  (forall x s h s' h', P s h -> body x s h = (Ok s', h') -> P s' h') ->
  forall xs s h s' h', P s h -> for_each body xs s h = (Ok s', h') -> P s' h'.
Proof. intros Hstep xs. apply for_each_inv_in. intros x s h s' h' _. apply Hstep. Qed.

(** ** [_execute_sells] *)

Lemma sell_decision_inv env decision acc h acc' h' :
  sell_decision env decision acc h = (Ok acc', h') ->
  h' = h /\ sell_step env acc h acc'.
Proof.
  unfold sell_decision, sell_holding, sell_continue, getitem, as_num, deref, bind, ret, raise.
  intros H.
  repeat (case_match; simplify_eq; try (split; [reflexivity|]; by apply sell_skipped)).
  all: try (split; [reflexivity|]; eapply sell_sold; eauto).
Qed.

(** The sale goes through when nothing stands in its way. *)
Lemma sell_decision_sells env d c l acc h a p c0 :
  dget_or "action" VNone d = VStr "sell" ->
  dget_or "code" VNone d = VStr c -> c <> "" ->
  c ∉ sl_processed acc ->
  holdings (sl_state acc) !! c = Some l ->
  py_eq_num (dget_or "hold_days" (VNum 0) (h !!! l)) 0 = false ->
  dget "amount" (h !!! l) = Some (VNum a) ->
  dget "current_price" (h !!! l) = Some (VNum p) ->
  dget "cost" (h !!! l) = Some (VNum c0) ->
  ~ (a * c0 == 0)%Q ->
  let state := sl_state acc in
  let sell_amount := (a * p)%Q in
  let commission := py_max (sell_amount * (3 # 10000)) 5 in
  let stamp_tax := (sell_amount * (1 # 1000))%Q in
  let net_income := (sell_amount - commission - stamp_tax)%Q in
  let profit := (net_income - a * c0)%Q in
  let t := sell_trade_record env state d c (VNum a) (VNum p) sell_amount commission
             stamp_tax profit (profit / (a * c0) * 100)%Q in
  sell_decision env (VDict d) acc h =
    (Ok {| sl_state := set_trade_history (trade_history state ++ [t])
                         (set_holdings (delete c (holdings state))
                            (set_cash (cash state + net_income)%Q state));
           sl_processed := {[c]} ∪ sl_processed acc;
           sl_trades := sl_trades acc ++ [t] |}, h).
Proof.
  intros Ha Hc Hne Hp Hl Hd Hamt Hpr Hco Hnz. simpl.
  unfold sell_decision. rewrite Ha, Hc. simpl.
  destruct (String.eqb c "") eqn:E; [apply String.eqb_eq in E; done|]. simpl.
  destruct (decide (c ∈ sl_processed acc)); [done|].
  rewrite Hl. unfold bind, deref. rewrite Hd.
  unfold sell_holding, bind, getitem. rewrite Hamt, Hpr, Hco. simpl.
  destruct (Qeq_bool (a * c0) 0) eqn:E0; [apply Qeq_bool_iff in E0; done|].
  reflexivity.
Qed.

(** ** [_execute_buys] *)

Lemma buy_decision_inv env decision acc h acc' h' :
  buy_decision env decision acc h = (Ok acc', h') ->
  buy_step env decision acc h acc' h'.
Proof.
  unfold buy_decision, buy_stock, buy_continue, exit_plan_get, alloc, getitem, as_num,
    deref, bind, ret, raise.
  intros H.
  repeat (case_match; simplify_eq; try (by apply buy_skipped)).
  all: try (eapply buy_bought; eauto).
  all: try match goal with
       | H : negb (py_eq_str ?v "buy") = false |- ?v = VStr "buy" =>
           apply negb_false_iff in H; destruct v; simpl in H; try discriminate;
           apply String.eqb_eq in H; by subst
       end.
Qed.

(** ** T+1 *)

Lemma buy_step_T1 env decision acc h acc' h' :
  buy_step env decision acc h acc' h' ->
  holdings_wf h (holdings (bl_state acc)) ->
  T1_inv (trade_date (bl_state acc)) h (holdings (bl_state acc)) ->
  trade_date (bl_state acc') = trade_date (bl_state acc)
  /\ holdings_wf h' (holdings (bl_state acc'))
  /\ T1_inv (trade_date (bl_state acc)) h' (holdings (bl_state acc')).
Proof.
  intros Hstep Hwf Hinv. destruct Hstep as [acc' Hs Ht | ].
  - rewrite Hs. done.
  - simpl. split; [reflexivity|].
    assert (Hfresh : l ∉ dom h) by apply is_fresh.
    split.
    + intros c' l' Hl'. rewrite dom_insert_L.
      destruct (decide (c = c')) as [->|Hne].
      * rewrite lookup_insert_eq in Hl'. simplify_eq. set_solver.
      * rewrite lookup_insert_ne in Hl' by done. apply Hwf in Hl'. set_solver.
    + intros c' l' Hl' Hb.
      destruct (decide (c = c')) as [->|Hne].
      * rewrite lookup_insert_eq in Hl'. simplify_eq.
        rewrite lookup_total_insert_eq. reflexivity.
      * rewrite lookup_insert_ne in Hl' by done.
        assert (l' <> l) by (intros ->; apply Hfresh; eapply Hwf; eauto).
        rewrite lookup_total_insert_ne in Hb |- * by done. eapply Hinv; eauto.
Qed.

(** After [_execute_buys] on date [D], every lot dated [D] has
    [hold_days] 0. *)
Lemma execute_buys_T1 env state h state' h' :
  _execute_buys env state h = (Ok state', h') ->
  holdings_wf h (holdings state) ->
  T1_inv (trade_date state) h (holdings state) ->
  trade_date state' = trade_date state
  /\ holdings_wf h' (holdings state')
  /\ T1_inv (trade_date state) h' (holdings state').
Proof.
  unfold _execute_buys. intros Hrun Hwf Hinv.
  repeat (case_match; [unfold ret in Hrun; by simplify_eq|]).
  unfold bind in Hrun. case_match. case_match; [|done].
  unfold ret in Hrun. simplify_eq. simpl.
  match goal with H : for_each _ _ _ _ = _ |- _ => rename H into Hloop end.
  eapply (for_each_inv (buy_decision env)
            (fun acc hh => trade_date (bl_state acc) = trade_date state
                           /\ holdings_wf hh (holdings (bl_state acc))
                           /\ T1_inv (trade_date state) hh (holdings (bl_state acc))))
    in Hloop; [exact Hloop| |done].
  intros x s0 h0 s1 h1 (Hd & Hw & Hi) Hstep.
  apply buy_decision_inv in Hstep.
  rewrite <- Hd in Hi.
  destruct (buy_step_T1 _ _ _ _ _ _ Hstep Hw Hi) as (Hd' & Hw' & Hi').
  rewrite Hd in Hd', Hi'. done.
Qed.



(** ** Fees, proceeds and the trade record of a sale *)

(** C2. A sale that is carried out: the decision is a sell for a code not
    yet processed, whose holding has [hold_days] other than 0, amount
    [a], close [p] and average cost [c0]. With [total = a·p] the
    commission is [max(total·0.0003, 5)], the stamp tax [total·0.001],
    cash grows by exactly [net_income = total − commission − stamp_tax],
    and the trade records [profit = net_income − c0·a] and
    [profit_pct = profit / (c0·a) · 100]. *)
Theorem execute_sells_proceeds env d c l acc h a p c0 :
  dget_or "action" VNone d = VStr "sell" ->
  dget_or "code" VNone d = VStr c -> c <> "" ->
  c ∉ sl_processed acc ->
  holdings (sl_state acc) !! c = Some l ->
  py_eq_num (dget_or "hold_days" (VNum 0) (h !!! l)) 0 = false ->
  dget "amount" (h !!! l) = Some (VNum a) ->
  dget "current_price" (h !!! l) = Some (VNum p) ->
  dget "cost" (h !!! l) = Some (VNum c0) ->
  ~ (c0 * a == 0)%Q ->
  let total := (a * p)%Q in
  let commission := Qmax (total * (3 # 10000)) 5 in
  let stamp_tax := (total * (1 # 1000))%Q in
  let net_income := (total - commission - stamp_tax)%Q in
  exists acc' t profit profit_pct,
    sell_decision env (VDict d) acc h = (Ok acc', h)
    /\ (cash (sl_state acc') == cash (sl_state acc) + net_income)%Q
    /\ holdings (sl_state acc') = delete c (holdings (sl_state acc))
    /\ trade_history (sl_state acc') = trade_history (sl_state acc) ++ [t]
    /\ sl_trades acc' = sl_trades acc ++ [t]
    /\ dget "total" t = Some (VNum total)
    /\ dget "profit" t = Some (VNum profit)
    /\ (profit == net_income - c0 * a)%Q
    /\ dget "profit_pct" t = Some (VNum profit_pct)
    /\ (profit_pct == (net_income - c0 * a) / (c0 * a) * 100)%Q.
Proof.
  intros Ha Hc Hne Hp Hl Hd Hamt Hpr Hco Hnz total commission stamp_tax net_income.
  assert (Hnz' : ~ (a * c0 == 0)%Q) by (intros E; apply Hnz; lra).
  pose proof (sell_decision_sells env d c l acc h a p c0 Ha Hc Hne Hp Hl Hd Hamt Hpr Hco Hnz')
    as Hrun.
  simpl in Hrun.
  pose proof (py_max_Qmax (a * p * (3 # 10000)) 5) as Hmax.
  eexists _, _, _, _. split; [exact Hrun|]. simpl.
  assert (Hprofit : (a * p - py_max (a * p * (3 # 10000)) 5 - a * p * (1 # 1000) - a * c0
                     == net_income - c0 * a)%Q).
  { subst net_income commission stamp_tax total. lra. }
  repeat split; try reflexivity.
  - subst net_income commission stamp_tax total. lra.
  - exact Hprofit.
  - apply Qmult_comp; [|reflexivity]. apply Qdiv_comp; [exact Hprofit|lra].
Qed.

(** A loop of [_execute_sells] seen through its rounds. *)
Lemma execute_sells_rounds env state h state' h' (P : sell_loop -> Prop) :
  _execute_sells env state h = (Ok state', h') ->
  P {| sl_state := state; sl_processed := ∅; sl_trades := [] |} ->
  (forall acc acc', P acc -> sell_step env acc h acc' -> P acc') ->
  h' = h /\ exists r, P r /\ state' = set_sell_trades (sl_trades r) (sl_state r).
Proof.
  unfold _execute_sells, bind. intros Hrun H0 Hstep.
  case_match. case_match; [|done]. unfold ret in Hrun. simplify_eq.
  match goal with H : for_each _ _ _ _ = _ |- _ => rename H into Hloop end.
  eapply (for_each_inv (sell_decision env) (fun acc hh => hh = h /\ P acc)) in Hloop.
  - destruct Hloop as [-> HP]. eauto.
  - clear Hloop. intros x s0 h0 s1 h1 [-> HP] Hrun.
    apply sell_decision_inv in Hrun. destruct Hrun as [-> Hrun]. eauto.
  - done.
Qed.

(** C10. In every trade that [_execute_sells] records, ["commission"]
    holds the broker's commission and the stamp tax added up,
    [max(total·0.0003, 5) + total·0.001] with [total = amount·price], and
    there is no ["stamp_tax"] key. *)
Theorem sell_trade_commission env state h state' h' :
  _execute_sells env state h = (Ok state', h') ->
  Forall commission_with_stamp_tax (sell_trades state').
Proof.
  intros Hrun.
  destruct (execute_sells_rounds env state h state' h'
              (fun acc => Forall commission_with_stamp_tax (sl_trades acc)) Hrun)
    as (_ & r & HP & ->); [by constructor| |exact HP].
  intros acc acc' HP Hstep. destruct Hstep as [acc' Hs Ht | ].
  - by rewrite Ht.
  - simpl. apply Forall_app. split; [done|]. apply Forall_singleton.
    exists a, p. eexists. subst t amount_v price_v. simpl.
    repeat split; try reflexivity.
    subst commission stamp_tax sell_amount.
    pose proof (py_max_Qmax (a * p * (3 # 10000)) 5). lra.
Qed.

(** ** Cash *)

Lemma execute_buys_rounds env state h state' h' (P : buy_loop -> heap -> Prop) :
  _execute_buys env state h = (Ok state', h') ->
  P {| bl_state := state; bl_processed := ∅; bl_trades := [] |} h ->
  (forall decision acc hh acc' hh',
     decision ∈ buy_analysis state ->
     P acc hh -> buy_step env decision acc hh acc' hh' -> P acc' hh') ->
  (state' = set_buy_trades [] state /\ h' = h)
  \/ exists r, P r h' /\ state' = set_buy_trades (bl_trades r) (bl_state r).
Proof.
  unfold _execute_buys. intros Hrun H0 Hstep.
  repeat (case_match; [unfold ret in Hrun; simplify_eq; by left|]).
  unfold bind in Hrun. case_match. case_match; [|done].
  unfold ret in Hrun. simplify_eq. right.
  match goal with H : for_each _ _ _ _ = _ |- _ => rename H into Hloop end.
  eapply (for_each_inv_in (buy_decision env) P) in Hloop; eauto.
  intros x s0 h0 s1 h1 Hx HP Hrun. apply buy_decision_inv in Hrun. eauto.
Qed.

(** What a sale adds to cash is not negative once the position is worth
    the minimal commission after stamp tax. *)
Lemma net_income_nonneg (total : Q) :
  (5 <= total * (999 # 1000))%Q ->
  (0 <= total - py_max (total * (3 # 10000)) 5 - total * (1 # 1000))%Q.
Proof.
  intros H. unfold py_max. destruct (Qlt_bool _ _) eqn:E.
  - lra.
  - apply Qlt_bool_false in E. lra.
Qed.

(** C9, as the code has it. [_execute_buys] never makes cash negative (a
    purchase goes through only when its cost with commission is within
    cash). [_execute_sells] adds the net income of each sale to cash, and
    keeps cash non-negative when every position it may sell is worth at
    least the minimal commission after stamp tax ([total·0.999 ≥ 5]).
    There is no abort or roll-back on a negative balance. *)
Theorem cash_nonneg_preserved (env : Env) :
  (forall state h state' h',
     _execute_buys env state h = (Ok state', h') ->
     (0 <= cash state)%Q -> (0 <= cash state')%Q)
  /\ (forall state h state' h',
        _execute_sells env state h = (Ok state', h') ->
        (forall c l a p,
           holdings state !! c = Some l ->
           dget "amount" (h !!! l) = Some (VNum a) ->
           dget "current_price" (h !!! l) = Some (VNum p) ->
           (5 <= a * p * (999 # 1000))%Q) ->
        (0 <= cash state)%Q -> (0 <= cash state')%Q).
Proof.
  split.
  - intros state h state' h' Hrun Hc.
    destruct (execute_buys_rounds env state h state' h'
                (fun acc _ => (0 <= cash (bl_state acc))%Q) Hrun)
      as [[-> _] | (r & HP & ->)]; [done| |done|done].
    intros decision acc hh acc' hh' _ HP Hstep. destruct Hstep as [acc' Hs Ht | ].
    + by rewrite Hs.
    + simpl. match goal with H : Qlt_bool (cash _) _ = false |- _ =>
        apply Qlt_bool_false in H end. subst cash' total_cost. lra.
  - intros state h state' h' Hrun Hworth Hc.
    destruct (execute_sells_rounds env state h state' h'
                (fun acc => (0 <= cash (sl_state acc))%Q
                            /\ holdings (sl_state acc) ⊆ holdings state) Hrun)
      as (_ & r & [HP _] & ->); [done| |done].
    intros acc acc' [HP Hsub] Hstep. destruct Hstep as [acc' Hs Ht | ].
    + by rewrite Hs.
    + simpl. split.
      * subst amount_v price_v.
        assert (Hl : holdings state !! c = Some l) by (eapply lookup_weaken; eauto).
        pose proof (Hworth c l a p Hl ltac:(done) ltac:(done)) as Hw.
        pose proof (net_income_nonneg (a * p) Hw).
        subst net_income commission stamp_tax sell_amount state0. lra.
      * etrans; [apply delete_subseteq|done].
Qed.

(** ** The gates of [_execute_buys] *)


(** ** The exit plan *)

(** The decision that [_analyze_candidates] hands on has no ["exit_plan"]. *)
Lemma normalized_decision_drops_exit_plan threshold d h n h' :
  normalize_buy_decision threshold d h = (Ok (Some n), h') ->
  no_exit_plan n.
Proof.
  unfold normalize_buy_decision, as_num, bind, ret, raise. intros H.
  repeat (case_match; simplify_eq). reflexivity.
Qed.

Lemma normalize_buy_decisions_no_exit_plan threshold decisions h buy_decisions h' :
  normalize_buy_decisions threshold decisions h = (Ok buy_decisions, h') ->
  Forall no_exit_plan buy_decisions.
Proof.
  unfold normalize_buy_decisions. intros H.
  eapply (for_each_inv _ (fun acc _ => Forall no_exit_plan acc)); [|constructor|exact H].
  intros x s h0 s' h1 HP Hx. unfold bind in Hx.
  destruct (normalize_buy_decision threshold x h0) as [[[n|]|e] h2] eqn:E;
    unfold ret in Hx; simplify_eq; [|done].
  apply Forall_app. split; [done|]. apply Forall_singleton.
  eapply normalized_decision_drops_exit_plan; eauto.
Qed.

Lemma analyze_retry_no_exit_plan env llm attempts attempt state h s1 h1 :
  analyze_retry env llm attempt (S attempts) state h = (Ok s1, h1) ->
  Forall no_exit_plan (buy_analysis s1).
Proof.
  revert attempt h. induction attempts as [|attempts IH]; intros attempt h H.
  - simpl in H. destruct (llm attempt) as [ib|[|d ds]].
    + destruct ib; unfold ret in H; simplify_eq; simpl; constructor.
    + unfold ret in H. simplify_eq. simpl. constructor.
    + unfold try_except, bind in H.
      destruct (normalize_buy_decisions _ _ h) as [[bds|e] h2] eqn:E.
      * destruct (for_each _ bds tt h2) as [[[]|e] h3]; unfold ret in H; simplify_eq.
        -- simpl. eapply normalize_buy_decisions_no_exit_plan; eauto.
        -- simpl. constructor.
      * unfold ret in H. simplify_eq. simpl. constructor.
  - remember (S attempts) as n eqn:Hn. simpl in H. subst n. cbv iota beta in H.
    destruct (llm attempt) as [ib|[|d ds]].
    + destruct ib; [unfold ret in H; simplify_eq; simpl; constructor|]. eapply IH; eauto.
    + unfold ret in H. simplify_eq. simpl. constructor.
    + unfold try_except, bind in H.
      destruct (normalize_buy_decisions _ _ h) as [[bds|e] h2] eqn:E.
      * destruct (for_each _ bds tt h2) as [[[]|e] h3]; unfold ret in H.
        -- simplify_eq. simpl. eapply normalize_buy_decisions_no_exit_plan; eauto.
        -- eapply IH; eauto.
      * eapply IH; eauto.
Qed.

Lemma analyze_candidates_no_exit_plan env llm state h s1 h1 :
  _analyze_candidates env llm state h = (Ok s1, h1) ->
  Forall no_exit_plan (buy_analysis s1).
Proof.
  unfold _analyze_candidates. intros H.
  destruct (should_stop env); [unfold ret in H; simplify_eq; simpl; constructor|].
  destruct (candidates state) as [|c cs]; [unfold ret in H; simplify_eq; simpl; constructor|].
  destruct (Qeq_bool _ _); [done|].
  unfold bind in H. destruct (for_each _ _ tt h) as [[[]|e] h2]; [|done].
  eapply analyze_retry_no_exit_plan; eauto.
Qed.

(** Whatever the LLM answers, the purchases that follow the analysis
    record the placeholder as exit plan, on the trade and on the holding
    (the holdings created by the call are those whose reference is new to
    the store). *)
Lemma exit_plan_never_persisted env llm state h s1 h1 s2 h2 :
  _analyze_candidates env llm state h = (Ok s1, h1) ->
  _execute_buys env s1 h1 = (Ok s2, h2) ->
  Forall exit_plan_unset (buy_trades s2)
  /\ forall l, l ∈ dom h2 -> l ∉ dom h1 -> exit_plan_unset (h2 !!! l).
Proof.
  intros Han Hbuy. apply analyze_candidates_no_exit_plan in Han.
  destruct (execute_buys_rounds env s1 h1 s2 h2
              (fun acc hh => Forall exit_plan_unset (bl_trades acc)
                             /\ forall l, l ∈ dom hh -> l ∉ dom h1 ->
                                          exit_plan_unset (hh !!! l)) Hbuy)
    as [[-> ->] | (r & HP & ->)]; try done.
  intros decision acc hh acc' hh' Hin [Htr Hhold] Hstep.
  destruct Hstep as [acc' Hs Ht | ]; [by rewrite Ht|].
  assert (Hnone : dget "exit_plan" d = None).
  { rewrite Forall_forall in Han. specialize (Han _ Hin). by subst decision. }
  assert (e = []) as ->.
  { match goal with H : dget_or "exit_plan" _ d = VDict e |- _ =>
      unfold dget_or in H; rewrite Hnone in H; by simplify_eq end. }
  simpl. split.
  - apply Forall_app. split; [done|]. apply Forall_singleton. done.
  - intros l' Hl' Hnew. destruct (decide (l' = l)) as [->|Hne].
    + rewrite lookup_total_insert_eq. done.
    + rewrite lookup_total_insert_ne by done. apply Hhold; [|done].
      apply elem_of_dom. apply elem_of_dom in Hl'. by rewrite lookup_insert_ne in Hl'.
Qed.

(** ** A purchase of a code already held *)

(** Whatever was held under the code, after a purchase the holding is the
    one the purchase wrote: its amount is the amount bought and its cost
    the price paid. *)
Lemma buy_decision_replaces_holding env decision acc h acc' h' :
  buy_decision env decision acc h = (Ok acc', h') ->
  bl_trades acc' <> bl_trades acc ->
  exists c t held,
    bl_trades acc' = bl_trades acc ++ [t]
    /\ dget "code" t = Some (VStr c)
    /\ holdings_view h' (holdings (bl_state acc')) !! c = Some held
    /\ dget "amount" held = dget "amount" t
    /\ dget "cost" held = dget "price" t.
Proof.
  intros Hrun Hne. apply buy_decision_inv in Hrun.
  destruct Hrun as [acc' Hs Ht | ]; [done|].
  exists c, t. eexists. split; [reflexivity|]. split; [reflexivity|].
  unfold holdings_view. simpl. rewrite lookup_fmap, lookup_insert_eq. simpl.
  rewrite lookup_total_insert_eq. done.
Qed.

(** ** The pipeline on the worked examples *)

Lemma day1_runs :
  snd (fst day1) = Ok tt
  /\ (self_cash agent_after_day1 == 7995)%Q
  /\ holdings_view heap_after_day1 (self_holdings agent_after_day1) !! "000001.SZ"
     = Some (buy_holding_record (table_env closes_2025 5)
               (state_of (new_agent 10000) "20250106") [("expected_days", VNum 3)]
               "000001.SZ" 200 10 (VStr "未设置") (VStr "未设置") (VStr "未设置")).
Proof. vm_compute. repeat split; reflexivity. Qed.


(** Scenario A of the specification: 200 shares bought at 10 and sold at
    11 bring 2192.80. *)
Lemma execute_sells_proceeds_witness :
  let env := table_env closes_2025 5 in
  let state := state_of agent_after_day1 "20250107" in
  exists acc',
    sell_decision env (sell_order "000001.SZ") (sell_loop_start state) aged_heap
      = (Ok acc', aged_heap)
    /\ (cash (sl_state acc') == 7995 + (21928 # 10))%Q.
Proof.
  intros env state.
  destruct (execute_sells_proceeds env
              [("action", VStr "sell"); ("code", VStr "000001.SZ"); ("reason", VStr "stop loss")]
              "000001.SZ" 1%positive (sell_loop_start state) aged_heap 200 11 10)
    as (acc' & t & profit & profit_pct & Hrun & Hcash & _);
    try reflexivity.
  - discriminate.
  - apply not_elem_of_empty.
  - vm_compute. discriminate.
  - exists acc'. split; [exact Hrun|]. rewrite Hcash. vm_compute. reflexivity.
Defined.

Lemma sell_trade_commission_witness :
  let env := table_env closes_2025 5 in
  let state := set_sell_analysis [sell_order "000001.SZ"]
                 (state_of agent_after_day1 "20250107") in
  match _execute_sells env state aged_heap with
  | (Ok state', _) =>
      length (sell_trades state') = 1%nat
      /\ Forall commission_with_stamp_tax (sell_trades state')
  | _ => False
  end.
Proof.
  intros env state.
  destruct (_execute_sells env state aged_heap) as [[state'|e] h'] eqn:E.
  - split.
    + vm_compute in E. injection E as <- _. reflexivity.
    + exact (sell_trade_commission env state aged_heap state' h' E).
  - vm_compute in E. discriminate.
Defined.

Lemma cash_nonneg_preserved_witness :
  let env := table_env closes_2025 5 in
  let buying := set_buy_analysis [buy_order "000001.SZ" 200]
                  (state_of (new_agent 10000) "20250106") in
  let selling := set_sell_analysis [sell_order "000001.SZ"]
                   (state_of agent_after_day1 "20250107") in
  exists bought h1 sold h2,
    _execute_buys env buying ∅ = (Ok bought, h1)
    /\ _execute_sells env selling aged_heap = (Ok sold, h2)
    /\ (0 <= cash bought)%Q /\ (0 <= cash sold)%Q.
Proof.
  intros env buying selling. destruct (cash_nonneg_preserved env) as [Hbuy Hsell].
  assert (E1 : exists bought h1, _execute_buys env buying ∅ = (Ok bought, h1))
    by (eexists _, _; vm_compute; reflexivity).
  assert (E2 : exists sold h2, _execute_sells env selling aged_heap = (Ok sold, h2))
    by (eexists _, _; vm_compute; reflexivity).
  destruct E1 as (bought & h1 & E1). destruct E2 as (sold & h2 & E2).
  exists bought, h1, sold, h2. split; [exact E1|]. split; [exact E2|]. split.
  - apply (Hbuy _ _ _ _ E1). vm_compute. discriminate.
  - apply (Hsell _ _ _ _ E2).
    + intros c l a p Hl Ha Hp.
      assert (Hh : holdings selling = {["000001.SZ" := 1%positive]})
        by (vm_compute; reflexivity).
      rewrite Hh in Hl. apply lookup_singleton_Some in Hl. destruct Hl as [<- <-].
      vm_compute in Ha, Hp. injection Ha as <-. injection Hp as <-.
      vm_compute. discriminate.
    + vm_compute. discriminate.
Defined.


(** C3 on the code: the holding of 200 shares at 10 is replaced, not
    merged, when 100 more shares are bought at 11. The day ends with a
    holding of 100 shares at cost 11 (a merge gives 300 shares at
    10.33…), while cash has paid for both purchases. *)
Theorem execute_buys_overwrites_holding :
  exists before after,
    snd (fst day2_rebuy) = Ok tt
    /\ holdings_view heap_after_day1 (self_holdings agent_after_day1) !! "000001.SZ"
       = Some before
    /\ dget "amount" before = Some (VNum 200)
    /\ dget "cost" before = Some (VNum 10)
    /\ holdings_view (snd day2_rebuy) (self_holdings (fst (fst day2_rebuy))) !! "000001.SZ"
       = Some after
    /\ dget "amount" after = Some (VNum 100)
    /\ dget "cost" after = Some (VNum 11)
    /\ (self_cash (fst (fst day2_rebuy)) == 10000 - 2005 - 1105)%Q.
Proof.
  eexists _, _. repeat (split; [vm_compute; reflexivity|]). vm_compute; reflexivity.
Qed.


(** C5 on the code: the amount of the buy decision is a string, so
    [_execute_buys] raises a TypeError after [_update_holdings_prices]
    has run. Cash, total assets, the trade history, the daily assets and
    the mapping from codes to holdings are put back, but the holding
    itself keeps the updates of the failed day: [hold_days] is 1 and
    [current_price] is 11, where they were 0 and 10 before the day. *)
Theorem run_single_day_restore_is_shallow :
  exists before after,
    snd (fst day2_failing) = Raise TypeError
    /\ self_cash (fst (fst day2_failing)) = self_cash agent_after_day1
    /\ self_total_assets (fst (fst day2_failing)) = self_total_assets agent_after_day1
    /\ self_trade_history (fst (fst day2_failing)) = self_trade_history agent_after_day1
    /\ self_daily_assets (fst (fst day2_failing)) = self_daily_assets agent_after_day1
    /\ self_holdings (fst (fst day2_failing)) = self_holdings agent_after_day1
    /\ holdings_view heap_after_day1 (self_holdings agent_after_day1) !! "000001.SZ"
       = Some before
    /\ holdings_view (snd day2_failing) (self_holdings (fst (fst day2_failing))) !! "000001.SZ"
       = Some after
    /\ dget "hold_days" before = Some (VNum 0)
    /\ dget "hold_days" after = Some (VNum 1)
    /\ dget "current_price" before = Some (VNum 10)
    /\ dget "current_price" after = Some (VNum 11).
Proof.
  eexists _, _. repeat (split; [vm_compute; reflexivity|]). vm_compute; reflexivity.
Qed.

(** What the restore does put back, whichever node raises. *)
Lemma run_single_day_restores_fields env nodes date self h self' e h' :
  run_single_day env nodes date self h = (self', Raise e, h') ->
  self_cash self' = self_cash self
  /\ self_total_assets self' = self_total_assets self
  /\ self_trade_history self' = self_trade_history self
  /\ self_daily_assets self' = self_daily_assets self
  /\ self_holdings self' = self_holdings self.
Proof.
  unfold run_single_day. intros H.
  destruct (should_stop env); [by simplify_eq|].
  destruct (app_invoke _ _ _ _) as [[s|e'] h'']; simplify_eq. done.
Qed.

(** C8 on the code: the LLM's decision carries the exit plan
    (+8%, -4%, "closes below MA20"); the holding and the buy trade of the
    day record the placeholder for all three. *)
Theorem exit_plan_not_persisted :
  exists decision plan holding trade,
    llm_buy "000001.SZ" (VNum 200) = VDict decision
    /\ dget "exit_plan" decision = Some (VDict plan)
    /\ dget "profit_target" plan = Some (VStr "+8%")
    /\ dget "stop_loss" plan = Some (VStr "-4%")
    /\ dget "invalidation" plan = Some (VStr "closes below MA20")
    /\ snd (fst day1) = Ok tt
    /\ holdings_view heap_after_day1 (self_holdings agent_after_day1) !! "000001.SZ"
       = Some holding
    /\ self_trade_history agent_after_day1 = [trade]
    /\ dget "action" trade = Some (VStr "buy")
    /\ dget "profit_target" holding = Some (VStr "未设置")
    /\ dget "stop_loss" holding = Some (VStr "未设置")
    /\ dget "invalidation" holding = Some (VStr "未设置")
    /\ dget "profit_target" trade = Some (VStr "未设置")
    /\ dget "stop_loss" trade = Some (VStr "未设置")
    /\ dget "invalidation" trade = Some (VStr "未设置").
Proof.
  eexists _, _, _, _. repeat (split; [vm_compute; reflexivity|]). vm_compute; reflexivity.
Qed.

(** C9 as stated fails: an agent that starts with 10000 buys 100 shares
    of four stocks at 20 and of a fifth at 19.75 (2005, 2005, 2005, 2005
    and 1980 with the commissions), which leaves cash at exactly 0. The
    next day it sells the 100 shares of the fifth stock, which fell to
    0.03125: the sale brings 3.125 and costs 5.003125 in fees, cash ends
    at −1.878125, nothing aborts or rolls back and the day completes. *)
Lemma negative_cash_reachable :
  snd (fst collapse_day1) = Ok tt
  /\ length (self_trade_history (fst (fst collapse_day1))) = 5%nat
  /\ (self_cash (fst (fst collapse_day1)) == 0)%Q
  /\ snd (fst collapse_day2) = Ok tt
  /\ length (self_trade_history (fst (fst collapse_day2))) = 6%nat
  /\ (self_cash (fst (fst collapse_day2)) == - (1878125 # 1000000))%Q
  /\ (self_cash (fst (fst collapse_day2)) < 0)%Q.
Proof. vm_compute. repeat split; reflexivity. Qed.

(** ** Dicts *)

Lemma dget_dset_eq (k : string) (v : pyval) (d : pydict) : dget k (dset k v d) = Some v.
Proof.
  induction d as [|[k' v'] d IH]; simpl.
  - by rewrite String.eqb_refl.
  - destruct (String.eqb k k') eqn:E; simpl; rewrite E; done.
Qed.

Lemma dget_dset_ne (k k' : string) (v : pyval) (d : pydict) :
  k <> k' -> dget k (dset k' v d) = dget k d.
Proof.
  intros Hne. induction d as [|[k0 v0] d IH]; simpl.
  - destruct (String.eqb k k') eqn:E; [apply String.eqb_eq in E; done|done].
  - destruct (String.eqb k' k0) eqn:E; simpl.
    + apply String.eqb_eq in E. subst k0.
      destruct (String.eqb k k') eqn:E'; [apply String.eqb_eq in E'; done|done].
    + by rewrite IH.
Qed.





(** ** The replay of the trade log *)



(** ** Chronological order *)






(** ** [rollback_to_date] *)

Section RollbackProperties.

Variable strptime : string -> option Z.
Variable _update_holdings_current_prices :
  pyval -> gmap string pydict -> option (gmap string pydict).





End RollbackProperties.



(** ** [detect_data_corruption] *)

Section DetectProperties.

Variable strptime : string -> option Z.

Lemma scan_entries_app (all : list pydict) (s : scan) (pre post : list pydict) :
  scan_entries strptime all s (pre ++ post)
  = match scan_entries strptime all s pre with
    | Stop r => Stop r
    | Continue s' => scan_entries strptime all s' post
    end.
Proof.
  revert s. induction pre as [|e pre IH]; intros s; simpl; [done|].
  destruct (check_entry strptime all s e); [done|apply IH].
Qed.

(** An entry that the loop flags, after it has accepted the entries
    before, decides the result. *)
Lemma detect_flagged_entry (self : Agent pydict) (pre post : list pydict) (entry : pydict)
    (s : scan) (date_str : string) :
  self_daily_assets self = pre ++ entry :: post ->
  scan_entries strptime (self_daily_assets self)
    {| prev_date := None; _prev_assets := None |} pre = Continue s ->
  check_entry strptime (self_daily_assets self) s entry = flag date_str ->
  detect_data_corruption strptime self = Ok (true, RVal (VStr date_str)).
Proof.
  intros Hall Hpre Hentry. unfold detect_data_corruption.
  destruct (self_daily_assets self) as [|e0 rest] eqn:E.
  - by destruct pre.
  - rewrite <- E in *. rewrite Hall at 2. rewrite scan_entries_app, Hpre. simpl.
    by rewrite Hentry.
Qed.

(** C7, as the code has it. The loop stands at an entry whose date
    [date_obj] is not before the previous date [p] and whose total assets
    [t] are not negative, the previous total [prev] being positive. With
    [pct] the change in percent and [gap] the days between the two dates:
    one day apart, the entry is flagged (its date is the date returned)
    when [pct < −12] or [pct > 30] and accepted when
    [−12 ≤ pct ≤ 30]; two or three days apart, it is flagged when
    [|pct| > 10·gap] and accepted otherwise; more than three days apart
    it is flagged whatever the change; on the same date it is accepted.
    (Accepted: with a valid cash field the loop goes on to the next
    entry.) *)
Theorem detect_asset_change (self : Agent pydict) (pre post : list pydict) (entry : pydict)
    (s : scan) (original : string) (date_obj p : Z) (prev t : Q) :
  self_daily_assets self = pre ++ entry :: post ->
  scan_entries strptime (self_daily_assets self)
    {| prev_date := None; _prev_assets := None |} pre = Continue s ->
  prev_date s = Some p -> _prev_assets s = Some prev -> (0 < prev)%Q ->
  dget_or "date" VNone entry = VStr original -> original <> "" ->
  has_dash original = true \/ String.length original = 8%nat ->
  strptime (entry_date_str original) = Some date_obj -> (p <= date_obj)%Z ->
  py_or (dget_or "total_assets" VNone entry) (dget_or "assets" VNone entry) = VNum t ->
  (0 <= t)%Q ->
  let pct := ((t - prev) / prev * 100)%Q in
  let gap := (date_obj - p)%Z in
  let flagged :=
    detect_data_corruption strptime self
    = Ok (true, RVal (VStr (entry_date_str original))) in
  let accepted :=
    forall c, dget_or "cash" (VNum 0) entry = VNum c -> (0 <= c)%Q ->
      check_entry strptime (self_daily_assets self) s entry
      = Continue {| prev_date := Some date_obj; _prev_assets := Some t |} in
  (gap = 1%Z -> (pct < -12)%Q \/ (30 < pct)%Q -> flagged)
  /\ (gap = 1%Z -> (-12 <= pct)%Q -> (pct <= 30)%Q -> accepted)
  /\ ((2 <= gap <= 3)%Z -> (inject_Z (gap * 10) < Qabs pct)%Q -> flagged)
  /\ ((2 <= gap <= 3)%Z -> (Qabs pct <= inject_Z (gap * 10))%Q -> accepted)
  /\ ((3 < gap)%Z -> flagged)
  /\ (gap = 0%Z -> accepted).
Proof.
  intros Hall Hpre Hp Hprev Hpos Hdate Hne Hfmt Hparse Hord Htot Ht pct gap flagged accepted.
  assert (Hcheck :
    check_entry strptime (self_daily_assets self) s entry =
    let cash_check :=
      match dget_or "cash" (VNum 0) entry with
      | VNum cash =>
          if Qlt_bool cash 0 then flag (entry_date_str original)
          else Continue {| prev_date := Some date_obj; _prev_assets := Some t |}
      | _ => flag (entry_date_str original)
      end in
    if (3 <? gap)%Z then flag (entry_date_str original)
    else if (gap =? 1)%Z then
      if Qlt_bool pct (-12) || Qlt_bool 30 pct
      then flag (entry_date_str original) else cash_check
    else if (1 <? gap)%Z then
      if Qlt_bool (inject_Z (gap * 10)) (Qabs pct)
      then flag (entry_date_str original) else cash_check
    else cash_check).
  { unfold check_entry. rewrite Hdate.
    destruct (String.eqb original "") eqn:E; [apply String.eqb_eq in E; done|].
    assert (negb (has_dash original) && negb (Nat.eqb (String.length original) 8) = false)
      as ->.
    { destruct Hfmt as [-> | ->]; [done|]. by rewrite andb_false_r. }
    rewrite Hparse, Hp, Hprev, Htot.
    assert ((date_obj <? p)%Z = false) as -> by (apply Z.ltb_ge; lia).
    assert (Qlt_bool t 0 = false) as -> by by apply Qlt_bool_false.
    assert (Qlt_bool 0 prev = true) as -> by by apply Qlt_bool_true.
    reflexivity. }
  assert (Hflag : check_entry strptime (self_daily_assets self) s entry
                  = flag (entry_date_str original) -> flagged).
  { intros Hf. eapply detect_flagged_entry; eauto. }
  assert (Hacc : forall c, dget_or "cash" (VNum 0) entry = VNum c -> (0 <= c)%Q ->
            match dget_or "cash" (VNum 0) entry with
            | VNum cash =>
                if Qlt_bool cash 0 then flag (entry_date_str original)
                else Continue {| prev_date := Some date_obj; _prev_assets := Some t |}
            | _ => flag (entry_date_str original)
            end = Continue {| prev_date := Some date_obj; _prev_assets := Some t |}).
  { intros c -> Hc. by apply Qlt_bool_false in Hc as ->. }
  cbv zeta in Hcheck.
  repeat split.
  - intros Hg Hpct. apply Hflag. rewrite Hcheck.
    assert ((3 <? gap)%Z = false) as -> by (apply Z.ltb_ge; lia).
    assert ((gap =? 1)%Z = true) as -> by (apply Z.eqb_eq; lia).
    destruct Hpct as [Hl | Hl]; apply Qlt_bool_true in Hl; rewrite Hl; [done|].
    by rewrite orb_true_r.
  - intros Hg Hlo Hhi c Hc Hc0. rewrite Hcheck.
    assert ((3 <? gap)%Z = false) as -> by (apply Z.ltb_ge; lia).
    assert ((gap =? 1)%Z = true) as -> by (apply Z.eqb_eq; lia).
    apply Qlt_bool_false in Hlo, Hhi. rewrite Hlo, Hhi. simpl. by eapply Hacc.
  - intros Hg Hpct. apply Hflag. rewrite Hcheck.
    assert ((3 <? gap)%Z = false) as -> by (apply Z.ltb_ge; lia).
    assert ((gap =? 1)%Z = false) as -> by (apply Z.eqb_neq; lia).
    assert ((1 <? gap)%Z = true) as -> by (apply Z.ltb_lt; lia).
    apply Qlt_bool_true in Hpct. by rewrite Hpct.
  - intros Hg Hpct c Hc Hc0. rewrite Hcheck.
    assert ((3 <? gap)%Z = false) as -> by (apply Z.ltb_ge; lia).
    assert ((gap =? 1)%Z = false) as -> by (apply Z.eqb_neq; lia).
    assert ((1 <? gap)%Z = true) as -> by (apply Z.ltb_lt; lia).
    apply Qlt_bool_false in Hpct. rewrite Hpct. by eapply Hacc.
  - intros Hg. apply Hflag. rewrite Hcheck.
    by assert ((3 <? gap)%Z = true) as -> by (apply Z.ltb_lt; lia).
  - intros Hg c Hc Hc0. rewrite Hcheck.
    assert ((3 <? gap)%Z = false) as -> by (apply Z.ltb_ge; lia).
    assert ((gap =? 1)%Z = false) as -> by (apply Z.eqb_neq; lia).
    assert ((1 <? gap)%Z = false) as -> by (apply Z.ltb_ge; lia).
    by eapply Hacc.
Qed.

End DetectProperties.

(** C7 as stated fails: total assets rise by 20% from 2025-01-03 to
    2025-01-04 and nothing is reported. *)
Lemma detect_accepts_one_day_rise :
  self_daily_assets rising_agent
  = [daily_point "20250103" 10000 10000; daily_point "20250104" 12000 12000]
  /\ strptime_iso "2025-01-03" = Some 20091%Z
  /\ strptime_iso "2025-01-04" = Some 20092%Z
  /\ ((12000 - 10000) / 10000 * 100 == 20)%Q
  /\ detect_data_corruption strptime_iso rising_agent = Ok (false, RVal VNone).
Proof. repeat (split; [vm_compute; reflexivity|]). vm_compute; reflexivity. Qed.

(** Scenario E of the specification: the drop of 2025-01-08 is more than
    12% in one day, and that date is reported. *)
Lemma detect_asset_change_witness :
  detect_data_corruption strptime_iso damaged_agent = Ok (true, RVal (VStr "2025-01-08")).
Proof.
  apply (proj1 (detect_asset_change strptime_iso damaged_agent
                  [daily_point "20250106" 9995 7995; daily_point "20250107" 10195 7995] []
                  (daily_point "20250108" 5000 7995)
                  {| prev_date := Some 20095%Z; _prev_assets := Some 10195%Q |}
                  "20250108" 20096 20095 10195 5000
                  ltac:(reflexivity) ltac:(vm_compute; reflexivity)
                  ltac:(reflexivity) ltac:(reflexivity) ltac:(reflexivity)
                  ltac:(reflexivity) ltac:(discriminate) ltac:(right; reflexivity)
                  ltac:(vm_compute; reflexivity) ltac:(lia)
                  ltac:(reflexivity) ltac:(discriminate))).
  - reflexivity.
  - left. vm_compute. reflexivity.
Defined.

(** * More properties of the code *)

(** Case analysis on the test a computation starts with: the innermost
    scrutinee at the head of the left-hand side of [H]. *)
Ltac head_scrutinee t :=
  lazymatch t with
  | match ?x with _ => _ end => head_scrutinee x
  | match ?x with _ => _ end _ => head_scrutinee x
  | _ => constr:(t)
  end.

Ltac head_match H :=
  cbv beta iota zeta in H;
  lazymatch type of H with
  | match ?x with _ => _ end = _ => let s := head_scrutinee x in destruct s eqn:?
  | match ?x with _ => _ end _ = _ => let s := head_scrutinee x in destruct s eqn:?
  end.

Lemma bind_ok {A B} (m : M A) (f : A -> M B) (h h' : heap) (a : A) :
  m h = (Ok a, h') -> bind m f h = f a h'.
Proof. unfold bind. by intros ->. Qed.

(** ** The trade log as a ledger of cash *)

(** The cash that a trade log accounts for, one trade at a time. *)
Lemma spec_cash_from_log_snoc (c : Q) (ts : list pydict) (t : pydict) :
  spec_cash_from_log c (ts ++ [t]) =
    if py_eq_str (dget_or "action" VNone t) "buy"
    then (spec_cash_from_log c ts - (trade_number "total" t + trade_number "commission" t))%Q
    else if py_eq_str (dget_or "action" VNone t) "sell"
    then (spec_cash_from_log c ts + (trade_number "total" t - trade_number "commission" t))%Q
    else spec_cash_from_log c ts.
Proof. unfold spec_cash_from_log. by rewrite foldl_app. Qed.

(** X1. The sales of a day as a ledger: when [_execute_sells] returns,
    the cash is the cash it was called with plus, for every trade of
    [sell_trades], the trade's [total] less its [commission] (the field
    holds commission and stamp duty together). *)
Theorem execute_sells_ledger env state h state' h' :
  _execute_sells env state h = (Ok state', h') ->
  (cash state' == spec_cash_from_log (cash state) (sell_trades state'))%Q.
Proof.
  intros Hrun.
  destruct (execute_sells_rounds env state h state' h'
              (fun acc => (cash (sl_state acc)
                           == spec_cash_from_log (cash state) (sl_trades acc))%Q) Hrun)
    as (_ & r & HP & ->); [simpl; reflexivity| |exact HP].
  intros acc acc' HP Hstep. destruct Hstep as [acc' Hs Ht | ].
  - by rewrite Hs, Ht.
  - simpl. rewrite spec_cash_from_log_snoc.
    subst t. simpl. unfold trade_number. simpl.
    subst net_income state0. lra.
Qed.

(** X2. The purchases of a day as a ledger: when [_execute_buys]
    returns, the cash is the cash it was called with less, for every trade
    of [buy_trades], the trade's [total] and its [commission]; and the
    trade history has grown by these trades and by nothing else. *)
Theorem execute_buys_ledger env state h state' h' :
  _execute_buys env state h = (Ok state', h') ->
  (cash state' == spec_cash_from_log (cash state) (buy_trades state'))%Q
  /\ trade_history state' = trade_history state ++ buy_trades state'.
Proof.
  intros Hrun.
  destruct (execute_buys_rounds env state h state' h'
              (fun acc _ => (cash (bl_state acc)
                             == spec_cash_from_log (cash state) (bl_trades acc))%Q
                            /\ trade_history (bl_state acc)
                               = trade_history state ++ bl_trades acc) Hrun)
    as [[-> _] | (r & HP & ->)].
  - simpl. split; [reflexivity|by rewrite app_nil_r].
  - intros decision acc hh acc' hh' _ [HP Hth] Hstep. destruct Hstep as [acc' Hs Ht | ].
    + by rewrite Hs, Ht.
    + simpl. rewrite spec_cash_from_log_snoc. split.
      * subst t. simpl. unfold trade_number. simpl.
        subst cash' total_cost state0. lra.
      * subst state0. rewrite Hth. by rewrite <- (assoc_L (++)).
  - simpl. split; [reflexivity|by rewrite app_nil_r].
  - exact HP.
Qed.

(** One round of the sell loop, with the codes it has marked. *)
Lemma sell_decision_round env decision acc h acc' h' :
  sell_decision env decision acc h = (Ok acc', h') ->
  sl_processed acc ⊆ sl_processed acc'
  /\ ((sl_state acc' = sl_state acc /\ sl_trades acc' = sl_trades acc)
      \/ exists c t,
           sl_trades acc' = sl_trades acc ++ [t]
           /\ holdings (sl_state acc') = delete c (holdings (sl_state acc))
           /\ dget "code" t = Some (VStr c)
           /\ is_Some (holdings (sl_state acc) !! c)
           /\ (c ∉ sl_processed acc) /\ (c ∈ sl_processed acc')).
Proof.
  unfold sell_decision, sell_holding, sell_continue, getitem, as_num, deref, bind, ret, raise.
  intros H.
  repeat head_match H; try discriminate; injection H as <- _; simpl.
  all: split; [try reflexivity; apply union_subseteq_r|].
  all: try (left; split; reflexivity).
  all: right; eexists _, _; simpl.
  all: split; [reflexivity|]; split; [reflexivity|]; split; [reflexivity|].
  all: split; [by eexists|]; split; [assumption|].
  all: by apply elem_of_union_l, elem_of_singleton.
Qed.

(** X3. [_execute_sells] sells a stock at most once in a call, however
    often the decisions name it: the codes of the sell trades are pairwise
    different and each was held on entry; on return these codes, and only
    these, have left the holdings. *)
Theorem execute_sells_once_per_code env state h state' h' :
  _execute_sells env state h = (Ok state', h') ->
  exists codes,
    Forall2 (fun t c => dget "code" t = Some (VStr c)) (sell_trades state') codes
    /\ NoDup codes
    /\ (forall c, c ∈ codes -> is_Some (holdings state !! c))
    /\ forall c, holdings state' !! c
                 = if decide (c ∈ codes) then None else holdings state !! c.
Proof.
  unfold _execute_sells, bind. intros Hrun.
  case_match. case_match; [|done]. unfold ret in Hrun. simplify_eq. simpl.
  match goal with H : for_each _ _ _ _ = _ |- _ => rename H into Hloop end.
  eapply (for_each_inv (sell_decision env)
            (fun acc _ => exists codes,
               Forall2 (fun t c => dget "code" t = Some (VStr c)) (sl_trades acc) codes
               /\ NoDup codes
               /\ (forall c, c ∈ codes -> c ∈ sl_processed acc)
               /\ (forall c, c ∈ codes -> is_Some (holdings state !! c))
               /\ forall c, holdings (sl_state acc) !! c
                            = if decide (c ∈ codes) then None else holdings state !! c))
    in Hloop.
  - destruct Hloop as (codes & H1 & H2 & _ & H3 & H4). exists codes. done.
  - clear Hloop. intros x s0 h0 s1 h1 (codes & Hf & Hnd & Hproc & Hheld & Hmap) Hstep.
    apply sell_decision_round in Hstep.
    destruct Hstep as [Hsub [[Hs Ht] | (c & t & Ht & Hh & Hcode & Hsome & Hnew & Hin)]].
    + exists codes. rewrite Hs, Ht. repeat split; try done.
      intros c Hc. apply Hsub. by apply Hproc.
    + assert (Hc : c ∉ codes) by (intros Hc; apply Hnew; by apply Hproc).
      exists (codes ++ [c]). rewrite Ht, Hh. repeat split.
      * apply Forall2_app; [done|]. by constructor.
      * apply NoDup_app. repeat split; [done| |apply NoDup_singleton].
        intros y Hy Hy'. apply list_elem_of_singleton in Hy'. by subst.
      * intros y Hy. apply elem_of_app in Hy. destruct Hy as [Hy|Hy].
        -- apply Hsub. by apply Hproc.
        -- apply list_elem_of_singleton in Hy. by subst.
      * intros y Hy. apply elem_of_app in Hy. destruct Hy as [Hy|Hy]; [by apply Hheld|].
        apply list_elem_of_singleton in Hy. subst y.
        rewrite Hmap in Hsome. by destruct (decide (c ∈ codes)).
      * intros y. destruct (decide (y = c)) as [->|Hne].
        -- rewrite lookup_delete_eq. destruct (decide (c ∈ codes ++ [c])) as [|Hn]; [done|].
           exfalso. apply Hn. apply elem_of_app. right. by apply list_elem_of_singleton.
        -- rewrite lookup_delete_ne by done. rewrite Hmap.
           destruct (decide (y ∈ codes)) as [Hy|Hy];
             destruct (decide (y ∈ codes ++ [c])) as [Hy'|Hy']; try done.
           ++ exfalso. apply Hy'. apply elem_of_app. by left.
           ++ exfalso. apply elem_of_app in Hy'. destruct Hy' as [|Hy']; [done|].
              apply list_elem_of_singleton in Hy'. done.
  - simpl. exists []. split; [constructor|]. split; [constructor|].
    split; [intros c Hc; by apply elem_of_nil in Hc|].
    split; [intros c Hc; by apply elem_of_nil in Hc|]. done.
Qed.

(** A loop whose rounds leave the store alone leaves it alone, whether it
    ends or raises. *)
Lemma for_each_store {A S} (body : A -> S -> M S) (xs : list A) :
  (forall x s h, snd (body x s h) = h) ->
  forall s h, snd (for_each body xs s h) = h.
Proof.
  intros Hbody. induction xs as [|x xs IH]; intros s h; simpl; [done|].
  unfold bind. specialize (Hbody x s h).
  destruct (body x s h) as [[s'|e] h1]; simpl in Hbody; subst h1; [apply IH|done].
Qed.

Lemma sell_decision_store env decision acc h : snd (sell_decision env decision acc h) = h.
Proof.
  unfold sell_decision, sell_holding, sell_continue, getitem, as_num, deref, bind, ret, raise.
  repeat (case_match; simplify_eq; simpl; try done).
Qed.

Lemma normalize_buy_decision_store threshold d h :
  snd (normalize_buy_decision threshold d h) = h.
Proof.
  unfold normalize_buy_decision, as_num, bind, ret, raise.
  repeat (case_match; simplify_eq; simpl; try done).
Qed.

Lemma normalize_buy_decisions_store threshold decisions h :
  snd (normalize_buy_decisions threshold decisions h) = h.
Proof.
  unfold normalize_buy_decisions. apply for_each_store. intros x s h0. unfold bind.
  pose proof (normalize_buy_decision_store threshold x h0) as Hx.
  destruct (normalize_buy_decision threshold x h0) as [[r|e] h1]; simpl in Hx; by subst.
Qed.

Lemma log_buy_decisions_store decisions h :
  snd (for_each (fun dec (_ : unit) => log_buy_decision dec) decisions tt h) = h.
Proof.
  apply for_each_store. intros x s h0. unfold log_buy_decision, ret, raise.
  repeat (case_match; simpl; try done).
Qed.

Lemma analyze_retry_store env llm attempts attempt state h :
  snd (analyze_retry env llm attempt attempts state h) = h.
Proof.
  revert attempt h. induction attempts as [|attempts IH]; intros attempt h; [done|].
  assert (Hon : forall ib h0,
             snd ((if ib : bool then ret (set_buy_analysis [] state)
                   else match attempts with
                        | O => ret (set_buy_analysis [] state)
                        | _ => analyze_retry env llm (S attempt) attempts state
                        end) h0) = h0).
  { intros [] h0; [done|]. destruct attempts; [done|]. apply IH. }
  simpl. destruct (llm attempt) as [ib|[|d ds]]; [apply Hon|done|].
  unfold try_except, bind.
  pose proof (normalize_buy_decisions_store (ai_confidence_threshold env) (d :: ds) h) as Hn.
  destruct (normalize_buy_decisions _ (d :: ds) h) as [[bds|e] h1]; simpl in Hn; subst h1.
  - pose proof (log_buy_decisions_store bds h) as Hlog.
    destruct (for_each _ bds tt h) as [[[]|e] h1]; simpl in Hlog; subst h1; [done|].
    apply (Hon false).
  - apply (Hon false).
Qed.

(** X4. [_execute_sells], [_analyze_candidates] and
    [_record_daily_assets] write to no holding: whether they return or
    raise, the dicts of the holdings are as they were (a sale removes the
    key from [holdings]; the dict that was under it is not changed). *)
Theorem nodes_leave_store env llm state h :
  snd (_execute_sells env state h) = h
  /\ snd (_analyze_candidates env llm state h) = h
  /\ snd (_record_daily_assets state h) = h.
Proof.
  split; [|split].
  - unfold _execute_sells, bind.
    pose proof (for_each_store (sell_decision env) (sell_analysis state)
                  (sell_decision_store env)
                  {| sl_state := state; sl_processed := ∅; sl_trades := [] |} h) as H.
    destruct (for_each _ _ _ h) as [[r|e] h1]; simpl in H; by subst.
  - unfold _analyze_candidates.
    destruct (should_stop env); [done|].
    destruct (candidates state) as [|c cs]; [done|].
    destruct (Qeq_bool _ _); [done|].
    unfold bind.
    pose proof (for_each_store (fun s (_ : unit) => do _ <- getitem "code" s; ret tt) (c :: cs))
      as H.
    specialize (H ltac:(intros x s h0; unfold bind, getitem, ret, raise;
                        repeat (case_match; simplify_eq; simpl; try done)) tt h).
    destruct (for_each _ (c :: cs) tt h) as [[[]|e] h1]; simpl in H; subst h1; [|done].
    apply analyze_retry_store.
  - unfold _record_daily_assets, bind.
    pose proof (for_each_store (fun l acc => market_value acc l)
                  (snd <$> map_to_list (holdings state))) as H.
    specialize (H ltac:(intros x s h0; unfold market_value, bind, getitem, as_num, deref, ret, raise;
                        repeat (case_match; simplify_eq; simpl; try done)) 0%Q h).
    destruct (for_each _ _ 0%Q h) as [[v|e] h1]; simpl in H; by subst.
Qed.

Lemma buy_decision_store env decision acc h : h ⊆ snd (buy_decision env decision acc h).
Proof.
  unfold buy_decision, buy_stock, buy_continue, exit_plan_get, alloc, getitem, as_num,
    deref, bind, ret, raise.
  repeat (case_match; simplify_eq; simpl; try done).
  all: apply insert_subseteq, not_elem_of_dom, is_fresh.
Qed.

(** X5. [_execute_buys] changes no dict that exists: whether it returns
    or raises, every dict of the store is still what it was; a purchase
    makes a new dict, also for a code that is held. *)
Theorem execute_buys_keeps_store env state h : h ⊆ snd (_execute_buys env state h).
Proof.
  unfold _execute_buys.
  destruct (_ <=? _)%Z; [done|]. destruct (Qlt_bool _ _); [done|].
  unfold bind.
  assert (Hloop : forall xs acc h0, h0 ⊆ snd (for_each (buy_decision env) xs acc h0)).
  { induction xs as [|x xs IH]; intros acc h0; simpl; [done|].
    unfold bind. pose proof (buy_decision_store env x acc h0) as Hx.
    destruct (buy_decision env x acc h0) as [[acc1|e] h1]; simpl in Hx; [|done].
    etrans; [exact Hx|apply IH]. }
  specialize (Hloop (buy_analysis state)
                {| bl_state := state; bl_processed := ∅; bl_trades := [] |} h).
  destruct (for_each _ _ _ h) as [[r|e] h1]; simpl in Hloop; done.
Qed.

Lemma buy_decision_processed env decision acc h acc' h' :
  buy_decision env decision acc h = (Ok acc', h') ->
  bl_processed acc ⊆ bl_processed acc'.
Proof.
  unfold buy_decision, buy_stock, buy_continue, exit_plan_get, alloc, getitem, as_num,
    deref, bind, ret, raise.
  intros H.
  repeat head_match H; try discriminate; injection H as <- _;
    try reflexivity; apply union_subseteq_r.
Qed.

(** X6. [_execute_buys] buys a stock at most once in a call, however
    often the decisions name it: the codes of the buy trades are pairwise
    different; on return each of them is held under a dict made by the
    call, whose [amount] and [cost] are the amount and the price of the
    trade of that code; every other code is held as on entry, or not held
    as on entry. *)
Theorem execute_buys_once_per_code env state h state' h' :
  _execute_buys env state h = (Ok state', h') ->
  exists codes,
    Forall2 (fun t c => dget "code" t = Some (VStr c)) (buy_trades state') codes
    /\ NoDup codes
    /\ forall c,
         if decide (c ∈ codes)
         then exists l t, holdings state' !! c = Some l /\ (l ∉ dom h) /\ (l ∈ dom h')
                /\ t ∈ buy_trades state' /\ dget "code" t = Some (VStr c)
                /\ dget "amount" (h' !!! l) = dget "amount" t
                /\ dget "cost" (h' !!! l) = dget "price" t
         else holdings state' !! c = holdings state !! c.
Proof.
  unfold _execute_buys. intros Hrun.
  assert (Hnone : forall s, s = set_buy_trades [] state ->
            exists codes : list string,
              Forall2 (fun t c => dget "code" t = Some (VStr c)) (buy_trades s) codes
              /\ NoDup codes
              /\ forall c,
                   if decide (c ∈ codes)
                   then exists l t, holdings s !! c = Some l /\ (l ∉ dom h) /\ (l ∈ dom h')
                          /\ t ∈ buy_trades s /\ dget "code" t = Some (VStr c)
                          /\ dget "amount" (h' !!! l) = dget "amount" t
                          /\ dget "cost" (h' !!! l) = dget "price" t
                   else holdings s !! c = holdings state !! c).
  { intros s ->. exists []. split; [constructor|]. split; [constructor|].
    intros c. destruct (decide (c ∈ [])) as [Hc|_]; [by apply elem_of_nil in Hc|done]. }
  repeat (case_match; [unfold ret in Hrun; simplify_eq; by apply Hnone|]).
  clear Hnone. unfold bind in Hrun. case_match. case_match; [|done].
  unfold ret in Hrun. simplify_eq. simpl.
  match goal with H : for_each _ _ _ _ = _ |- _ => rename H into Hloop end.
  eapply (for_each_inv (buy_decision env)
            (fun acc hh => exists codes,
               Forall2 (fun t c => dget "code" t = Some (VStr c)) (bl_trades acc) codes
               /\ NoDup codes
               /\ (forall c, c ∈ codes -> c ∈ bl_processed acc)
               /\ dom h ⊆ dom hh
               /\ forall c,
                    if decide (c ∈ codes)
                    then exists l t, holdings (bl_state acc) !! c = Some l
                           /\ (l ∉ dom h) /\ (l ∈ dom hh)
                           /\ t ∈ bl_trades acc /\ dget "code" t = Some (VStr c)
                           /\ dget "amount" (hh !!! l) = dget "amount" t
                           /\ dget "cost" (hh !!! l) = dget "price" t
                    else holdings (bl_state acc) !! c = holdings state !! c))
    in Hloop.
  - destruct Hloop as (codes & H1 & H2 & _ & _ & H3). exists codes. done.
  - clear Hloop. intros x s0 h0 s1 h1 (codes & Hf & Hnd & Hproc & Hsub & Hmap) Hstep.
    pose proof (buy_decision_processed _ _ _ _ _ _ Hstep) as Hp.
    apply buy_decision_inv in Hstep. destruct Hstep as [acc' Hs Ht | ].
    + exists codes. rewrite Hs, Ht. repeat split; try done.
      intros c Hc. apply Hp. by apply Hproc.
    + assert (Hc : c ∉ codes) by (intros Hc; eauto).
      assert (Hl : l ∉ dom h0) by apply is_fresh.
      assert (Hl0 : l ∉ dom h) by (intros Hl0; apply Hl; by apply Hsub).
      exists (codes ++ [c]). simpl. split; [|split; [|split; [|split]]].
      * apply Forall2_app; [done|]. by constructor.
      * apply NoDup_app. repeat split; [done| |apply NoDup_singleton].
        intros y Hy Hy'. apply list_elem_of_singleton in Hy'. by subst.
      * intros y Hy. apply elem_of_app in Hy. destruct Hy as [Hy|Hy].
        -- apply elem_of_union_r. by apply Hproc.
        -- apply list_elem_of_singleton in Hy. subst. apply elem_of_union_l.
           by apply elem_of_singleton.
      * rewrite dom_insert_L. by apply union_subseteq_r'.
      * intros y. destruct (decide (y = c)) as [->|Hne].
        -- destruct (decide (c ∈ codes ++ [c])) as [_|Hn].
           2:{ exfalso. apply Hn. apply elem_of_app. right. by apply list_elem_of_singleton. }
           exists l, t. rewrite lookup_insert_eq, lookup_total_insert_eq, dom_insert_L.
           split; [done|]. split; [done|]. split; [by apply elem_of_union_l, elem_of_singleton|].
           split; [apply elem_of_app; right; by apply list_elem_of_singleton|].
           subst t. done.
        -- specialize (Hmap y). rewrite lookup_insert_ne by done.
           destruct (decide (y ∈ codes)) as [Hy|Hy];
             destruct (decide (y ∈ codes ++ [c])) as [Hy'|Hy']; try done.
           ++ destruct Hmap as (l' & t' & G1 & G2 & G3 & G4 & G5 & G6 & G7).
              assert (l' <> l) by (intros ->; done).
              exists l', t'. rewrite lookup_total_insert_ne, dom_insert_L by done.
              split; [done|]. split; [done|]. split; [by apply elem_of_union_r|].
              split; [apply elem_of_app; by left|]. done.
           ++ exfalso. apply Hy'. apply elem_of_app. by left.
           ++ exfalso. apply elem_of_app in Hy'. destruct Hy' as [|Hy']; [done|].
              apply list_elem_of_singleton in Hy'. done.
  - simpl. exists []. split; [constructor|]. split; [constructor|].
    split; [intros c Hc; by apply elem_of_nil in Hc|]. split; [done|].
    intros c. destruct (decide (c ∈ [])) as [Hc|_]; [by apply elem_of_nil in Hc|done].
Qed.

(** ** [_analyze_candidates]: what it hands on, and how its retry loop ends *)

Lemma normalize_buy_decision_confident threshold d h n h' :
  normalize_buy_decision threshold d h = (Ok (Some n), h') ->
  confident_buy threshold n.
Proof.
  unfold normalize_buy_decision, as_num, bind, ret, raise. intros H.
  repeat head_match H; try discriminate. injection H as <- _.
  eexists _, _, _. split; [reflexivity|]. split; [reflexivity|].
  split; [reflexivity|].
  split; [match goal with E : negb _ = false |- _ => apply negb_false_iff in E; exact E end|].
  split; [simpl; f_equal; eassumption|]. by apply Qlt_bool_false.
Qed.

Lemma normalize_buy_decisions_confident threshold decisions h buy_decisions h' :
  normalize_buy_decisions threshold decisions h = (Ok buy_decisions, h') ->
  Forall (confident_buy threshold) buy_decisions.
Proof.
  unfold normalize_buy_decisions. intros H.
  eapply (for_each_inv _ (fun acc _ => Forall (confident_buy threshold) acc));
    [|constructor|exact H].
  intros x s h0 s' h1 HP Hx. unfold bind in Hx.
  destruct (normalize_buy_decision threshold x h0) as [[[n|]|e] h2] eqn:E;
    unfold ret in Hx; simplify_eq; [|done].
  apply Forall_app. split; [done|]. apply Forall_singleton.
  eapply normalize_buy_decision_confident; eauto.
Qed.

(** Every way out of the retry loop sets [state['buy_analysis']], to the
    decisions of a reply that was normalised without an exception or to
    the empty list, and leaves the rest of the state and the store. *)
Lemma analyze_retry_result env llm attempts attempt state h :
  exists decisions,
    analyze_retry env llm attempt (S attempts) state h
      = (Ok (set_buy_analysis decisions state), h)
    /\ Forall (confident_buy (ai_confidence_threshold env)) decisions.
Proof.
  revert attempt. induction attempts as [|attempts IH]; intros attempt.
  - assert (Hon : forall ib : bool,
               exists decisions,
                 (if ib then ret (set_buy_analysis [] state)
                  else ret (set_buy_analysis [] state)) h
                 = (Ok (set_buy_analysis decisions state), h)
                 /\ Forall (confident_buy (ai_confidence_threshold env)) decisions).
    { intros ib. exists []. split; [by destruct ib|constructor]. }
    simpl. destruct (llm attempt) as [ib|[|d ds]]; [apply Hon| |].
    + exists []. split; [done|constructor].
    + unfold try_except, bind.
      pose proof (normalize_buy_decisions_store (ai_confidence_threshold env) (d :: ds) h) as Hn.
      destruct (normalize_buy_decisions _ (d :: ds) h) as [[bds|e] h1] eqn:E;
        simpl in Hn; subst h1; [|apply (Hon false)].
      pose proof (log_buy_decisions_store bds h) as Hlog.
      destruct (for_each _ bds tt h) as [[[]|e] h1]; simpl in Hlog; subst h1;
        [|apply (Hon false)].
      exists bds. split; [done|]. eapply normalize_buy_decisions_confident; eauto.
  - assert (Hon : forall ib : bool,
               exists decisions,
                 (if ib then ret (set_buy_analysis [] state)
                  else analyze_retry env llm (S attempt) (S attempts) state) h
                 = (Ok (set_buy_analysis decisions state), h)
                 /\ Forall (confident_buy (ai_confidence_threshold env)) decisions).
    { intros [|]; [|apply IH]. exists []. split; [done|constructor]. }
    remember (S attempts) as n eqn:Hn. simpl. subst n. cbv iota beta.
    destruct (llm attempt) as [ib|[|d ds]]; [apply Hon| |].
    + exists []. split; [done|constructor].
    + unfold try_except, bind.
      pose proof (normalize_buy_decisions_store (ai_confidence_threshold env) (d :: ds) h) as Hn.
      destruct (normalize_buy_decisions _ (d :: ds) h) as [[bds|e] h1] eqn:E;
        simpl in Hn; subst h1; [|apply (Hon false)].
      pose proof (log_buy_decisions_store bds h) as Hlog.
      destruct (for_each _ bds tt h) as [[[]|e] h1]; simpl in Hlog; subst h1;
        [|apply (Hon false)].
      exists bds. split; [done|]. eapply normalize_buy_decisions_confident; eauto.
Qed.

(** X7. The retry loop of [_analyze_candidates] does not raise:
    whatever the LLM client returns or raises in each of its three
    attempts, and whatever the reading of a reply raises, the loop ends
    with [buy_analysis] set to a list of decisions, the other fields of
    the state and the store as they were. If every attempt raises, the
    list is empty. *)
Theorem analyze_retry_returns env llm state h :
  (exists decisions,
     analyze_retry env llm 0 3 state h = (Ok (set_buy_analysis decisions state), h))
  /\ ((forall attempt, exists insufficient_balance,
         llm attempt = LlmRaises insufficient_balance) ->
      analyze_retry env llm 0 3 state h = (Ok (set_buy_analysis [] state), h)).
Proof.
  split.
  - destruct (analyze_retry_result env llm 2 0 state h) as (ds & Hr & _). by exists ds.
  - intros Hall. simpl.
    destruct (Hall 0%nat) as [[|] ->]; [done|].
    destruct (Hall 1%nat) as [[|] ->]; [done|].
    by destruct (Hall 2%nat) as [[|] ->].
Qed.

(** X8. Whatever the LLM answers, every decision that
    [_analyze_candidates] leaves in [buy_analysis] is a dict with the
    action ["buy"], a truthy [code] and a numeric [confidence] that is not
    below [ai_confidence_threshold]. *)
Theorem analyze_candidates_confident env llm state h s1 h1 :
  _analyze_candidates env llm state h = (Ok s1, h1) ->
  Forall (confident_buy (ai_confidence_threshold env)) (buy_analysis s1).
Proof.
  unfold _analyze_candidates. intros H.
  destruct (should_stop env); [unfold ret in H; simplify_eq; simpl; constructor|].
  destruct (candidates state) as [|c cs]; [unfold ret in H; simplify_eq; simpl; constructor|].
  destruct (Qeq_bool _ _); [done|].
  unfold bind in H. destruct (for_each _ _ tt h) as [[[]|e] h2]; [|done].
  destruct (analyze_retry_result env llm 2 0 state h2) as (ds & Hr & Hall).
  rewrite Hr in H. simplify_eq. done.
Qed.

(** ** [_update_holdings_prices] *)

Lemma lookup_total_eq (h h' : heap) (l : loc) : h' !! l = h !! l -> h' !!! l = h !!! l.
Proof. intros H. by rewrite !lookup_total_alt, H. Qed.

(** What the loop body does to the holding it is given, and to no other. *)
Lemma update_price_inv env date code l h h' :
  update_price env date code l h = (Ok tt, h') ->
  (forall l', l' <> l -> h' !! l' = h !! l')
  /\ aged_one_day (h !!! l) (h' !!! l)
  /\ (no_valid_price env code date -> price_kept (h !!! l) (h' !!! l)).
Proof.
  unfold update_price, bump_hold_days, obj_set, getitem, as_num, deref, bind, ret, raise.
  intros H.
  repeat first
    [ progress (rewrite ?lookup_total_insert_eq in H; unfold dget_or in H;
                rewrite ?dget_dset_ne in H by discriminate)
    | head_match H ]; try discriminate.
  all: injection H as <-.
  all: split; [intros l' Hl'; by rewrite ?lookup_insert_ne by done|].
  all: rewrite ?lookup_total_insert_eq.
  all: unfold aged_one_day, no_valid_price, price_kept, dget_or.
  all: split.
  all: try (eexists; split;
            [ match goal with E : dget "hold_days" _ = _ |- _ => rewrite E end; reflexivity
            | rewrite ?dget_dset_ne by discriminate; rewrite dget_dset_eq; reflexivity ]).
  all: intros Hnv.
  all: try (repeat split; rewrite ?dget_dset_ne by discriminate; reflexivity).
  all: exfalso.
  all: match goal with E : get_daily_price _ _ _ = _ |- _ => rewrite E in Hnv end.
  all: destruct Hnv as [Hnv | (close & Hc & Hle)]; [discriminate|].
  all: match goal with E : dget "close" _ = _ |- _ => rewrite E in Hc end.
  all: injection Hc as <-.
  all: repeat match goal with E : Qlt_bool _ _ = true |- _ => apply Qlt_bool_true in E end.
  all: lra.
Qed.

Lemma NoDup_snd_of_fst {K V} (xs : list (K * V)) :
  NoDup xs.*1 ->
  (forall k1 k2 v, (k1, v) ∈ xs -> (k2, v) ∈ xs -> k1 = k2) ->
  NoDup xs.*2.
Proof.
  induction xs as [|[k v] xs IH]; intros Hnd Hinj; [constructor|].
  simpl in *. apply NoDup_cons in Hnd. destruct Hnd as [Hk Hnd].
  apply NoDup_cons. split.
  - intros Hv. apply list_elem_of_fmap in Hv. destruct Hv as ([k' v'] & Hv & Hin).
    simpl in Hv. subst v'. apply Hk.
    assert (k = k') as ->.
    { apply (Hinj k k' v); [left|by right]. }
    apply list_elem_of_fmap. by exists (k', v).
  - apply IH; [done|]. intros k1 k2 v0 H1 H2. apply (Hinj k1 k2 v0); by right.
Qed.

(** The loop over the holdings, on holdings that are different objects. *)
Lemma update_prices_loop env date (xs : list (string * loc)) h h' :
  NoDup xs.*2 ->
  for_each (fun '(code, l) (_ : unit) => update_price env date code l) xs tt h = (Ok tt, h') ->
  (forall l', l' ∉ xs.*2 -> h' !! l' = h !! l')
  /\ forall code l, (code, l) ∈ xs ->
       aged_one_day (h !!! l) (h' !!! l)
       /\ (no_valid_price env code date -> price_kept (h !!! l) (h' !!! l)).
Proof.
  revert h. induction xs as [|[code l] xs IH]; intros h Hnd Hrun.
  - unfold for_each, ret in Hrun. simplify_eq. split; [done|].
    intros code l Hin. by apply elem_of_nil in Hin.
  - simpl in Hnd. apply NoDup_cons in Hnd. destruct Hnd as [Hl Hnd].
    simpl in Hrun. unfold bind in Hrun.
    destruct (update_price env date code l h) as [[[]|e] h1] eqn:E; [|done].
    apply update_price_inv in E. destruct E as (Hframe & Haged & Hkept).
    destruct (IH h1 Hnd Hrun) as [Hframe' Hrest]. split.
    + intros l' Hl'. simpl in Hl'. apply not_elem_of_cons in Hl'. destruct Hl' as [Hne Hl'].
      rewrite Hframe' by done. by apply Hframe.
    + intros code' l' Hin. apply elem_of_cons in Hin. destruct Hin as [Heq|Hin].
      * injection Heq as -> ->.
        rewrite (lookup_total_eq h1 h' l) by (by apply Hframe').
        done.
      * assert (Hne : l' <> l).
        { intros ->. apply Hl. apply list_elem_of_fmap. by exists (code', l). }
        rewrite <- (lookup_total_eq h h1 l') by (by apply Hframe).
        by apply Hrest.
Qed.

(** The sum of the second loop reads the store and leaves it. *)
Lemma holding_value_store acc l h : snd (holding_value acc l h) = h.
Proof.
  unfold holding_value, bind, getitem, as_num, deref, ret, raise.
  repeat (case_match; simplify_eq; simpl; try done).
Qed.

(** X9. When [_update_holdings_prices] returns (no two codes being
    held under one dict), [holdings] and [cash] are as before and a dict
    that is no holding is untouched; every holding is a day older,
    [hold_days] having grown by one (from 0 if the key was missing),
    whether a price came or not; and a holding for which the provider has
    no bar, an empty one or a close that is not positive keeps its
    [current_price], [cost], [profit_pct] and [amount]. *)
Theorem update_holdings_prices_ages env state h state' h' :
  _update_holdings_prices env state h = (Ok state', h') ->
  (forall c1 c2 l, holdings state !! c1 = Some l -> holdings state !! c2 = Some l -> c1 = c2) ->
  holdings state' = holdings state
  /\ cash state' = cash state
  /\ (forall l, (forall c, holdings state !! c <> Some l) -> h' !! l = h !! l)
  /\ forall c l, holdings state !! c = Some l ->
       aged_one_day (h !!! l) (h' !!! l)
       /\ (no_valid_price env c (trade_date state) -> price_kept (h !!! l) (h' !!! l)).
Proof.
  unfold _update_holdings_prices. intros Hrun Hinj.
  unfold bind in Hrun.
  destruct (for_each _ (map_to_list (holdings state)) tt h) as [[[]|e] h1] eqn:Eloop; [|done].
  pose proof (for_each_store (fun l acc => holding_value acc l)
                (snd <$> map_to_list (holdings state))
                (fun x s h0 => holding_value_store s x h0) 0%Q h1) as Hsum.
  destruct (for_each _ (snd <$> map_to_list (holdings state)) 0%Q h1) as [[v|e] h2];
    [|done].
  simpl in Hsum. subst h2. unfold ret in Hrun. simplify_eq. simpl.
  split; [done|]. split; [done|].
  apply update_prices_loop in Eloop.
  - destruct Eloop as [Hframe Hall]. split.
    + intros l Hl. apply Hframe. intros Hin. apply list_elem_of_fmap in Hin.
      destruct Hin as ([c l'] & -> & Hin). apply elem_of_map_to_list in Hin.
      by apply (Hl c).
    + intros c l Hl. apply Hall. by apply elem_of_map_to_list.
  - apply NoDup_snd_of_fst; [apply NoDup_fst_map_to_list|].
    intros k1 k2 l0 H1 H2. apply elem_of_map_to_list in H1, H2. eauto.
Qed.

(** ** What [detect_data_corruption] accepts *)

(** Boolean tests of the context as propositions. *)
Ltac reflect_tests :=
  repeat match goal with
         | E : (_ <? _)%Z = false |- _ => apply Z.ltb_ge in E
         | E : (_ <? _)%Z = true |- _ => apply Z.ltb_lt in E
         | E : (_ =? _)%Z = true |- _ => apply Z.eqb_eq in E
         | E : (_ =? _)%Z = false |- _ => apply Z.eqb_neq in E
         | E : _ || _ = false |- _ => apply orb_false_iff in E; destruct E
         | E : Qlt_bool _ _ = false |- _ => apply Qlt_bool_false in E
         | E : Qlt_bool _ _ = true |- _ => apply Qlt_bool_true in E
         end.

Lemma num_ok (v : pyval) (q : Q) : num v = Ok q -> v = VNum q.
Proof. destruct v; simpl; intros; by simplify_eq. Qed.

Section DetectClean.

Variable strptime : string -> option Z.

Lemma check_entry_continue all s entry s' :
  check_entry strptime all s entry = Continue s' ->
  exists d t c,
    entry_day strptime entry = Some d
    /\ entry_total entry = Some t /\ (0 <= t)%Q
    /\ dget_or "cash" (VNum 0) entry = VNum c /\ (0 <= c)%Q
    /\ s' = {| prev_date := Some d; _prev_assets := Some t |}
    /\ (forall p, prev_date s = Some p -> (p <= d)%Z)
    /\ (forall p prev, prev_date s = Some p -> _prev_assets s = Some prev -> (0 < prev)%Q ->
          within_band (d - p) ((t - prev) / prev * 100)).
Proof.
  unfold check_entry, first_or_prev, flag, entry_day, entry_total. intros H.
  repeat head_match H; try discriminate.
  all: injection H as <-.
  all: eexists _, _, _.
  all: repeat match goal with E : _ = _ |- _ => rewrite E end.
  all: reflect_tests.
  all: split; [reflexivity|]; split; [reflexivity|]; split; [assumption|].
  all: split; [reflexivity|]; split; [assumption|]; split; [reflexivity|].
  all: split; [intros p Hp; simplify_eq; lia|].
  all: intros p prev Hp Hprev Hpos; simplify_eq; unfold within_band.
  all: repeat split; intros; try lia; try lra; try assumption.
Qed.

(** A stop of the loop is never a clean report. *)
Lemma check_entry_stop all s entry r x :
  check_entry strptime all s entry = Stop r -> r <> Ok (false, x).
Proof.
  unfold check_entry, first_or_prev, flag. intros H.
  repeat head_match H; try discriminate.
  all: injection H as <-; try discriminate.
  all: destruct (_get_first_date all); discriminate.
Qed.

Lemma scan_entries_continue all entries s s' e0 :
  scan_entries strptime all s entries = Continue s' ->
  prev_date s = entry_day strptime e0 ->
  _prev_assets s = entry_total e0 ->
  Forall (plausible_entry strptime) entries
  /\ Sorted (plausible_step strptime) (e0 :: entries).
Proof.
  revert s e0. induction entries as [|e entries IH]; intros s e0 H Hd Ht.
  - split; [constructor|]. repeat constructor.
  - simpl in H. destruct (check_entry strptime all s e) as [r|s1] eqn:E; [done|].
    apply check_entry_continue in E.
    destruct E as (d & t & c & Hday & Htot & Ht0 & Hcash & Hc0 & -> & Hord & Hband).
    destruct (IH _ e H) as [Hall Hsorted]; [by rewrite Hday|by rewrite Htot|].
    split.
    + constructor; [|done]. exists d, t, c. done.
    + constructor; [done|]. constructor.
      intros d1 t1 d2 t2 Hd1 Ht1 Hd2 Ht2. simplify_eq.
      rewrite Hd1 in Hd. rewrite Ht1 in Ht. split; [by apply Hord|].
      intros Hpos. by apply Hband.
Qed.

Lemma scan_entries_stop all entries s r x :
  scan_entries strptime all s entries = Stop r -> r <> Ok (false, x).
Proof.
  revert s. induction entries as [|e entries IH]; intros s H; [done|].
  simpl in H. destruct (check_entry strptime all s e) as [r'|s1] eqn:E.
  - simplify_eq. eapply check_entry_stop; eauto.
  - eapply IH; eauto.
Qed.

Lemma check_trades_clean dates trades r :
  check_trades dates trades = Ok (false, r) ->
  r = RVal VNone /\ Forall (trade_on_record dates) trades.
Proof.
  induction trades as [|trade trades IH]; intros H; simpl in H.
  - simplify_eq. split; [done|constructor].
  - destruct (check_trade dates trade) as [res|] eqn:E.
    + exfalso. subst res. unfold check_trade in E.
      repeat head_match E; try discriminate.
    + destruct (IH H) as [-> Hall]. split; [done|]. constructor; [|done].
      unfold check_trade in E. unfold trade_on_record.
      repeat head_match E; try discriminate; try done.
      * apply negb_true_iff in Heqb.
        destruct (py_or _ _) as [|s0| |]; try done.
        left. simpl in Heqb. apply negb_false_iff in Heqb. by apply String.eqb_eq.
      * right.
        match goal with E : existsb _ _ = true |- _ =>
          apply existsb_exists in E; destruct E as (x & Hin & Hx) end.
        apply String.eqb_eq in Hx. subst x. by apply list_elem_of_In.
Qed.

(** X10. What a clean report stands for. When [detect_data_corruption]
    returns [(False, x)], [x] is [None] and: every daily-asset point has a
    date the loop reads, and total assets and cash that are numbers and
    not negative; from a point to the next the date does not go back and,
    the earlier total being positive, the days are at most three apart
    and the change of the total is within the band (-12% to +30% over one
    day, 10% per day over more); the total of the last point agrees with
    cash plus the value of the holdings within 5% (or that sum is at most
    100); and every dated trade is dated on a day that has a point. *)
Theorem detect_clean_guarantees (self : Agent pydict) (r : report) :
  detect_data_corruption strptime self = Ok (false, r) ->
  r = RVal VNone
  /\ Forall (plausible_entry strptime) (self_daily_assets self)
  /\ Sorted (plausible_step strptime) (self_daily_assets self)
  /\ (forall last_entry, last (self_daily_assets self) = Some last_entry ->
        consistent_with self last_entry
        /\ Forall (trade_on_record (daily_dates (self_daily_assets self)))
                  (self_trade_history self)).
Proof.
  unfold detect_data_corruption. intros H.
  destruct (self_daily_assets self) as [|e0 rest] eqn:Eall.
  { simplify_eq. split; [done|]. split; [constructor|]. split; [constructor|]. done. }
  rewrite <- Eall.
  rewrite <- Eall in H.
  destruct (scan_entries _ _ _ (self_daily_assets self)) as [res|s'] eqn:Escan.
  { subst res. exfalso. eapply scan_entries_stop; eauto. }
  assert (Hclean : check_state self = Ok (false, r)).
  { destruct (check_state self) as [res|e]; [by simplify_eq|].
    destruct (_get_first_date _); simpl in H; by simplify_eq. }
  clear H. rewrite Eall in Escan at 2. simpl in Escan.
  destruct (check_entry strptime (self_daily_assets self) _ e0) as [res|s1] eqn:E0; [done|].
  apply check_entry_continue in E0.
  destruct E0 as (d & t & c & Hday & Htot & Ht0 & Hcash & Hc0 & -> & _ & _).
  destruct (scan_entries_continue _ _ _ _ e0 Escan) as [Hall Hsorted];
    [by rewrite Hday|by rewrite Htot|].
  assert (Hentries : Forall (plausible_entry strptime) (self_daily_assets self)
                     /\ Sorted (plausible_step strptime) (self_daily_assets self)).
  { rewrite Eall. split; [constructor; [by exists d, t, c|done]|done]. }
  clear Hall Hsorted Escan. unfold check_state in Hclean.
  destruct (last (self_daily_assets self)) as [last_entry|] eqn:Elast.
  2:{ apply last_None in Elast. congruence. }
  destruct (num _) as [last_total|] eqn:Etot; simpl in Hclean; [|done].
  destruct (recovery_holdings_value _) as [value|] eqn:Eval; simpl in Hclean; [|done].
  destruct (_ && _) eqn:Etest; [done|].
  apply check_trades_clean in Hclean. destruct Hclean as [-> Htrades].
  split; [done|]. split; [apply Hentries|]. split; [apply Hentries|].
  intros ? [= <-]. split; [|done].
  exists last_total, value. split; [by apply num_ok in Etot|]. split; [done|].
  apply andb_false_iff in Etest. destruct Etest as [Et|Et]; apply Qlt_bool_false in Et;
    [by left|by right].
Qed.

(** *** What is reported for an entry the loop stops at *)

(** The loop having accepted the entries before, the entry it stops at
    decides the result. *)
Lemma detect_stopped_entry (self : Agent pydict) (pre post : list pydict) (entry : pydict)
    (s : scan) (r : outcome (bool * report)) :
  self_daily_assets self = pre ++ entry :: post ->
  scan_entries strptime (self_daily_assets self)
    {| prev_date := None; _prev_assets := None |} pre = Continue s ->
  check_entry strptime (self_daily_assets self) s entry = Stop r ->
  detect_data_corruption strptime self = r.
Proof.
  intros Hall Hpre Hentry. unfold detect_data_corruption.
  destruct (self_daily_assets self) as [|e0 rest] eqn:E.
  - by destruct pre.
  - rewrite <- E in *. rewrite Hall at 2. rewrite scan_entries_app, Hpre. simpl.
    by rewrite Hentry.
Qed.

(** X11. The loop having accepted the points before it, a point whose
    date reads but lies before the date of the point before, or whose
    total assets are missing, not a number or negative, makes
    [detect_data_corruption] return [True] with the date of that point, in
    the form with dashes. *)
Theorem detect_flags_bad_values (self : Agent pydict) (pre post : list pydict)
    (entry : pydict) (s : scan) (original : string) (date_obj : Z) :
  self_daily_assets self = pre ++ entry :: post ->
  scan_entries strptime (self_daily_assets self)
    {| prev_date := None; _prev_assets := None |} pre = Continue s ->
  dget_or "date" VNone entry = VStr original -> original <> "" ->
  has_dash original = true \/ String.length original = 8%nat ->
  strptime (entry_date_str original) = Some date_obj ->
  (exists p, prev_date s = Some p /\ (date_obj < p)%Z)
  \/ entry_total entry = None
  \/ (exists t, entry_total entry = Some t /\ (t < 0)%Q) ->
  detect_data_corruption strptime self = Ok (true, RVal (VStr (entry_date_str original))).
Proof.
  intros Hall Hpre Hdate Hne Hfmt Hparse Hbad.
  eapply detect_stopped_entry; eauto.
  unfold check_entry. rewrite Hdate.
  destruct (String.eqb original "") eqn:E; [apply String.eqb_eq in E; done|].
  assert (negb (has_dash original) && negb (Nat.eqb (String.length original) 8) = false)
    as ->.
  { destruct Hfmt as [-> | ->]; [done|]. by rewrite andb_false_r. }
  rewrite Hparse.
  destruct (match prev_date s with Some p => (date_obj <? p)%Z | None => false end) eqn:Eord;
    [done|].
  unfold entry_total in Hbad.
  destruct Hbad as [(p & Hp & Hlt) | [Hbad | (t & Hbad & Hlt)]].
  - rewrite Hp in Eord. apply Z.ltb_ge in Eord. lia.
  - destruct (py_or _ _); try done.
  - destruct (py_or _ _); try done. simplify_eq.
    apply Qlt_bool_true in Hlt. by rewrite Hlt.
Qed.

(** X12. The loop having accepted the points up to [previous], a next
    point whose date cannot be read (missing, not a string, of a wrong
    length, or no date of the calendar) makes [detect_data_corruption]
    return [True] with [prev_date], the [datetime] object of [previous]:
    the second component is then not a date string. *)
Theorem detect_unreadable_date (self : Agent pydict) (pre post : list pydict)
    (previous entry : pydict) :
  self_daily_assets self = (pre ++ [previous]) ++ entry :: post ->
  (exists s, scan_entries strptime (self_daily_assets self)
               {| prev_date := None; _prev_assets := None |} (pre ++ [previous])
             = Continue s) ->
  entry_day strptime entry = None ->
  exists p, entry_day strptime previous = Some p
            /\ detect_data_corruption strptime self = Ok (true, RDatetime p).
Proof.
  intros Hall [s Hpre] Hday.
  pose proof Hpre as Hs. rewrite scan_entries_app in Hs.
  destruct (scan_entries _ _ _ pre) as [r|s0]; [done|].
  simpl in Hs.
  destruct (check_entry strptime _ s0 previous) as [r|s1] eqn:Eprev; [done|].
  simplify_eq. apply check_entry_continue in Eprev.
  destruct Eprev as (p & t & c & Hp & _ & _ & _ & _ & -> & _).
  exists p. split; [done|].
  eapply detect_stopped_entry; eauto.
  unfold entry_day in Hday. unfold check_entry, first_or_prev. simpl.
  destruct (dget_or "date" VNone entry) as [|original| |]; try done.
  destruct (String.eqb original ""); [done|].
  destruct (negb (has_dash original) && _); [done|].
  by rewrite Hday.
Qed.

(** X13. [detect_data_corruption] does not raise when the date of the
    first daily-asset point is missing, [None] or a string: whatever else
    the log holds, an exception inside is caught and reported as
    corruption. *)
Theorem detect_returns (self : Agent pydict) :
  (forall first_entry, head (self_daily_assets self) = Some first_entry ->
     dget_or "date" VNone first_entry = VNone
     \/ exists s, dget_or "date" VNone first_entry = VStr s) ->
  exists r, detect_data_corruption strptime self = Ok r.
Proof.
  intros Hfirst.
  assert (Hget : exists v, _get_first_date (self_daily_assets self) = Ok v).
  { unfold _get_first_date. destruct (self_daily_assets self) as [|e0 rest]; [by eexists|].
    destruct (Hfirst e0 eq_refl) as [-> | [s0 ->]]; by eexists. }
  destruct Hget as [v Hget].
  assert (Hstop : forall entries s r,
            scan_entries strptime (self_daily_assets self) s entries = Stop r ->
            exists x, r = Ok x).
  { induction entries as [|e entries IH]; intros s r H; [done|].
    simpl in H. destruct (check_entry strptime _ s e) as [r'|s1] eqn:E; [|by eapply IH].
    simplify_eq. unfold check_entry, first_or_prev, flag in E. rewrite Hget in E.
    repeat head_match E; try discriminate; injection E as <-; by eexists. }
  unfold detect_data_corruption.
  destruct (self_daily_assets self) as [|e0 rest] eqn:Eall; [by eexists|].
  rewrite <- Eall in *.
  destruct (scan_entries _ _ _ (self_daily_assets self)) as [r|s'] eqn:Escan.
  - by eapply Hstop.
  - destruct (check_state self); [by eexists|]. rewrite Hget. by eexists.
Qed.

End DetectClean.

(** ** Rolling back twice *)

Lemma has_dash_app (s1 s2 : string) : has_dash (s1 ++ s2) = has_dash s1 || has_dash s2.
Proof.
  induction s1 as [|a s1 IH]; simpl; [done|]. rewrite IH. by rewrite orb_assoc.
Qed.

Lemma has_dash_to_iso (s : string) : has_dash (to_iso s) = true.
Proof.
  unfold to_iso. rewrite has_dash_app. simpl. by rewrite orb_true_r.
Qed.

(** A date in the form with dashes is left as it is. *)
Lemma normalize_date_idemp (s : string) : normalize_date (normalize_date s) = normalize_date s.
Proof.
  unfold normalize_date. destruct (negb (has_dash s) && _) eqn:E; [|by rewrite E].
  by rewrite has_dash_to_iso.
Qed.

Lemma normalize_date_settled (s : string) :
  negb (has_dash (normalize_date s)) && Nat.eqb (String.length (normalize_date s)) 8 = false.
Proof.
  unfold normalize_date. destruct (negb (has_dash s) && _) eqn:E; [|done].
  by rewrite has_dash_to_iso.
Qed.

Lemma normalize_date_nonempty (s : string) :
  String.eqb s "" = false -> String.eqb (normalize_date s) "" = false.
Proof.
  unfold normalize_date. destruct (negb (has_dash s) && _); [|done].
  intros _. unfold to_iso. destruct (substring 0 4 s); done.
Qed.

Lemma ofold_app {A S} (body : A -> S -> outcome S) (xs ys : list A) (s : S) :
  ofold body (xs ++ ys) s = let* s' := ofold body xs s in ofold body ys s'.
Proof.
  revert s. induction xs as [|x xs IH]; intros s; simpl; [done|].
  destruct (body x s); simpl; [apply IH|done].
Qed.

Section RollbackTwice.

Variable strptime : string -> option Z.
Variable _update_holdings_current_prices :
  pyval -> gmap string pydict -> option (gmap string pydict).

(** [filter_entry] appends to the list it is given. *)
Lemma filter_entry_acc (dt : Z) (entry : pydict) (acc : list pydict) :
  filter_entry strptime dt entry acc
  = let* kept := filter_entry strptime dt entry [] in Ok (acc ++ kept).
Proof.
  unfold filter_entry.
  destruct (negb (truthy _)); simpl; [by rewrite app_nil_r|].
  destruct (dget_or "date" VNone entry); try done.
  destruct (strptime _); simpl; [|by rewrite app_nil_r].
  destruct (_ <? _)%Z; simpl; [done|by rewrite app_nil_r].
Qed.

Lemma filter_entries_acc (dt : Z) (entries acc : list pydict) :
  ofold (filter_entry strptime dt) entries acc
  = let* kept := ofold (filter_entry strptime dt) entries [] in Ok (acc ++ kept).
Proof.
  revert acc. induction entries as [|e entries IH]; intros acc; simpl.
  - by rewrite app_nil_r.
  - rewrite (filter_entry_acc dt e acc).
    destruct (filter_entry strptime dt e []) as [k|] eqn:E; simpl; [|done].
    rewrite (IH (acc ++ k)), (IH k).
    destruct (ofold _ entries []); simpl; [|done]. by rewrite (assoc_L (++)).
Qed.

(** What an earlier target keeps of an entry it keeps of what a later
    target has kept. *)
Lemma filter_entry_twice (dt dt' : Z) (entry : pydict) (kept : list pydict) :
  (dt' <= dt)%Z ->
  filter_entry strptime dt entry [] = Ok kept ->
  ofold (filter_entry strptime dt') kept [] = filter_entry strptime dt' entry [].
Proof.
  intros Hle. unfold filter_entry at 1 3.
  destruct (negb (truthy _)) eqn:Etr; simpl; [by intros [= <-]|].
  destruct (dget_or "date" VNone entry) as [|s| |] eqn:Ed; try done.
  simpl in Etr. rewrite negb_involutive in Etr. apply negb_true_iff in Etr.
  apply negb_true_iff in Etr.
  destruct (strptime (normalize_date s)) as [d|] eqn:Ep; [|by intros [= <-]].
  destruct (d <? dt)%Z eqn:Elt.
  2:{ intros [= <-]. simpl. apply Z.ltb_ge in Elt.
      assert ((d <? dt')%Z = false) as -> by (apply Z.ltb_ge; lia). done. }
  intros [= <-]. simpl.
  set (entry' := if negb (has_dash s) && Nat.eqb (String.length s) 8
                 then dset "date" (VStr (normalize_date s)) entry else entry).
  assert (Hd' : dget_or "date" VNone entry' = VStr (normalize_date s)).
  { subst entry'. unfold normalize_date. destruct (negb (has_dash s) && _) eqn:E.
    - unfold dget_or. by rewrite dget_dset_eq.
    - done. }
  unfold filter_entry. rewrite Hd'. simpl.
  rewrite (normalize_date_nonempty s Etr). simpl.
  rewrite normalize_date_idemp, Ep, normalize_date_settled.
  by destruct (d <? dt')%Z.
Qed.

Lemma filter_entries_twice (dt dt' : Z) (entries kept : list pydict) :
  (dt' <= dt)%Z ->
  ofold (filter_entry strptime dt) entries [] = Ok kept ->
  ofold (filter_entry strptime dt') kept [] = ofold (filter_entry strptime dt') entries [].
Proof.
  intros Hle. revert kept. induction entries as [|e entries IH]; intros kept H; simpl in *.
  - by simplify_eq.
  - destruct (filter_entry strptime dt e []) as [k1|] eqn:E1; simpl in H; [|done].
    rewrite filter_entries_acc in H.
    destruct (ofold (filter_entry strptime dt) entries []) as [kl|] eqn:El; simpl in H; [|done].
    simplify_eq. rewrite ofold_app.
    rewrite (filter_entry_twice dt dt' e k1 Hle E1).
    destruct (filter_entry strptime dt' e []) as [k1'|]; simpl; [|done].
    rewrite (filter_entries_acc dt' kl k1'), (filter_entries_acc dt' entries k1').
    by rewrite (IH kl eq_refl).
Qed.

Lemma is_trade_before_date_mono (trade : pydict) (dt dt' : Z) :
  (dt' <= dt)%Z ->
  _is_trade_before_date strptime trade dt' = true ->
  _is_trade_before_date strptime trade dt = true.
Proof.
  intros Hle. unfold _is_trade_before_date.
  destruct (py_or _ _); try done.
  destruct (String.eqb _ _); [done|]. destruct (_ && _); [done|].
  destruct (strptime _); [|done]. rewrite !Z.ltb_lt. lia.
Qed.

Lemma filter_filter_implied {A} (f g : A -> bool) (l : list A) :
  (forall x, g x = true -> f x = true) ->
  List.filter g (List.filter f l) = List.filter g l.
Proof.
  intros Himp. induction l as [|x l IH]; simpl; [done|].
  destruct (f x) eqn:Ef; simpl.
  - by rewrite IH.
  - rewrite IH. destruct (g x) eqn:Eg; [|done]. apply Himp in Eg. congruence.
Qed.

(** The logs a rollback leaves. *)
Lemma rollback_to_date_logs (self self1 : Agent pydict) (target_date : string) (dt : Z) :
  rollback_to_date strptime _update_holdings_current_prices self target_date = Some self1 ->
  strptime (normalize_date target_date) = Some dt ->
  self_initial_capital self1 = self_initial_capital self
  /\ ofold (filter_entry strptime dt) (self_daily_assets self) [] = Ok (self_daily_assets self1)
  /\ self_trade_history self1
     = List.filter (fun trade => _is_trade_before_date strptime trade dt)
                   (self_trade_history self).
Proof.
  unfold rollback_to_date. intros H Hdt. rewrite Hdt in H.
  destruct (ofold _ _ _) as [filtered|]; [|done].
  destruct (last filtered) as [last_entry|] eqn:Elast.
  - destruct (sorted_by_date _) as [sorted|]; simpl in H; [|done].
    destruct (replay_trades sorted) as [replayed|]; simpl in H; [|done].
    destruct (recovery_holdings_value _) as [value|]; simpl in H; [|done].
    destruct (num _) as [total|]; simpl in H; [|done].
    destruct (Qle_bool 0 (total - value)); simpl in H; [by simplify_eq|].
    destruct (num (dget_or "cash" _ last_entry)) as [cash|]; simpl in H; [|done].
    by simplify_eq.
  - apply last_None in Elast. by simplify_eq.
Qed.

(** X14. Rollbacks compose. After a rollback to a date that succeeded,
    a rollback to the same or an earlier date gives what that rollback
    gives on the agent as it was before the first; a second rollback to
    the same date succeeds and changes nothing. *)
Theorem rollback_to_date_twice (self self1 : Agent pydict) (target_date target_date' : string)
    (dt dt' : Z) :
  rollback_to_date strptime _update_holdings_current_prices self target_date = Some self1 ->
  strptime (normalize_date target_date) = Some dt ->
  strptime (normalize_date target_date') = Some dt' ->
  (dt' <= dt)%Z ->
  rollback_to_date strptime _update_holdings_current_prices self1 target_date'
  = rollback_to_date strptime _update_holdings_current_prices self target_date'
  /\ rollback_to_date strptime _update_holdings_current_prices self1 target_date = Some self1.
Proof.
  intros H Hdt Hdt' Hle.
  destruct (rollback_to_date_logs _ _ _ _ H Hdt) as (Hcap & Hassets & Htrades).
  assert (Hgen : forall target dt0, strptime (normalize_date target) = Some dt0 -> (dt0 <= dt)%Z ->
            rollback_to_date strptime _update_holdings_current_prices self1 target
            = rollback_to_date strptime _update_holdings_current_prices self target).
  { intros target dt0 Hdt0 Hle0. unfold rollback_to_date. rewrite Hdt0.
    rewrite (filter_entries_twice dt dt0 _ _ Hle0 Hassets).
    rewrite Htrades, Hcap.
    rewrite (filter_filter_implied
               (fun trade => _is_trade_before_date strptime trade dt)
               (fun trade => _is_trade_before_date strptime trade dt0)).
    - done.
    - intros x. by apply is_trade_before_date_mono. }
  split; [by eapply Hgen|].
  rewrite (Hgen target_date dt Hdt); [done|lia].
Qed.

End RollbackTwice.

(** ** The holdings a replay rebuilds *)

Lemma replay_trade_cost_pool (trade : pydict) (hs hs' : gmap string pydict) :
  buys_shares trade ->
  map_Forall (fun _ holding => cost_is_pool holding) hs ->
  replay_trade trade hs = Ok hs' ->
  map_Forall (fun _ holding => cost_is_pool holding) hs'.
Proof.
  unfold replay_trade, buys_shares. intros Hbuy Hall H.
  destruct (negb (truthy _)); [by simplify_eq|].
  destruct (py_or _ _) as [|c| |]; try done.
  destruct (py_eq_str (dget_or "action" VNone trade) "buy") eqn:Eb.
  - destruct (Hbuy eq_refl) as (amount & Ha & Hpos). rewrite Ha in H. simpl in H.
    destruct (hs !! c) as [holding|] eqn:Ec.
    + destruct (Hall c holding Ec) as (a0 & c0 & p0 & Ham & Hco & Hpr & Ha0 & Hc0).
      unfold dget_or in H at 1 2. rewrite Ham, Hco in H. simpl in H.
      destruct (num (dget_or "price" (VNum 0) trade)) as [price|] eqn:Ep; simpl in H; [|done].
      simplify_eq. apply map_Forall_insert_2; [|done].
      assert (Hnew : (0 < a0 + amount)%Q) by lra.
      apply Qlt_bool_true in Hnew as Hb. rewrite Hb.
      exists (a0 + amount)%Q, (c0 + amount * price)%Q, ((c0 + amount * price) / (a0 + amount))%Q.
      rewrite dget_dset_ne by done. rewrite dget_dset_ne by done. rewrite dget_dset_eq.
      rewrite dget_dset_ne by done. rewrite dget_dset_eq. rewrite dget_dset_eq.
      repeat split; try done. field. lra.
    + destruct (num (dget_or "price" (VNum 0) trade)) as [price|] eqn:Ep; simpl in H; [|done].
      simplify_eq. apply map_Forall_insert_2; [|done].
      apply num_ok in Ep. rewrite Ep.
      exists amount, (amount * price)%Q, price. repeat split; try done.
  - destruct (py_eq_str (dget_or "action" VNone trade) "sell"); [|by simplify_eq].
    destruct (hs !! c) as [holding|] eqn:Ec; [|by simplify_eq].
    destruct (Hall c holding Ec) as (a0 & c0 & p0 & Ham & Hco & Hpr & Ha0 & Hc0).
    unfold dget_or in H at 1. rewrite Ham in H. simpl in H.
    destruct (num (dget_or "amount" (VNum 0) trade)) as [amount|]; simpl in H; [|done].
    destruct (Qle_bool (a0 - amount) 0) eqn:Ele.
    { simplify_eq. by apply map_Forall_delete. }
    destruct (Qeq_bool (a0 - amount + amount) 0); [done|].
    unfold dget_or in H. rewrite Hco in H. simpl in H. simplify_eq.
    apply map_Forall_insert_2; [|done].
    assert (Hleft : (0 < a0 - amount)%Q).
    { apply Qnot_le_lt. intros Hc. apply Qle_bool_iff in Hc. congruence. }
    exists (a0 - amount)%Q, (c0 * (1 - amount / (a0 - amount + amount)))%Q, p0.
    rewrite dget_dset_ne by done. rewrite dget_dset_eq. rewrite dget_dset_eq.
    rewrite dget_dset_ne by done. rewrite dget_dset_ne by done.
    repeat split; try done. rewrite Hc0. field. lra.
Qed.

(** X15. The holdings that the replay of the trade log in
    [rollback_to_date] rebuilds (the purchases of the log being of a
    positive number of shares) hold a positive [amount] and, under [cost],
    the cost of the whole position: [amount] times the average price kept
    under [price]. *)
Theorem replay_trades_cost_pool (trades : list pydict) (hs : gmap string pydict) :
  Forall buys_shares trades ->
  replay_trades trades = Ok hs ->
  map_Forall (fun _ holding => cost_is_pool holding) hs.
Proof.
  unfold replay_trades. intros Hbuys.
  assert (Hgen : forall h0, map_Forall (fun _ holding => cost_is_pool holding) h0 ->
            ofold replay_trade trades h0 = Ok hs ->
            map_Forall (fun _ holding => cost_is_pool holding) hs).
  { induction Hbuys as [|t ts Ht _ IH]; intros h0 H0 Hrun; simpl in Hrun.
    - by simplify_eq.
    - destruct (replay_trade t h0) as [h1|] eqn:E; simpl in Hrun; [|done].
      eapply IH; [|exact Hrun]. eapply replay_trade_cost_pool; eauto. }
  apply Hgen. apply map_Forall_empty.
Qed.

(** ** The two forms of a date *)

(** X16. A date of eight characters without a dash ([YYYYMMDD]): the
    normalisation the agent applies to the dates of its logs gives a date
    of ten characters with dashes, the provider's [_format_date] gives the
    same, and [_normalize_trade_date] takes it back to the date. *)
Theorem normalize_trade_date_round_trip (s : string) :
  has_dash s = false -> String.length s = 8%nat ->
  has_dash (normalize_date s) = true
  /\ String.length (normalize_date s) = 10%nat
  /\ _format_date s = normalize_date s
  /\ _normalize_trade_date (normalize_date s) = s.
Proof.
  intros Hd Hl.
  assert (Hn : normalize_date s = to_iso s).
  { unfold normalize_date. by rewrite Hd, Hl. }
  rewrite Hn. split; [apply has_dash_to_iso|].
  unfold _format_date. rewrite Hd.
  do 9 (destruct s as [|? s]; try discriminate).
  simpl in Hd. repeat (apply orb_false_iff in Hd; destruct Hd as [? Hd]).
  split; [reflexivity|]. split; [reflexivity|].
  cbv [to_iso substring String.append]. simpl.
  repeat match goal with E : Ascii.eqb _ _ = false |- _ => rewrite E; clear E end.
  reflexivity.
Qed.

(** X17. A date in the form [YYYY-MM-DD] (ten characters, dashes in the
    two places and nowhere else) is left alone by the agent's
    normalisation and by the provider's [_format_date];
    [_normalize_trade_date] makes of it a date of eight characters without
    a dash, which either of the two takes back to the date. *)
Theorem format_date_round_trip (s : string) :
  iso_shaped s ->
  normalize_date s = s
  /\ _format_date s = s
  /\ has_dash (_normalize_trade_date s) = false
  /\ String.length (_normalize_trade_date s) = 8%nat
  /\ normalize_date (_normalize_trade_date s) = s
  /\ _format_date (_normalize_trade_date s) = s.
Proof.
  intros (Hl & H4 & H7 & Hy & Hm & Hd).
  do 11 (destruct s as [|? s]; try discriminate). clear Hl.
  cbv [substring] in H4, H7, Hy, Hm, Hd.
  injection H4 as ->. injection H7 as ->.
  simpl in Hy, Hm, Hd.
  repeat match goal with H : _ || _ = false |- _ => apply orb_false_iff in H; destruct H end.
  unfold normalize_date, _format_date. simpl.
  repeat match goal with E : Ascii.eqb _ _ = false |- _ => rewrite E end.
  simpl.
  repeat match goal with E : Ascii.eqb _ _ = false |- _ => rewrite E end.
  cbv [to_iso substring String.append]. simpl. repeat split; reflexivity.
Qed.

(** A date without dashes is what [_normalize_trade_date] returns. *)
Lemma normalize_trade_date_no_dash (s : string) : has_dash (_normalize_trade_date s) = false.
Proof.
  induction s as [|a s IH]; simpl; [done|].
  destruct (Ascii.eqb a "-") eqn:E; simpl; [done|]. by rewrite E.
Qed.

(** ** [_calculate_result] *)

(** A fall from [x] to [a] is at most the fall from a higher level. *)
Lemma drawdown_mono (x peak a : Q) :
  (0 < x)%Q -> (x <= peak)%Q -> (0 <= a)%Q ->
  ((x - a) / x * 100 <= (peak - a) / peak * 100)%Q.
Proof.
  intros Hx Hp Ha.
  apply Qmult_le_compat_r; [|lra].
  apply Qle_shift_div_l; [lra|].
  unfold Qdiv. rewrite <- Qmult_assoc, (Qmult_comm (/ x)), Qmult_assoc.
  apply Qle_shift_div_r; [lra|]. nra.
Qed.

Lemma drawdown_step_inv (record : pydict) (peak m peak' m' : Q) :
  drawdown_step record (peak, m) = Ok (peak', m') ->
  exists a, dget "total_assets" record = Some (VNum a)
    /\ (peak <= peak')%Q /\ (a <= peak')%Q /\ (m <= m')%Q
    /\ ((peak' - a) / peak' * 100 <= m')%Q
    /\ ((0 < peak)%Q -> (0 < peak')%Q)
    /\ ((0 < peak)%Q -> (0 <= a)%Q -> (m <= 100)%Q -> (m' <= 100)%Q).
Proof.
  unfold drawdown_step. intros H.
  destruct (dget "total_assets" record) as [v|]; [|done].
  destruct (num v) as [a|] eqn:Ea; simpl in H; [|done]. apply num_ok in Ea. subst v.
  destruct (Qeq_bool _ 0) eqn:E0; [done|]. injection H as <- <-.
  exists a. split; [done|].
  assert (Hpk : (peak <= (if Qlt_bool peak a then a else peak))%Q
                /\ (a <= (if Qlt_bool peak a then a else peak))%Q).
  { destruct (Qlt_bool peak a) eqn:E; [apply Qlt_bool_true in E|apply Qlt_bool_false in E];
      lra. }
  set (pk := if Qlt_bool peak a then a else peak) in *.
  set (dd := ((pk - a) / pk * 100)%Q).
  assert (Hm : (m <= (if Qlt_bool m dd then dd else m))%Q
               /\ (dd <= (if Qlt_bool m dd then dd else m))%Q).
  { destruct (Qlt_bool m dd) eqn:E; [apply Qlt_bool_true in E|apply Qlt_bool_false in E];
      lra. }
  destruct Hpk as [Hpk1 Hpk2]. destruct Hm as [Hm1 Hm2].
  repeat split; try done.
  - intros Hpos. lra.
  - intros Hpos Ha Hm.
    assert (Hdd : (dd <= 100)%Q).
    { subst dd. assert (Hle : ((pk - a) / pk <= 1)%Q).
      { apply Qle_shift_div_r; lra. }
      lra. }
    destruct (Qlt_bool m dd); lra.
Qed.

Lemma drawdown_loop_inv (records : list pydict) (peak m peak' m' : Q) :
  ofold drawdown_step records (peak, m) = Ok (peak', m') ->
  (peak <= peak')%Q /\ (m <= m')%Q
  /\ ((0 < peak)%Q -> (0 < peak')%Q)
  /\ ((0 < peak)%Q ->
      Forall (fun record => forall a, dget "total_assets" record = Some (VNum a) -> (0 <= a)%Q)
             records ->
      (m <= 100)%Q -> (m' <= 100)%Q)
  /\ forall pre record post a x,
       records = pre ++ record :: post ->
       dget "total_assets" record = Some (VNum a) ->
       (0 < x)%Q -> (x <= peak)%Q -> (0 <= a)%Q ->
       ((x - a) / x * 100 <= m')%Q.
Proof.
  revert peak m. induction records as [|r records IH]; intros peak m H.
  - simpl in H. simplify_eq. repeat split; try lra; try done.
    intros pre record post a x Hsplit. by destruct pre.
  - cbn [ofold] in H.
    destruct (drawdown_step r (peak, m)) as [[pk1 m1]|] eqn:E; simpl in H; [|done].
    apply drawdown_step_inv in E.
    destruct E as (a1 & Ha1 & Hp1 & Hap & Hm1 & Hdd & Hpos1 & Hcap1).
    destruct (IH _ _ H) as (Hp & Hm & Hpos & Hcap & Hall).
    split; [lra|]. split; [lra|]. split; [by auto|]. split.
    + intros Hpk Hnn Hm100. apply Forall_cons in Hnn. destruct Hnn as [Hr Hnn].
      apply Hcap; [by auto|done|]. apply Hcap1; auto.
    + intros pre record post a x Hsplit Ha Hx Hxp Ha0.
      destruct pre as [|r0 pre]; simpl in Hsplit; injection Hsplit as -> ->.
      * rewrite Ha1 in Ha. injection Ha as ->.
        pose proof (drawdown_mono x pk1 a Hx ltac:(lra) Ha0). lra.
      * eapply (Hall pre record post a x); eauto. lra.
Qed.

Lemma win_trades_sublist (trades wins : list pydict) :
  win_trades trades = Ok wins -> sublist wins (List.filter is_sell trades).
Proof.
  unfold win_trades.
  assert (Hgen : forall acc, ofold (fun t acc => let* win := is_win t in
                                Ok (if win then acc ++ [t] else acc)) trades acc = Ok wins ->
            exists rest, wins = acc ++ rest /\ sublist rest (List.filter is_sell trades)).
  { induction trades as [|t trades IH]; intros acc H; simpl in H.
    - simplify_eq. exists []. by rewrite app_nil_r.
    - unfold is_win in H at 1. simpl. destruct (is_sell t) eqn:Es.
      + destruct (num _) as [profit|]; simpl in H; [|done].
        destruct (Qlt_bool 0 profit).
        * destruct (IH _ H) as (rest & -> & Hsub). exists (t :: rest).
          split; [by rewrite <- (assoc_L (++))|]. by apply sublist_skip.
        * destruct (IH _ H) as (rest & -> & Hsub). exists rest.
          split; [done|]. by apply sublist_cons.
      + simpl in H. apply IH in H. done. }
  intros H. destruct (Hgen [] H) as (rest & -> & Hsub). done.
Qed.

(** X18. When [_calculate_result] returns, [max_drawdown] is not
    negative, [win_rate] lies between 0 and 100 and [trade_count] counts
    the sales of the trade history (not its purchases); the initial
    capital being positive and no daily total negative, [max_drawdown] is
    at most 100. *)
Theorem calculate_result_bounds (state : TradingState) (r : BacktestResult) :
  _calculate_result state = Ok r ->
  (0 <= res_max_drawdown r)%Q
  /\ (0 <= res_win_rate r)%Q /\ (res_win_rate r <= 100)%Q
  /\ res_trade_count r = length (List.filter is_sell (trade_history state))
  /\ ((0 < initial_capital state)%Q ->
      Forall (fun record => forall a, dget "total_assets" record = Some (VNum a) -> (0 <= a)%Q)
             (daily_assets state) ->
      (res_max_drawdown r <= 100)%Q).
Proof.
  unfold _calculate_result. intros H.
  destruct (Qeq_bool _ 0); [done|].
  destruct (ofold drawdown_step _ _) as [[peak m]|] eqn:Edd; simpl in H; [|done].
  destruct (win_trades _) as [wins|] eqn:Ew; simpl in H; [|done].
  injection H as <-. simpl.
  apply drawdown_loop_inv in Edd. destruct Edd as (_ & Hm & _ & Hcap & _).
  apply win_trades_sublist in Ew. apply sublist_length in Ew.
  split; [done|].
  destruct (List.filter is_sell (trade_history state)) as [|t ts] eqn:Ef.
  - split; [lra|]. split; [lra|]. split; [done|].
    intros Hpos Hnn. apply Hcap; first [done|lra].
  - assert (Hlen : (0 < inject_Z (Z.of_nat (length (t :: ts))))%Q).
    { replace 0%Q with (inject_Z 0) by done. rewrite <- Zlt_Qlt. simpl. lia. }
    assert (Hw : (0 <= inject_Z (Z.of_nat (length wins)))%Q).
    { replace 0%Q with (inject_Z 0) by done. rewrite <- Zle_Qle. lia. }
    assert (Hwl : (inject_Z (Z.of_nat (length wins)) <= inject_Z (Z.of_nat (length (t :: ts))))%Q).
    { rewrite <- Zle_Qle. lia. }
    split; [|split; [|split]].
    + apply Qmult_le_0_compat; [|lra]. apply Qle_shift_div_l; [done|]. lra.
    + assert (Hdiv : (inject_Z (Z.of_nat (length wins))
                      / inject_Z (Z.of_nat (length (t :: ts))) <= 1)%Q).
      { apply Qle_shift_div_r; [done|]. lra. }
      lra.
    + done.
    + intros Hpos Hnn. apply Hcap; first [done|lra].
Qed.

(** X19. [max_drawdown] bounds every fall, in percent of the value
    fallen from: the fall from a positive initial capital to the total of
    any day, and the fall from the positive total of a day to the total of
    any later day (totals that are not negative). *)
Theorem calculate_result_drawdown (state : TradingState) (r : BacktestResult) :
  _calculate_result state = Ok r ->
  (forall pre record post a,
     daily_assets state = pre ++ record :: post ->
     dget "total_assets" record = Some (VNum a) ->
     (0 < initial_capital state)%Q -> (0 <= a)%Q ->
     ((initial_capital state - a) / initial_capital state * 100 <= res_max_drawdown r)%Q)
  /\ (forall pre earlier between later post a1 a2,
        daily_assets state = pre ++ earlier :: between ++ later :: post ->
        dget "total_assets" earlier = Some (VNum a1) ->
        dget "total_assets" later = Some (VNum a2) ->
        (0 < a1)%Q -> (0 <= a2)%Q ->
        ((a1 - a2) / a1 * 100 <= res_max_drawdown r)%Q).
Proof.
  unfold _calculate_result. intros H.
  destruct (Qeq_bool _ 0); [done|].
  destruct (ofold drawdown_step _ _) as [[peak m]|] eqn:Edd; simpl in H; [|done].
  destruct (win_trades _) as [wins|] eqn:Ew; simpl in H; [|done].
  injection H as <-. simpl. split.
  - intros pre record post a Hsplit Ha Hpos Ha0.
    apply drawdown_loop_inv in Edd. destruct Edd as (_ & _ & _ & _ & Hall).
    eapply Hall; eauto. lra.
  - intros pre earlier between later post a1 a2 Hsplit Ha1 Ha2 Hpos Ha0.
    rewrite Hsplit in Edd.
    replace (pre ++ earlier :: between ++ later :: post)
      with ((pre ++ [earlier]) ++ between ++ later :: post) in Edd
      by (by rewrite <- (assoc_L (++))).
    rewrite !ofold_app in Edd.
    destruct (ofold drawdown_step pre _) as [[pk0 m0]|] eqn:E0; cbn [obind ofold] in Edd;
      [|done].
    destruct (drawdown_step earlier (pk0, m0)) as [[pk1 m1]|] eqn:E1; cbn [obind] in Edd;
      [|done].
    apply drawdown_step_inv in E1. destruct E1 as (a & Ha & _ & Hle & _).
    rewrite Ha1 in Ha. injection Ha as <-.
    apply drawdown_loop_inv in Edd. destruct Edd as (_ & _ & _ & _ & Hall).
    eapply (Hall between later post a2 a1); eauto.
Qed.

(** ** [find_first_continuous_data_end] *)

Lemma omap_cons {A B} (f : A -> option B) (x : A) (l : list A) :
  omap f (x :: l) = match f x with Some y => y :: omap f l | None => omap f l end.
Proof. reflexivity. Qed.

Section GapProperties.

Variable strptime : string -> option Z.
Variable strftime : Z -> string.
Variable _update_holdings_current_prices :
  pyval -> gmap string pydict -> option (gmap string pydict).

(** The scan from a previous day [prev] on, when it reports no gap. *)
Lemma find_gap_none (prev : option Z) (entries entries' : list pydict)
    (last_date : option string) :
  find_gap strptime strftime prev entries = (entries', Ok (last_date, None)) ->
  Forall (dated_or_blank strptime) entries
  /\ Sorted close_days (option_list prev ++ omap (gap_day strptime) entries)
  /\ last_date = strftime <$> last (option_list prev ++ omap (gap_day strptime) entries).
Proof.
  revert prev entries'. induction entries as [|entry rest IH]; intros prev entries' H.
  - simpl in H. injection H as <- <-. split; [constructor|]. rewrite app_nil_r.
    destruct prev; simpl; repeat constructor.
  - simpl in H. rewrite omap_cons.
    destruct (negb (truthy (dget_or "date" VNone entry))) eqn:Etr.
    + destruct (find_gap strptime strftime prev rest) as [rest' r] eqn:Erest.
      injection H as <- ->. destruct (IH _ _ Erest) as (Hall & Hsorted & Hlast).
      apply negb_true_iff in Etr.
      assert (Hnone : gap_day strptime entry = None).
      { unfold gap_day. destruct (dget_or "date" VNone entry) as [|s| |]; try done.
        simpl in Etr. apply negb_false_iff in Etr. by rewrite Etr. }
      rewrite Hnone. split; [constructor; [by left|done]|]. done.
    + destruct (dget_or "date" VNone entry) as [|s| |] eqn:Ed; try done.
      simpl in Etr. rewrite negb_involutive in Etr. apply negb_true_iff in Etr.
      apply negb_true_iff in Etr.
      destruct (strptime (normalize_date s)) as [d|] eqn:Ep; [|done].
      assert (Hday : gap_day strptime entry = Some d).
      { unfold gap_day. by rewrite Ed, Etr. }
      rewrite Hday.
      assert (Hgo : forall entry',
                (let '(rest', r) := find_gap strptime strftime (Some d) rest in
                 (entry' :: rest', r)) = (entries', Ok (last_date, None)) ->
                Forall (dated_or_blank strptime) rest
                /\ Sorted close_days (d :: omap (gap_day strptime) rest)
                /\ last_date = strftime <$> last (d :: omap (gap_day strptime) rest)).
      { intros entry' Hrun.
        destruct (find_gap strptime strftime (Some d) rest) as [rest' r] eqn:Erest.
        injection Hrun as <- ->. by apply (IH _ _ Erest). }
      assert (Hentry : dated_or_blank strptime entry).
      { right. rewrite Hday. by eexists. }
      destruct prev as [p|]; simpl.
      * destruct (3 <? d - p)%Z eqn:E3; [done|]. destruct (d <? p)%Z eqn:Elt; [done|].
        apply Hgo in H. destruct H as (Hall & Hsorted & Hlast).
        split; [by constructor|]. split.
        -- constructor; [done|]. constructor. unfold close_days.
           apply Z.ltb_ge in E3, Elt. lia.
        -- rewrite Hlast. done.
      * apply Hgo in H. destruct H as (Hall & Hsorted & Hlast).
        split; [by constructor|]. done.
Qed.

(** X20. When [find_first_continuous_data_end] reports no gap, every
    entry has a falsy date or a date that parses; the days read are in
    order, each at most three days after the one before; and the date
    returned is the last day read ([None] if no entry has a date). *)
Theorem find_first_continuous_data_end_none (self self' : Agent pydict)
    (last_date : option string) :
  find_first_continuous_data_end strptime strftime self = (self', Ok (last_date, None)) ->
  Forall (dated_or_blank strptime) (self_daily_assets self)
  /\ Sorted close_days (omap (gap_day strptime) (self_daily_assets self))
  /\ last_date = strftime <$> last (omap (gap_day strptime) (self_daily_assets self)).
Proof.
  unfold find_first_continuous_data_end. intros H.
  destruct (find_gap strptime strftime None (self_daily_assets self)) as [entries' r] eqn:E.
  injection H as _ ->. by apply find_gap_none in E.
Qed.

Lemma Sorted_snoc {A} (R : A -> A -> Prop) (l : list A) (x : A) :
  Sorted R l -> (forall y, last l = Some y -> R y x) -> Sorted R (l ++ [x]).
Proof.
  induction l as [|y l IH]; intros Hs Hlast; simpl.
  - repeat constructor.
  - apply Sorted_inv in Hs as [Hs Hhd]. constructor.
    + apply IH; [done|]. intros z Hz. apply Hlast. destruct l; [done|]. done.
    + destruct l as [|z l]; simpl.
      * constructor. by apply Hlast.
      * constructor. by apply HdRel_inv in Hhd.
Qed.

(** The scan after the days [seen], when it reports a gap: the entry it
    stops at is the first that does not follow on. *)
Lemma find_gap_some (seen : list Z) (entries entries' : list pydict)
    (last_date : option string) (gap : string) :
  find_gap strptime strftime (last seen) entries = (entries', Ok (last_date, Some gap)) ->
  Sorted close_days seen ->
  exists pre entry post s,
    entries = pre ++ entry :: post
    /\ dget_or "date" VNone entry = VStr s
    /\ gap = normalize_date s
    /\ Forall (dated_or_blank strptime) pre
    /\ Sorted close_days (seen ++ omap (gap_day strptime) pre)
    /\ last_date = strftime <$> last (seen ++ omap (gap_day strptime) pre)
    /\ (strptime gap = None
        \/ exists d p,
             strptime gap = Some d
             /\ last (seen ++ omap (gap_day strptime) pre) = Some p
             /\ ((p + 3 < d)%Z \/ (d < p)%Z)).
Proof.
  revert seen entries'. induction entries as [|entry rest IH]; intros seen entries' H Hseen;
    [done|].
  simpl in H.
  destruct (negb (truthy (dget_or "date" VNone entry))) eqn:Etr.
  - destruct (find_gap strptime strftime (last seen) rest) as [rest' r] eqn:Erest.
    injection H as <- ->.
    destruct (IH _ _ Erest Hseen) as (pre & e & post & s & -> & Hs & Hgap & Hall & Hsorted & Hlast & Hbad).
    apply negb_true_iff in Etr.
    assert (Hnone : gap_day strptime entry = None).
    { unfold gap_day. destruct (dget_or "date" VNone entry) as [|s0| |]; try done.
      simpl in Etr. apply negb_false_iff in Etr. by rewrite Etr. }
    exists (entry :: pre), e, post, s. rewrite omap_cons, Hnone.
    split; [done|]. split; [done|]. split; [done|].
    split; [constructor; [by left|done]|]. done.
  - destruct (dget_or "date" VNone entry) as [|s| |] eqn:Ed; try done.
    simpl in Etr. rewrite negb_involutive in Etr. apply negb_true_iff in Etr.
    apply negb_true_iff in Etr.
    assert (Hstop : forall bad : strptime (normalize_date s) = None
                                 \/ exists d p, strptime (normalize_date s) = Some d
                                                /\ last seen = Some p
                                                /\ ((p + 3 < d)%Z \/ (d < p)%Z),
              last_date = strftime <$> last seen -> gap = normalize_date s ->
              exists pre entry0 post s0,
                entry :: rest = pre ++ entry0 :: post
                /\ dget_or "date" VNone entry0 = VStr s0
                /\ gap = normalize_date s0
                /\ Forall (dated_or_blank strptime) pre
                /\ Sorted close_days (seen ++ omap (gap_day strptime) pre)
                /\ last_date = strftime <$> last (seen ++ omap (gap_day strptime) pre)
                /\ (strptime gap = None
                    \/ exists d p,
                         strptime gap = Some d
                         /\ last (seen ++ omap (gap_day strptime) pre) = Some p
                         /\ ((p + 3 < d)%Z \/ (d < p)%Z))).
    { intros Hbad Hlast ->. exists [], entry, rest, s. simpl. rewrite app_nil_r.
      split; [done|]. split; [done|]. split; [done|]. split; [constructor|]. done. }
    destruct (strptime (normalize_date s)) as [d|] eqn:Ep.
    2:{ injection H as _ <- <-. apply Hstop; [by left|done|done]. }
    assert (Hday : gap_day strptime entry = Some d).
    { unfold gap_day. by rewrite Ed, Etr. }
    assert (Hgo : forall entry',
              (let '(rest', r) := find_gap strptime strftime (Some d) rest in
               (entry' :: rest', r)) = (entries', Ok (last_date, Some gap)) ->
              (forall p, last seen = Some p -> close_days p d) ->
              exists pre entry0 post s0,
                entry :: rest = pre ++ entry0 :: post
                /\ dget_or "date" VNone entry0 = VStr s0
                /\ gap = normalize_date s0
                /\ Forall (dated_or_blank strptime) pre
                /\ Sorted close_days (seen ++ omap (gap_day strptime) pre)
                /\ last_date = strftime <$> last (seen ++ omap (gap_day strptime) pre)
                /\ (strptime gap = None
                    \/ exists d p,
                         strptime gap = Some d
                         /\ last (seen ++ omap (gap_day strptime) pre) = Some p
                         /\ ((p + 3 < d)%Z \/ (d < p)%Z))).
    { intros entry' Hrun Hclose.
      destruct (find_gap strptime strftime (Some d) rest) as [rest' r] eqn:Erest.
      injection Hrun as <- ->.
      assert (Hl : last (seen ++ [d]) = Some d) by apply last_snoc.
      rewrite <- Hl in Erest.
      destruct (IH _ _ Erest (Sorted_snoc _ _ _ Hseen Hclose))
        as (pre & e & post & s0 & -> & Hs & Hgap & Hall & Hsorted & Hlast & Hbad).
      exists (entry :: pre), e, post, s0. rewrite omap_cons, Hday.
      replace (seen ++ d :: omap (gap_day strptime) pre)
        with ((seen ++ [d]) ++ omap (gap_day strptime) pre)
        by (by rewrite <- (assoc_L (++))).
      split; [done|]. split; [done|]. split; [done|].
      split; [constructor; [right; rewrite Hday; by eexists|done]|]. done. }
    destruct (last seen) as [p|] eqn:Elast.
    + destruct (3 <? d - p)%Z eqn:E3.
      { injection H as _ <- <-. apply Hstop; [|done|done].
        right. exists d, p. apply Z.ltb_lt in E3. split; [done|]. split; [done|]. lia. }
      destruct (d <? p)%Z eqn:Elt.
      { injection H as _ <- <-. apply Hstop; [|done|done].
        right. exists d, p. apply Z.ltb_lt in Elt. split; [done|]. split; [done|]. lia. }
      apply (Hgo _ H). intros p0 [= <-]. unfold close_days.
      apply Z.ltb_ge in E3, Elt. lia.
    + apply (Hgo _ H). done.
Qed.

(** X21. When [find_first_continuous_data_end] reports a gap, the gap
    date is the date (with dashes) of the first entry that does not follow
    on: the entries before it are as when no gap is reported, the other
    date returned is the last day read before it, and the gap date does
    not parse, or lies more than three days after that day, or before
    it. *)
Theorem find_first_continuous_data_end_gap (self self' : Agent pydict)
    (last_date : option string) (gap : string) :
  find_first_continuous_data_end strptime strftime self = (self', Ok (last_date, Some gap)) ->
  exists pre entry post s,
    self_daily_assets self = pre ++ entry :: post
    /\ dget_or "date" VNone entry = VStr s
    /\ gap = normalize_date s
    /\ Forall (dated_or_blank strptime) pre
    /\ Sorted close_days (omap (gap_day strptime) pre)
    /\ last_date = strftime <$> last (omap (gap_day strptime) pre)
    /\ (strptime gap = None
        \/ exists d p,
             strptime gap = Some d
             /\ last (omap (gap_day strptime) pre) = Some p
             /\ ((p + 3 < d)%Z \/ (d < p)%Z)).
Proof.
  unfold find_first_continuous_data_end. intros H.
  destruct (find_gap strptime strftime None (self_daily_assets self)) as [entries' r] eqn:E.
  injection H as _ ->.
  apply (find_gap_some [] _ _ _ _ E). constructor.
Qed.

(** X22. The recovery at start-up rolls back to the gap date that
    [find_first_continuous_data_end] returns. When that date is one that
    does not parse, [rollback_to_date] fails on it (it returns [False]):
    a log with a date that is no date is not repaired by the rollback. *)
Theorem rollback_to_unreadable_gap (self self' : Agent pydict)
    (last_date : option string) (gap : string) :
  find_first_continuous_data_end strptime strftime self = (self', Ok (last_date, Some gap)) ->
  strptime gap = None ->
  rollback_to_date strptime _update_holdings_current_prices self' gap = None.
Proof.
  unfold find_first_continuous_data_end. intros H Hgap.
  destruct (find_gap strptime strftime None (self_daily_assets self)) as [entries' r] eqn:E.
  injection H as _ ->.
  destruct (find_gap_some [] _ _ _ _ E (Sorted_nil _))
    as (pre & entry & post & s & _ & _ & -> & _).
  unfold rollback_to_date. by rewrite normalize_date_idemp, Hgap.
Qed.

End GapProperties.

(** ** [_extract_json_array] *)

Lemma string_app_cons (a : ascii) (s1 s2 : string) :
  (String a s1 ++ s2)%string = String a (s1 ++ s2).
Proof. reflexivity. Qed.

Lemma string_app_nil (s : string) : ("" ++ s)%string = s.
Proof. reflexivity. Qed.

Lemma string_app_assoc (s1 s2 s3 : string) :
  ((s1 ++ s2) ++ s3 = s1 ++ (s2 ++ s3))%string.
Proof.
  induction s1 as [|a s1 IH]; [done|]. rewrite !string_app_cons. by rewrite IH.
Qed.

Lemma from_first_bracket_app (prose rest : string) :
  no_bracket prose = true ->
  from_first_bracket (prose ++ String "[" rest) = Some (String "[" rest).
Proof.
  induction prose as [|a prose IH]; [done|]. rewrite string_app_cons. simpl. intros H.
  apply andb_true_iff in H. destruct H as [H ?].
  apply negb_true_iff in H. rewrite H. by apply IH.
Qed.

Lemma from_first_bracket_none (content : string) :
  no_bracket content = true -> from_first_bracket content = None.
Proof.
  induction content as [|a content IH]; simpl; [done|]. intros H.
  apply andb_true_iff in H. destruct H as [H ?].
  apply negb_true_iff in H. rewrite H. by apply IH.
Qed.

(** Inside a string literal the loop goes on to the closing quote. *)
Lemma scan_array_string (q rest : string) (n : Z) :
  string_body q ->
  scan_array (q ++ String "034" rest) n true false
  = (fun found => q ++ String "034" found)%string <$> scan_array rest n false false.
Proof.
  intros Hq. induction Hq as [|c s Hc1 Hc2 Hs IH|c s Hs IH];
    rewrite ?string_app_cons, ?string_app_nil; simpl.
  - by destruct (scan_array rest n false false).
  - rewrite Hc1, Hc2, IH. by destruct (scan_array rest n false false).
  - rewrite IH. by destruct (scan_array rest n false false).
Qed.

(** Below the first bracket, the loop passes over what the array holds. *)
Lemma scan_array_body (body rest : string) (n : Z) :
  array_body body -> (1 <= n)%Z ->
  scan_array (body ++ rest) n false false
  = (fun found => body ++ found)%string <$> scan_array rest n false false.
Proof.
  intros Hb. revert n rest.
  induction Hb as [|c s H1 H2 H3 H4 Hs IH|q s Hq Hs IH|inner s Hi IHi Hs IHs];
    intros n rest Hn; rewrite ?string_app_cons, ?string_app_nil.
  - by destruct (scan_array rest n false false).
  - simpl. rewrite H1, H2, H3, H4. simpl. rewrite IH by done.
    by destruct (scan_array rest n false false).
  - rewrite string_app_assoc, string_app_cons. simpl.
    rewrite scan_array_string by done.
    rewrite IH by done. destruct (scan_array rest n false false); simpl; [|done].
    by rewrite string_app_cons, string_app_assoc, string_app_cons.
  - rewrite string_app_assoc, string_app_cons. simpl. rewrite IHi by lia. simpl.
    replace (n + 1 - 1 =? 0)%Z with false by (symmetry; apply Z.eqb_neq; lia).
    replace (n + 1 - 1)%Z with n by lia.
    rewrite IHs by done. destruct (scan_array rest n false false); simpl; [|done].
    by rewrite string_app_cons, string_app_assoc, string_app_cons.
Qed.

Section ExtractJsonProperties.

Variable J : Type.
Variable py_none : J.
Variable json_loads : string -> option J.
Variable strip : string -> string.
Variable code_block_match : string -> option string.

(** X23. When the reply as a whole is not JSON and the pattern for a
    fenced block yields nothing that parses, [_extract_json_array] reads
    the first bracketed array of the text: for a reply [prose [ body ] rest]
    with no bracket in [prose] and a [body] whose brackets match outside
    string literals (brackets inside a literal do not count, an escaped
    quote does not end one), the result is [json.loads] of [[ body ]], and
    [None] if that raises, whatever [rest] is. *)
Theorem extract_json_array_first_array (prose body rest : string) :
  let content := (prose ++ "[" ++ body ++ "]" ++ rest)%string in
  no_bracket prose = true -> array_body body ->
  json_loads (strip content) = None ->
  from_option json_loads None (code_block_match content) = None ->
  _extract_json_array J py_none json_loads strip code_block_match content
  = default py_none (json_loads ("[" ++ body ++ "]")%string).
Proof.
  intros content Hprose Hbody H1 H2. unfold _extract_json_array.
  rewrite H1, H2. subst content.
  change ("[" ++ body ++ "]" ++ rest)%string with (String "[" (body ++ String "]" rest)).
  rewrite from_first_bracket_app by done.
  change (scan_array (String "[" (body ++ String "]" rest)) 0 false false)
    with (String "["%char <$> scan_array (body ++ String "]" rest) 1 false false).
  rewrite scan_array_body by (done || lia). done.
Qed.

End ExtractJsonProperties.

(** ** Sell decisions and the forced sales *)

(** One round of the sell loop: the codes it marks and what has become of
    them. *)
Lemma sell_decision_decided env decision acc h acc' h' :
  sell_decision env decision acc h = (Ok acc', h') ->
  h' = h
  /\ sl_processed acc ⊆ sl_processed acc'
  /\ holdings (sl_state acc') ⊆ holdings (sl_state acc)
  /\ (forall c, c ∈ sl_processed acc' -> c ∉ sl_processed acc ->
        holdings (sl_state acc') !! c = None
        \/ exists l, holdings (sl_state acc) !! c = Some l /\ ~ sellable (h !!! l))
  /\ (forall d c, decision = VDict d ->
        dget_or "action" VNone d = VStr "sell" -> dget_or "code" VNone d = VStr c -> c <> "" ->
        c ∈ sl_processed acc').
Proof.
  unfold sell_decision, sell_holding, sell_continue, getitem, as_num, deref, bind, ret, raise.
  intros H.
  repeat head_match H; try discriminate; injection H as <- <-; simpl.
  all: split; [reflexivity|].
  all: split; [try reflexivity; apply union_subseteq_r|].
  all: split; [try reflexivity; try apply delete_subseteq|].
  all: split; [intros c0 Hin Hnot; try done|].
  all: try (apply elem_of_union in Hin; destruct Hin as [Hin|Hin]; [|done];
            apply elem_of_singleton in Hin; subst c0).
  all: try (left; first [assumption | apply lookup_delete_eq]).
  all: try (right; eexists; split; [eassumption|]; unfold sellable; congruence).
  all: intros d0 c0 Hd Ha Hc Hne; simplify_eq.
  all: try (rewrite Ha in *; simpl in *; discriminate).
  all: try (rewrite Hc in *; simpl in *; simplify_eq).
  all: try assumption.
  all: try (apply elem_of_union_l, elem_of_singleton; reflexivity).
  all: try (exfalso; apply Hne; match goal with E : negb (negb (String.eqb _ _)) = true |- _ =>
              rewrite negb_involutive in E; apply String.eqb_eq in E; exact E end).
Qed.

(** The sell loop from any point on. *)
Lemma sell_loop_decided env decisions acc h acc' h' :
  for_each (sell_decision env) decisions acc h = (Ok acc', h') ->
  h' = h
  /\ sl_processed acc ⊆ sl_processed acc'
  /\ holdings (sl_state acc') ⊆ holdings (sl_state acc)
  /\ (forall c, c ∈ sl_processed acc' -> c ∉ sl_processed acc ->
        holdings (sl_state acc') !! c = None
        \/ exists l, holdings (sl_state acc) !! c = Some l /\ ~ sellable (h !!! l))
  /\ (forall d c, VDict d ∈ decisions ->
        dget_or "action" VNone d = VStr "sell" -> dget_or "code" VNone d = VStr c -> c <> "" ->
        c ∈ sl_processed acc').
Proof.
  revert acc. induction decisions as [|decision decisions IH]; intros acc H; simpl in H.
  - unfold ret in H. injection H as <- <-.
    split; [done|]. split; [done|]. split; [done|]. split; [done|].
    intros d c Hin. by apply elem_of_nil in Hin.
  - unfold bind in H.
    destruct (sell_decision env decision acc h) as [[acc1|e] h1] eqn:E; [|done].
    apply sell_decision_decided in E. destruct E as (-> & Hp1 & Hh1 & Hd1 & Hin1).
    apply IH in H. destruct H as (-> & Hp2 & Hh2 & Hd2 & Hin2).
    split; [done|]. split; [by etrans|]. split; [by etrans|]. split.
    + intros c Hc Hnot. destruct (decide (c ∈ sl_processed acc1)) as [Hc1|Hc1].
      * destruct (Hd1 c Hc1 Hnot) as [Hnone|Hheld]; [left|by right].
        eapply lookup_weaken_None; eauto.
      * destruct (Hd2 c Hc Hc1) as [Hnone|(l & Hl & Hdays)]; [by left|right].
        exists l. split; [|done]. eapply lookup_weaken; eauto.
    + intros d c Hin Ha Hc Hne. apply elem_of_cons in Hin. destruct Hin as [<-|Hin].
      * apply Hp2. by eapply Hin1.
      * by eapply Hin2.
Qed.

(** X24. A decision to sell is carried out or refused for T+1, never
    passed over: when [_execute_sells] returns, a stock that a sell
    decision names (by a code that is not empty) is not held any more,
    unless it is held as before under a dict whose [hold_days] is 0. *)
Theorem execute_sells_honours env state h state' h' :
  _execute_sells env state h = (Ok state', h') ->
  forall d c,
    VDict d ∈ sell_analysis state ->
    dget_or "action" VNone d = VStr "sell" -> dget_or "code" VNone d = VStr c -> c <> "" ->
    holdings state' !! c = None
    \/ exists l, holdings state !! c = Some l /\ holdings state' !! c = Some l
                 /\ ~ sellable (h !!! l).
Proof.
  unfold _execute_sells, bind. intros H d c Hin Ha Hc Hne.
  destruct (for_each _ _ _ h) as [[r|e] h1] eqn:Hloop; [|done].
  unfold ret in H. injection H as <- <-. simpl.
  apply sell_loop_decided in Hloop. destruct Hloop as (-> & _ & Hsub & Hdec & Hall).
  simpl in *.
  destruct (holdings (sl_state r) !! c) as [l'|] eqn:El; [|by left].
  destruct (Hdec c (Hall d c Hin Ha Hc Hne) ltac:(set_solver)) as [Hnone|(l & Hl & Hdays)];
    [congruence|].
  right. exists l. split; [done|]. split; [|done].
  f_equal. eapply lookup_weaken in El; [|exact Hsub]. congruence.
Qed.

Section EvaluateHoldingsProperties.

Variable stop_loss_config stop_profit_config : Q.
Variable forced_reason : bool -> Q -> Q -> string.
Variable ai_evaluation : TradingState -> M TradingState.

Lemma ensure_name_names env code l h :
  exists h1, ensure_name env code l h = (Ok tt, h1) /\ names_apart h h1.
Proof.
  unfold ensure_name, bind, deref, obj_set, ret.
  assert (Hset : forall v, names_apart h (<[l := dset "name" v (h !!! l)]> h)).
  { intros v l' k Hk. destruct (decide (l' = l)) as [->|Hne].
    - rewrite lookup_total_insert_eq. by apply dget_dset_ne.
    - by rewrite lookup_total_insert_ne. }
  destruct (dget "name" (h !!! l)) as [v|]; [destruct (truthy v)|]; eexists; split;
    try reflexivity; try apply Hset.
  by intros l' k _.
Qed.

Lemma ensure_names_names env (xs : list (string * loc)) h :
  exists h1, for_each (fun '(code, l) (_ : unit) => ensure_name env code l) xs tt h = (Ok tt, h1)
             /\ names_apart h h1.
Proof.
  revert h. induction xs as [|[code l] xs IH]; intros h; simpl.
  - exists h. split; [done|]. by intros l k _.
  - destruct (ensure_name_names env code l h) as (h1 & E & H1).
    destruct (IH h1) as (h2 & E2 & H2).
    exists h2. split; [by erewrite bind_ok by exact E|].
    intros l' k Hk. rewrite H2, H1; done.
Qed.

(** One round of the loop over the holdings. *)
Lemma forced_sell_inv sl sp code l acc h acc' h' :
  forced_sell forced_reason sl sp code l acc h = (Ok acc', h') ->
  h' = h
  /\ exists p, dget_or "profit_pct" (VNum 0) (h !!! l) = VNum p
       /\ ((((p <= - sl)%Q \/ (sp <= p)%Q)
            /\ (exists d, acc' = acc ++ [d] /\ sells_holding code (h !!! l) d))
           \/ (~ ((p <= - sl)%Q \/ (sp <= p)%Q) /\ acc' = acc)).
Proof.
  unfold forced_sell, forced_decision, getitem, as_num, deref, bind, ret, raise. intros H.
  repeat head_match H; try discriminate; injection H as <- <-.
  all: split; [reflexivity|]; eexists; split; [reflexivity|].
  all: repeat match goal with
              | E : Qle_bool _ _ = true |- _ => apply Qle_bool_iff in E
              | E : Qle_bool _ _ = false |- _ =>
                  apply not_true_iff_false in E; rewrite Qle_bool_iff in E
              end.
  - left. split; [by left|]. eexists. split; [reflexivity|].
    eexists. split; [reflexivity|]. simpl. by repeat split.
  - left. split; [by right|]. eexists. split; [reflexivity|].
    eexists. split; [reflexivity|]. simpl. by repeat split.
  - right. split; [|reflexivity]. by intros [?|?].
Qed.

Lemma forced_sells_inv sl sp (xs : list (string * loc)) acc h ds h' :
  for_each (fun '(code, l) forced_sells => forced_sell forced_reason sl sp code l forced_sells)
           xs acc h = (Ok ds, h') ->
  h' = h
  /\ (forall d, d ∈ ds ->
        d ∈ acc
        \/ exists c l p, (c, l) ∈ xs
             /\ dget_or "profit_pct" (VNum 0) (h !!! l) = VNum p
             /\ ((p <= - sl)%Q \/ (sp <= p)%Q)
             /\ sells_holding c (h !!! l) d)
  /\ (forall c l p, (c, l) ∈ xs ->
        dget_or "profit_pct" (VNum 0) (h !!! l) = VNum p ->
        (p <= - sl)%Q \/ (sp <= p)%Q ->
        exists d, d ∈ ds /\ sells_holding c (h !!! l) d)
  /\ (forall d, d ∈ acc -> d ∈ ds)
  /\ (ds = [] -> acc = []).
Proof.
  revert acc. induction xs as [|[code l] xs IH]; intros acc H; simpl in H.
  - unfold ret in H. injection H as <- <-.
    split; [done|]. split; [by left|]. split; [|done].
    intros c l p Hin. by apply elem_of_nil in Hin.
  - unfold bind in H.
    destruct (forced_sell forced_reason sl sp code l acc h) as [[acc1|e] h1] eqn:E; [|done].
    apply forced_sell_inv in E. destruct E as (-> & p & Hp & Hcase).
    apply IH in H. destruct H as (-> & Hsound & Hcomplete & Hkeep & Hnil).
    split; [done|]. split; [|split; [|split]].
    + intros d Hd. destruct (Hsound d Hd) as [Hacc1|(c0 & l0 & p0 & Hin & ?)].
      * destruct Hcase as [(Htr & d1 & -> & Hd1)|(_ & ->)]; [|by left].
        apply elem_of_app in Hacc1. destruct Hacc1 as [?|Hlast]; [by left|].
        apply list_elem_of_singleton in Hlast. subst d1.
        right. exists code, l, p. split; [left|]. done.
      * right. exists c0, l0, p0. split; [by right|done].
    + intros c0 l0 p0 Hin Hp0 Htr. apply elem_of_cons in Hin. destruct Hin as [Heq|Hin].
      * injection Heq as -> ->. rewrite Hp in Hp0. injection Hp0 as <-.
        destruct Hcase as [(_ & d1 & -> & Hd1)|(Hno & _)]; [|done].
        exists d1. split; [|done]. apply Hkeep. apply elem_of_app. right. by left.
      * by eapply Hcomplete.
    + intros d Hd. apply Hkeep.
      destruct Hcase as [(_ & d1 & -> & _)|(_ & ->)]; [|done]. apply elem_of_app. by left.
    + intros Hds. specialize (Hnil Hds).
      destruct Hcase as [(_ & d1 & -> & _)|(_ & ->)]; [|done]. by destruct acc.
Qed.

(** The three ways out of [evaluate_holdings] when the stop callback is
    not set: no holdings; forced sales, one for each holding that has
    reached a threshold; or no such holding, and the LLM is asked. *)
Lemma evaluate_holdings_inv env state h state' h' :
  evaluate_holdings stop_loss_config stop_profit_config forced_reason ai_evaluation env state h
  = (Ok state', h') ->
  should_stop env = false ->
  (holdings state = ∅ /\ state' = set_sell_analysis [] state /\ h' = h)
  \/ exists h1 decisions,
       names_apart h h1
       /\ (forall d, d ∈ decisions ->
             exists c l, holdings state !! c = Some l
                         /\ stop_reached stop_loss_config stop_profit_config (h !!! l)
                         /\ sells_holding c (h !!! l) d)
       /\ (forall c l, holdings state !! c = Some l ->
             stop_reached stop_loss_config stop_profit_config (h !!! l) ->
             exists d, d ∈ decisions /\ sells_holding c (h !!! l) d)
       /\ ((decisions = [] /\ ai_evaluation state h1 = (Ok state', h'))
           \/ (decisions <> [] /\ state' = set_sell_analysis decisions state /\ h' = h1)).
Proof.
  unfold evaluate_holdings. intros H Hgo. rewrite Hgo in H.
  destruct (bool_decide (holdings state = ∅)) eqn:Eempty.
  { left. apply bool_decide_eq_true in Eempty. unfold ret in H. by injection H as <- <-. }
  right.
  destruct (ensure_names_names env (map_to_list (holdings state)) h) as (h1 & En & Hnames).
  erewrite bind_ok in H by exact En.
  cbv zeta in H. unfold bind in H.
  destruct (for_each _ _ [] h1) as [[ds|e] h2] eqn:Eloop; [|done].
  apply forced_sells_inv in Eloop. destruct Eloop as (-> & Hsound & Hcomplete & _ & _).
  assert (Hview : forall l, stop_reached stop_loss_config stop_profit_config (h1 !!! l)
                            <-> stop_reached stop_loss_config stop_profit_config (h !!! l)).
  { intros l. unfold stop_reached, dget_or. by rewrite Hnames. }
  assert (Hsells : forall c l d, sells_holding c (h1 !!! l) d <-> sells_holding c (h !!! l) d).
  { intros c l d. unfold sells_holding. by rewrite Hnames. }
  exists h1, ds. split; [done|]. split; [|split].
  - intros d Hd. destruct (Hsound d Hd) as [Hnil|(c & l & p & Hin & Hp & Htr & Hs)];
      [by apply elem_of_nil in Hnil|].
    exists c, l. split; [by apply elem_of_map_to_list|]. split; [|by apply Hsells].
    apply Hview. by exists p.
  - intros c l Hl Hstop. apply Hview in Hstop. destruct Hstop as (p & Hp & Htr).
    destruct (Hcomplete c l p) as (d & Hd & Hs); [by apply elem_of_map_to_list|done|done|].
    exists d. split; [done|]. by apply Hsells.
  - destruct ds as [|d0 ds]; [by left|]. right.
    unfold ret in H. by injection H as <- <-.
Qed.

(** X25. The stop callback not being set, and the [profit_pct] of some
    holding having reached a threshold (at most minus [stop_loss_pct]
    times 100, or at least [stop_profit_pct] times 100), a call of
    [_evaluate_holdings] that returns has not asked the LLM: of the state
    it changes [sell_analysis] only, of the holdings' dicts the names
    only, and the decisions are the forced ones, a sale of the whole
    [amount] for each holding that has reached a threshold and none for
    any other. *)
Theorem evaluate_holdings_forced env state h state' h' :
  evaluate_holdings stop_loss_config stop_profit_config forced_reason ai_evaluation env state h
  = (Ok state', h') ->
  should_stop env = false ->
  (exists c l, holdings state !! c = Some l
               /\ stop_reached stop_loss_config stop_profit_config (h !!! l)) ->
  exists decisions,
    state' = set_sell_analysis decisions state
    /\ names_apart h h'
    /\ (forall d, d ∈ decisions ->
          exists c l, holdings state !! c = Some l
                      /\ stop_reached stop_loss_config stop_profit_config (h !!! l)
                      /\ sells_holding c (h !!! l) d)
    /\ (forall c l, holdings state !! c = Some l ->
          stop_reached stop_loss_config stop_profit_config (h !!! l) ->
          exists d, d ∈ decisions /\ sells_holding c (h !!! l) d).
Proof.
  intros H Hgo (c0 & l0 & Hl0 & Hstop0).
  destruct (evaluate_holdings_inv _ _ _ _ _ H Hgo)
    as [(Hempty & _)|(h1 & ds & Hnames & Hsound & Hcomplete & Hcase)].
  { by rewrite Hempty in Hl0. }
  destruct (Hcomplete c0 l0 Hl0 Hstop0) as (d0 & Hd0 & _).
  destruct Hcase as [(-> & _)|(_ & -> & ->)]; [by apply elem_of_nil in Hd0|].
  by exists ds.
Qed.

(** X26. Stop loss and stop profit are enforced: when
    [_evaluate_holdings] and, on its result, [_execute_sells] return, a
    holding (under a code that is not empty) whose [profit_pct] had
    reached a threshold and whose [hold_days] is not 0 has left the
    holdings. *)
Theorem stop_enforced env state h s1 h1 s2 h2 :
  evaluate_holdings stop_loss_config stop_profit_config forced_reason ai_evaluation env state h
  = (Ok s1, h1) ->
  should_stop env = false ->
  _execute_sells env s1 h1 = (Ok s2, h2) ->
  forall c l,
    holdings state !! c = Some l -> c <> "" ->
    stop_reached stop_loss_config stop_profit_config (h !!! l) ->
    sellable (h !!! l) ->
    holdings s2 !! c = None.
Proof.
  intros H Hgo Hsell c l Hl Hne Hstop Hdays.
  destruct (evaluate_holdings_inv _ _ _ _ _ H Hgo)
    as [(Hempty & _)|(h0 & ds & Hnames & _ & Hcomplete & Hcase)].
  { by rewrite Hempty in Hl. }
  destruct (Hcomplete c l Hl Hstop) as (d0 & Hd0 & dd & -> & Ha & Hc & _).
  destruct Hcase as [(-> & _)|(_ & -> & ->)]; [by apply elem_of_nil in Hd0|].
  unfold _execute_sells, bind in Hsell.
  destruct (for_each _ _ _ h0) as [[r|e] h3] eqn:Hloop; [|done].
  unfold ret in Hsell. injection Hsell as <- <-. simpl.
  apply sell_loop_decided in Hloop. destruct Hloop as (-> & _ & Hsub & Hdec & Hall).
  simpl in *.
  assert (Hin : c ∈ sl_processed r).
  { apply (Hall dd c Hd0); [unfold dget_or; by rewrite Ha|unfold dget_or; by rewrite Hc|done]. }
  destruct (Hdec c Hin ltac:(set_solver)) as [Hnone|(l' & Hl' & Hnot)]; [done|].
  exfalso. apply Hnot. rewrite Hl in Hl'. injection Hl' as <-.
  unfold sellable, dget_or in *. by rewrite Hnames.
Qed.

End EvaluateHoldingsProperties.

(** ** The arena's table *)

Lemma insert_by_profit_perm (x : Standing) (l : list Standing) :
  insert_by_profit x l ≡ₚ x :: l.
Proof.
  induction l as [|y l IH]; simpl; [done|].
  destruct (Qlt_bool _ _); [done|]. rewrite IH. apply Permutation_swap.
Qed.

Lemma insert_by_profit_sorted (x : Standing) (l : list Standing) :
  by_falling_profit l -> by_falling_profit (insert_by_profit x l).
Proof.
  unfold by_falling_profit. induction 1 as [|y l Hl IH Hy]; simpl.
  - repeat constructor.
  - destruct (Qlt_bool (st_profit_pct y) (st_profit_pct x)) eqn:E.
    + apply Qlt_bool_true in E. constructor; [by constructor|].
      constructor; [lra|]. eapply Forall_impl; [exact Hy|]. simpl. intros z Hz. lra.
    + apply Qlt_bool_false in E. constructor; [done|].
      rewrite insert_by_profit_perm. by constructor.
Qed.

(** An entry is put behind the entries of its own profit. *)
Lemma insert_by_profit_stable (q : Q) (x : Standing) (l : list Standing) :
  by_falling_profit l ->
  with_profit q (insert_by_profit x l) = with_profit q l ++ with_profit q [x].
Proof.
  unfold by_falling_profit, with_profit. induction 1 as [|y l Hl IH Hy]; simpl; [done|].
  destruct (Qlt_bool (st_profit_pct y) (st_profit_pct x)) eqn:E.
  - apply Qlt_bool_true in E. simpl.
    destruct (Qeq_bool (st_profit_pct x) q) eqn:Ex; [|by rewrite app_nil_r].
    apply Qeq_bool_iff in Ex.
    assert (Hnone : forall z, (st_profit_pct z <= st_profit_pct y)%Q ->
                              Qeq_bool (st_profit_pct z) q = false).
    { intros z Hz. apply not_true_iff_false. rewrite Qeq_bool_iff. lra. }
    rewrite (Hnone y) by lra.
    assert (List.filter (fun s => Qeq_bool (st_profit_pct s) q) l = []) as ->; [|done].
    clear IH Hl. induction Hy as [|z l Hz _ IHl]; simpl; [done|].
    by rewrite (Hnone z Hz).
  - simpl. rewrite IH. by destruct (Qeq_bool (st_profit_pct y) q).
Qed.

Lemma sort_by_profit_snoc (l : list Standing) (x : Standing) :
  sort_by_profit (l ++ [x]) = insert_by_profit x (sort_by_profit l).
Proof. unfold sort_by_profit. by rewrite foldl_app. Qed.

Lemma sort_by_profit_spec (l : list Standing) :
  sort_by_profit l ≡ₚ l
  /\ by_falling_profit (sort_by_profit l)
  /\ forall q, with_profit q (sort_by_profit l) = with_profit q l.
Proof.
  induction l as [|x l IH] using rev_ind.
  - split; [done|]. split; [constructor|done].
  - destruct IH as (Hperm & Hsorted & Hstable). rewrite sort_by_profit_snoc.
    split; [|split].
    + rewrite insert_by_profit_perm, Hperm. by rewrite Permutation_cons_append.
    + by apply insert_by_profit_sorted.
    + intros q. rewrite insert_by_profit_stable by done. rewrite Hstable.
      unfold with_profit. by rewrite List.filter_app.
Qed.

Lemma standings_names {H} (c : Q) (agents : list (AgentInfo H)) (acc ss : list Standing) :
  ofold (fun agent_info rankings =>
           let* s := standing c agent_info in Ok (rankings ++ [s])%list) agents acc = Ok ss ->
  exists new, ss = acc ++ new
    /\ Forall2 (fun agent_info s => standing c agent_info = Ok s) agents new.
Proof.
  revert acc. induction agents as [|a agents IH]; intros acc H0; simpl in H0.
  - injection H0 as <-. exists []. split; [by rewrite app_nil_r|constructor].
  - destruct (standing c a) as [s|e] eqn:E; simpl in H0; [|done].
    destruct (IH _ H0) as (new & -> & Hall).
    exists (s :: new). split; [by rewrite <- (assoc_L (++))|]. by constructor.
Qed.

Lemma ranks_from (k : nat) (l : list Standing) :
  rk_rank <$> imap (fun idx rank => {| rk_standing := rank; rk_rank := k + idx + 1;
                                       rk_medal := medal (k + idx) |}) l
  = seq (k + 1) (length l)
  /\ rk_standing <$> imap (fun idx rank => {| rk_standing := rank; rk_rank := k + idx + 1;
                                              rk_medal := medal (k + idx) |}) l
     = l.
Proof.
  revert k. induction l as [|x l IH]; intros k; simpl; [done|].
  destruct (IH (S k)) as [IH1 IH2].
  replace (k + 0 + 1)%nat with (k + 1)%nat by lia.
  split; f_equal.
  - replace (S (k + 1)) with (S k + 1)%nat by lia. rewrite <- IH1.
    f_equal. apply imap_ext. intros i y _. simpl. f_equal; [lia|f_equal; lia].
  - rewrite <- IH2 at 2. f_equal. apply imap_ext. intros i y _. simpl.
    f_equal; [lia|f_equal; lia].
Qed.

(** X27. When [get_current_rankings] returns, the table has a row for
    every agent, with the standing computed for it; the ranks are 1, 2,
    ... from the top; no row has a smaller [profit_pct] than a row below
    it; and rows of equal [profit_pct] are in the order of
    [self.agents]. *)
Theorem get_current_rankings_table {H} (initial_capital : Q) (agents : list (AgentInfo H))
    (rankings : list Ranking) :
  get_current_rankings initial_capital agents = Ok rankings ->
  exists ss,
    Forall2 (fun agent_info s => standing initial_capital agent_info = Ok s) agents ss
    /\ rk_rank <$> rankings = seq 1 (length agents)
    /\ rk_standing <$> rankings ≡ₚ ss
    /\ by_falling_profit (rk_standing <$> rankings)
    /\ forall q, with_profit q (rk_standing <$> rankings) = with_profit q ss.
Proof.
  unfold get_current_rankings, standings. intros H0.
  destruct (ofold _ agents []) as [ss|e] eqn:E; simpl in H0; [|done].
  injection H0 as <-.
  apply standings_names in E. destruct E as (new & -> & Hall). simpl.
  exists new. split; [done|].
  destruct (ranks_from 0 (sort_by_profit new)) as [Hranks Hst]. simpl in Hranks, Hst.
  rewrite Hranks, Hst.
  destruct (sort_by_profit_spec new) as (Hperm & Hsorted & Hstable).
  split; [|done].
  f_equal. rewrite Hperm. symmetry. by eapply Forall2_length.
Qed.

(** The fall between two days of the log is within what the loop of
    [_calculate_result] ends with. *)
Lemma drawdown_between (pre between post : list pydict) (earlier later : pydict)
    (peak m peak' m' a1 a2 : Q) :
  ofold drawdown_step (pre ++ earlier :: between ++ later :: post) (peak, m) = Ok (peak', m') ->
  dget "total_assets" earlier = Some (VNum a1) ->
  dget "total_assets" later = Some (VNum a2) ->
  (0 < a1)%Q -> (0 <= a2)%Q ->
  ((a1 - a2) / a1 * 100 <= m')%Q.
Proof.
  intros Edd Ha1 Ha2 Hpos Ha0.
  replace (pre ++ earlier :: between ++ later :: post)
    with ((pre ++ [earlier]) ++ between ++ later :: post) in Edd
    by (by rewrite <- (assoc_L (++))).
  rewrite !ofold_app in Edd.
  destruct (ofold drawdown_step pre _) as [[pk0 m0]|] eqn:E0; cbn [obind ofold] in Edd; [|done].
  destruct (drawdown_step earlier (pk0, m0)) as [[pk1 m1]|] eqn:E1; cbn [obind] in Edd; [|done].
  apply drawdown_step_inv in E1. destruct E1 as (a & Ha & _ & Hle & _).
  rewrite Ha1 in Ha. injection Ha as <-.
  apply drawdown_loop_inv in Edd. destruct Edd as (_ & _ & _ & _ & Hall).
  eapply (Hall between later post a2 a1); eauto.
Qed.

(** The largest total is the total of a day, and no day has a larger
    one. *)
Lemma larger_total_inv (rest : list pydict) (v : pyval) (M : Q) :
  ofold larger_total rest v = Ok (VNum M) ->
  exists b, v = VNum b /\ (b <= M)%Q
    /\ Forall (fun d => exists a, dget "total_assets" d = Some (VNum a) /\ (a <= M)%Q) rest
    /\ (M = b \/ exists pre record post,
                   rest = pre ++ record :: post
                   /\ dget "total_assets" record = Some (VNum M)).
Proof.
  revert v. induction rest as [|d rest IH]; intros v H0; cbn [ofold] in H0.
  - injection H0 as ->. exists M. split; [done|]. split; [lra|]. split; [constructor|by left].
  - destruct (larger_total d v) as [v1|e] eqn:E; cbn [obind] in H0; [|done].
    destruct (IH _ H0) as (b1 & -> & Hb1 & Hall & Hwhere).
    unfold larger_total in E.
    destruct (dget "total_assets" d) as [[|s|a|dd]|] eqn:Ed; try done;
      destruct v as [|s'|b|dd']; try done.
    exists b. split; [done|].
    destruct (Qlt_bool b a) eqn:Elt; injection E as ->;
      [apply Qlt_bool_true in Elt|apply Qlt_bool_false in Elt].
    + split; [lra|]. split; [constructor; [by exists b1|done]|].
      right. destruct Hwhere as [->|(pre & record & post & -> & Hrec)].
      * by exists [], d, rest.
      * by exists (d :: pre), record, post.
    + split; [done|]. split; [constructor; [exists a; split; [done|lra]|done]|].
      destruct Hwhere as [->|(pre & record & post & -> & Hrec)]; [by left|].
      right. by exists (d :: pre), record, post.
Qed.

Lemma max_total_inv (first : pydict) (rest : list pydict) (M : Q) :
  max_total first rest = Ok (VNum M) ->
  Forall (fun d => exists a, dget "total_assets" d = Some (VNum a) /\ (a <= M)%Q) (first :: rest)
  /\ exists pre record post,
       first :: rest = pre ++ record :: post
       /\ dget "total_assets" record = Some (VNum M).
Proof.
  unfold max_total. intros H0.
  destruct (dget "total_assets" first) as [v|] eqn:Ef; [|done].
  apply larger_total_inv in H0. destruct H0 as (b & -> & Hb & Hall & Hwhere).
  split; [constructor; [by exists b|done]|].
  destruct Hwhere as [->|(pre & record & post & -> & Hrec)].
  - by exists [], first, rest.
  - by exists (first :: pre), record, post.
Qed.

(** X28. The [max_drawdown] of the table is the fall from the highest
    daily total to the total assets now, not the largest fall of the run:
    it is not negative; it is 0 when no daily total (none being negative)
    is above the total assets; and, the total assets being the total of
    the last day, it is at most the [max_drawdown] that
    [_calculate_result] computes from the same log with a positive initial
    capital. *)
Theorem table_drawdown_current {H} (agent : Agent H) (max_drawdown : Q) :
  table_drawdown agent = Ok max_drawdown ->
  (0 <= max_drawdown)%Q
  /\ (Forall total_not_negative (self_daily_assets agent) ->
      Forall (fun d => forall a, dget "total_assets" d = Some (VNum a) ->
                                 (a <= self_total_assets agent)%Q)
             (self_daily_assets agent) ->
      (max_drawdown == 0)%Q)
  /\ (forall state r last_record,
        _calculate_result state = Ok r ->
        daily_assets state = self_daily_assets agent ->
        (0 < initial_capital state)%Q ->
        Forall total_not_negative (self_daily_assets agent) ->
        last (self_daily_assets agent) = Some last_record ->
        dget "total_assets" last_record = Some (VNum (self_total_assets agent)) ->
        (max_drawdown <= res_max_drawdown r)%Q).
Proof.
  unfold table_drawdown. intros H0.
  destruct (self_daily_assets agent) as [|first rest] eqn:Edaily.
  { injection H0 as <-. split; [lra|]. split; [reflexivity|].
    intros state r last_record _ _ _ _ Hlast. done. }
  destruct (max_total first rest) as [v|e] eqn:Emax; cbn [obind] in H0; [|done].
  destruct (num v) as [M|e] eqn:EM; cbn [obind] in H0; [|done].
  apply num_ok in EM. subst v.
  destruct (Qeq_bool M 0) eqn:E0; [done|].
  apply not_true_iff_false in E0. rewrite Qeq_bool_iff in E0.
  injection H0 as <-.
  apply max_total_inv in Emax. destruct Emax as (Hall & pre & record & post & Hsplit & Hrec).
  set (T := self_total_assets agent) in *.
  assert (Hmax : forall x, (0 <= py_max 0 x)%Q /\ (x <= py_max 0 x)%Q
                           /\ ((x <= 0)%Q -> (py_max 0 x == 0)%Q)).
  { intros x. unfold py_max.
    destruct (Qlt_bool 0 x) eqn:E; [apply Qlt_bool_true in E|apply Qlt_bool_false in E];
      repeat split; intros; lra. }
  assert (HM : Forall total_not_negative (first :: rest) -> (0 < M)%Q).
  { intros Hnn. rewrite Hsplit in Hnn. apply Forall_app in Hnn. destruct Hnn as [_ Hnn].
    apply Forall_cons in Hnn. destruct Hnn as [Hr _]. specialize (Hr M Hrec).
    destruct (Qlt_le_dec 0 M) as [?|?]; [done|]. exfalso. apply E0. lra. }
  split; [apply Hmax|]. split.
  - intros Hnn Hbelow. apply Hmax.
    specialize (HM Hnn).
    rewrite Hsplit in Hbelow. apply Forall_app in Hbelow. destruct Hbelow as [_ Hbelow].
    apply Forall_cons in Hbelow. destruct Hbelow as [Hr _]. specialize (Hr M Hrec).
    assert (Hq : ((M - T) / M <= 0)%Q).
    { apply Qle_shift_div_r; [done|]. lra. }
    lra.
  - intros state r last_record Hr Hdaily Hcap Hnn Hlast HT.
    specialize (HM Hnn).
    unfold _calculate_result in Hr.
    destruct (Qeq_bool (initial_capital state) 0); [done|].
    rewrite Hdaily in Hr.
    destruct (ofold drawdown_step _ _) as [[peak m]|] eqn:Edd; cbn [obind] in Hr; [|done].
    destruct (win_trades _) as [wins|]; cbn [obind] in Hr; [|done].
    injection Hr as <-. simpl.
    assert (Hm0 : (0 <= m)%Q).
    { apply drawdown_loop_inv in Edd. by destruct Edd as (_ & ? & _). }
    destruct (Qlt_le_dec T M) as [Hlt|Hge].
    2:{ assert (Hq : ((M - T) / M <= 0)%Q).
        { apply Qle_shift_div_r; [done|]. lra. }
        destruct (Hmax ((M - T) / M * 100)%Q) as (_ & _ & Hz). rewrite Hz; lra. }
    assert (HT0 : (0 <= T)%Q).
    { rewrite Forall_forall in Hnn. apply (Hnn last_record); [|done].
      apply last_Some in Hlast. destruct Hlast as [l' ->].
      apply elem_of_app. right. by left. }
    assert (Hdd : ((M - T) / M * 100 <= m)%Q).
    { rewrite Hsplit in Hlast, Edd.
      destruct post as [|p post _] using rev_ind.
      - rewrite last_snoc in Hlast. injection Hlast as <-.
        rewrite Hrec in HT. injection HT as HMT. exfalso. rewrite HMT in Hlt. lra.
      - rewrite app_comm_cons, (assoc_L (++)), last_snoc in Hlast. injection Hlast as <-.
        replace (pre ++ record :: post ++ [p]) with (pre ++ record :: post ++ p :: [])
          in Edd by done.
        eapply drawdown_between; eauto. }
    unfold py_max. destruct (Qlt_bool 0 _); lra.
Qed.

(** ** The candidates of a day *)



Section FindCandidatesProperties.

Variable min_cash_to_buy : Q.
Variable analyze_stock_count : nat.
Variable model_offset : Z.
Variable get_index_data : string -> pydict.
Variable pool_hot_codes : string -> list string.
Variable get_candidates : string -> nat -> list pydict.
Variable state_hot_codes : list string.
Variable py_int_of_str : string -> option Z.


(** X30. With cash below [min_cash_to_buy] nothing is bought that day,
    whatever the LLM would answer: [_find_candidates] returns no
    candidate, [_analyze_candidates] then returns no decision without
    touching the store, and [_execute_buys] returns with no trade, the
    cash, the holdings and the trade history as they were. *)
Theorem low_cash_buys_nothing env llm state h :
  (cash state < min_cash_to_buy)%Q ->
  exists s1 s2 s3,
    find_candidates min_cash_to_buy analyze_stock_count model_offset get_index_data
      pool_hot_codes get_candidates state_hot_codes py_int_of_str env state = Ok s1
    /\ candidates s1 = []
    /\ _analyze_candidates env llm s1 h = (Ok s2, h)
    /\ buy_analysis s2 = []
    /\ _execute_buys env s2 h = (Ok s3, h)
    /\ buy_trades s3 = []
    /\ cash s3 = cash state
    /\ holdings s3 = holdings state
    /\ trade_history s3 = trade_history state.
Proof.
  intros Hcash. apply Qlt_bool_true in Hcash.
  exists (set_candidates [] state), (set_buy_analysis [] (set_candidates [] state)),
         (set_buy_trades [] (set_buy_analysis [] (set_candidates [] state))).
  split.
  { unfold find_candidates. rewrite Hcash. by destruct (should_stop env). }
  split; [done|]. split.
  { unfold _analyze_candidates. simpl. by destruct (should_stop env). }
  split; [done|]. split; [|done].
  unfold _execute_buys. simpl.
  destruct (_ <=? _)%Z; [done|].
  destruct (Qlt_bool (cash state) (initial_capital state * (5 # 100))); reflexivity.
Qed.

End FindCandidatesProperties.

(** ** The properties on the worked examples *)

Lemma execute_sells_ledger_witness :
  let env := table_env closes_2025 5 in
  let state := set_sell_analysis [sell_order "000001.SZ"]
                 (state_of agent_after_day1 "20250107") in
  match _execute_sells env state aged_heap with
  | (Ok state', _) =>
      length (sell_trades state') = 1%nat
      /\ (cash state' == spec_cash_from_log (cash state) (sell_trades state'))%Q
  | _ => False
  end.
Proof.
  intros env state.
  destruct (_execute_sells env state aged_heap) as [[state'|e] h'] eqn:E.
  - split.
    + vm_compute in E. injection E as <- _. reflexivity.
    + exact (execute_sells_ledger env state aged_heap state' h' E).
  - vm_compute in E. discriminate.
Defined.

Lemma execute_buys_ledger_witness :
  let env := table_env closes_2025 5 in
  let state := set_buy_analysis [buy_order "000001.SZ" 200]
                 (state_of (new_agent 10000) "20250106") in
  match _execute_buys env state ∅ with
  | (Ok state', _) =>
      length (buy_trades state') = 1%nat
      /\ (cash state' == spec_cash_from_log (cash state) (buy_trades state'))%Q
      /\ trade_history state' = trade_history state ++ buy_trades state'
  | _ => False
  end.
Proof.
  intros env state.
  destruct (_execute_buys env state ∅) as [[state'|e] h'] eqn:E.
  - split.
    + vm_compute in E. injection E as <- _. reflexivity.
    + exact (execute_buys_ledger env state ∅ state' h' E).
  - vm_compute in E. discriminate.
Defined.

Lemma execute_sells_once_per_code_witness :
  let env := table_env closes_2025 5 in
  match _execute_sells env selling_twice aged_heap with
  | (Ok state', _) =>
      length (sell_trades state') = 1%nat
      /\ exists codes,
           Forall2 (fun t c => dget "code" t = Some (VStr c)) (sell_trades state') codes
           /\ NoDup codes
           /\ (forall c, c ∈ codes -> is_Some (holdings selling_twice !! c))
           /\ forall c, holdings state' !! c
                        = if decide (c ∈ codes) then None else holdings selling_twice !! c
  | _ => False
  end.
Proof.
  intros env.
  destruct (_execute_sells env selling_twice aged_heap) as [[state'|e] h'] eqn:E.
  - split.
    + vm_compute in E. injection E as <- _. reflexivity.
    + exact (execute_sells_once_per_code env selling_twice aged_heap state' h' E).
  - vm_compute in E. discriminate.
Defined.

Lemma execute_buys_once_per_code_witness :
  let env := table_env closes_2025 5 in
  match _execute_buys env buying_twice ∅ with
  | (Ok state', h') =>
      length (buy_trades state') = 1%nat
      /\ exists codes,
           Forall2 (fun t c => dget "code" t = Some (VStr c)) (buy_trades state') codes
           /\ NoDup codes
           /\ forall c,
                if decide (c ∈ codes)
                then exists l t, holdings state' !! c = Some l
                       /\ (l ∉ dom (∅ : heap)) /\ (l ∈ dom h')
                       /\ t ∈ buy_trades state' /\ dget "code" t = Some (VStr c)
                       /\ dget "amount" (h' !!! l) = dget "amount" t
                       /\ dget "cost" (h' !!! l) = dget "price" t
                else holdings state' !! c = holdings buying_twice !! c
  | _ => False
  end.
Proof.
  intros env.
  destruct (_execute_buys env buying_twice ∅) as [[state'|e] h'] eqn:E.
  - split.
    + vm_compute in E. injection E as <- _. reflexivity.
    + exact (execute_buys_once_per_code env buying_twice ∅ state' h' E).
  - vm_compute in E. discriminate.
Defined.

Lemma analyze_candidates_confident_witness :
  let env := table_env closes_2025 5 in
  match _analyze_candidates env llm_two_minds analysing ∅ with
  | (Ok s1, _) =>
      length (buy_analysis s1) = 1%nat
      /\ Forall (confident_buy (ai_confidence_threshold env)) (buy_analysis s1)
  | _ => False
  end.
Proof.
  intros env.
  destruct (_analyze_candidates env llm_two_minds analysing ∅) as [[s1|e] h1] eqn:E.
  - split.
    + vm_compute in E. injection E as <- _. reflexivity.
    + exact (analyze_candidates_confident env llm_two_minds analysing ∅ s1 h1 E).
  - vm_compute in E. discriminate.
Defined.

Lemma update_holdings_prices_ages_witness :
  let env := table_env closes_2025 5 in
  let state := state_of agent_after_day1 "20250107" in
  match _update_holdings_prices env state heap_after_day1 with
  | (Ok state', h') =>
      holdings state !! "000001.SZ" = Some 1%positive
      /\ aged_one_day (heap_after_day1 !!! 1%positive) (h' !!! 1%positive)
  | _ => False
  end.
Proof.
  intros env state.
  assert (Hh : holdings state = {["000001.SZ" := 1%positive]}) by (vm_compute; reflexivity).
  destruct (_update_holdings_prices env state heap_after_day1) as [[state'|e] h'] eqn:E.
  - split; [vm_compute; reflexivity|].
    refine (proj1 (proj2 (proj2 (proj2
              (update_holdings_prices_ages env state heap_after_day1 state' h' E _)))
              "000001.SZ" 1%positive _)).
    + intros c1 c2 l H1 H2. rewrite Hh in H1, H2.
      apply lookup_singleton_Some in H1, H2. destruct H1 as [<- _]. by destruct H2 as [<- _].
    + vm_compute. reflexivity.
  - vm_compute in E. discriminate.
Defined.

Lemma detect_clean_guarantees_witness :
  detect_data_corruption strptime_iso rising_agent = Ok (false, RVal VNone)
  /\ Forall (plausible_entry strptime_iso) (self_daily_assets rising_agent)
  /\ Sorted (plausible_step strptime_iso) (self_daily_assets rising_agent).
Proof.
  assert (H : detect_data_corruption strptime_iso rising_agent = Ok (false, RVal VNone))
    by (vm_compute; reflexivity).
  split; [exact H|].
  destruct (detect_clean_guarantees strptime_iso rising_agent _ H) as (_ & Ha & Hs & _).
  by split.
Defined.

Lemma detect_flags_bad_values_witness :
  detect_data_corruption strptime_iso backdated_agent = Ok (true, RVal (VStr "2025-01-03")).
Proof.
  apply (detect_flags_bad_values strptime_iso backdated_agent
           [daily_point "20250106" 10000 10000] [] (daily_point "20250103" 10000 10000)
           {| prev_date := Some 20094%Z; _prev_assets := Some 10000%Q |}
           "20250103" 20091%Z).
  - reflexivity.
  - vm_compute. reflexivity.
  - reflexivity.
  - discriminate.
  - by right.
  - vm_compute. reflexivity.
  - left. exists 20094%Z. split; [reflexivity|lia].
Defined.

Lemma detect_unreadable_date_witness :
  entry_day strptime_iso (daily_point "20250106" 10000 10000) = Some 20094%Z
  /\ detect_data_corruption strptime_iso misdated_agent = Ok (true, RDatetime 20094).
Proof.
  split; [vm_compute; reflexivity|].
  destruct (detect_unreadable_date strptime_iso misdated_agent []
              [] (daily_point "20250106" 10000 10000) (daily_point "2025-13-45" 10000 10000))
    as (p & Hp & Hd).
  - reflexivity.
  - eexists. vm_compute. reflexivity.
  - vm_compute. reflexivity.
  - vm_compute in Hp. injection Hp as <-. exact Hd.
Defined.

Lemma detect_returns_witness :
  exists r, detect_data_corruption strptime_iso damaged_agent = Ok r.
Proof.
  apply (detect_returns strptime_iso damaged_agent).
  intros first_entry [= <-]. right. by eexists.
Defined.

Lemma rollback_to_date_twice_witness :
  match rollback_to_date strptime_iso no_price_update damaged_agent "2025-01-08" with
  | Some self1 =>
      length (self_daily_assets self1) = 2%nat
      /\ rollback_to_date strptime_iso no_price_update self1 "2025-01-07"
         = rollback_to_date strptime_iso no_price_update damaged_agent "2025-01-07"
      /\ rollback_to_date strptime_iso no_price_update self1 "2025-01-08" = Some self1
  | None => False
  end.
Proof.
  destruct (rollback_to_date strptime_iso no_price_update damaged_agent "2025-01-08")
    as [self1|] eqn:E.
  - split.
    + vm_compute in E. injection E as <-. reflexivity.
    + apply (rollback_to_date_twice strptime_iso no_price_update damaged_agent self1
               "2025-01-08" "2025-01-07" 20096%Z 20095%Z E).
      * vm_compute. reflexivity.
      * vm_compute. reflexivity.
      * lia.
  - vm_compute in E. discriminate.
Defined.

Lemma replay_trades_cost_pool_witness :
  match replay_trades (self_trade_history damaged_agent) with
  | Ok hs => is_Some (hs !! "000001.SZ")
             /\ map_Forall (fun _ holding => cost_is_pool holding) hs
  | Raise _ => False
  end.
Proof.
  destruct (replay_trades (self_trade_history damaged_agent)) as [hs|e] eqn:E.
  - split.
    + vm_compute in E. injection E as <-. by eexists.
    + apply (replay_trades_cost_pool (self_trade_history damaged_agent) hs); [|exact E].
      repeat constructor. intros _. exists 200%Q. split; reflexivity.
  - vm_compute in E. discriminate.
Defined.

Lemma normalize_trade_date_round_trip_witness :
  normalize_date "20250115" = "2025-01-15"
  /\ _format_date "20250115" = normalize_date "20250115"
  /\ _normalize_trade_date (normalize_date "20250115") = "20250115".
Proof.
  split; [reflexivity|].
  apply (normalize_trade_date_round_trip "20250115"); reflexivity.
Defined.

Lemma format_date_round_trip_witness :
  _normalize_trade_date "2025-01-15" = "20250115"
  /\ _format_date (_normalize_trade_date "2025-01-15") = "2025-01-15".
Proof.
  split; [reflexivity|].
  apply (format_date_round_trip "2025-01-15"). repeat split; reflexivity.
Defined.

Lemma calculate_result_bounds_witness :
  match _calculate_result finished_state with
  | Ok r => (res_max_drawdown r == 10)%Q /\ (res_win_rate r == 50)%Q
            /\ (0 <= res_max_drawdown r)%Q
            /\ (0 <= res_win_rate r)%Q /\ (res_win_rate r <= 100)%Q
            /\ res_trade_count r = 2%nat
  | Raise _ => False
  end.
Proof.
  destruct (_calculate_result finished_state) as [r|e] eqn:E.
  - destruct (calculate_result_bounds finished_state r E) as (H1 & H2 & H3 & H4 & _).
    vm_compute in E. injection E as <-. repeat split; try reflexivity; assumption.
  - vm_compute in E. discriminate.
Defined.

Lemma calculate_result_drawdown_witness :
  match _calculate_result finished_state with
  | Ok r => ((11000 - 9900) / 11000 * 100 <= res_max_drawdown r)%Q
  | Raise _ => False
  end.
Proof.
  destruct (_calculate_result finished_state) as [r|e] eqn:E.
  - apply (proj2 (calculate_result_drawdown finished_state r E)
             [daily_point "20250106" 10000 10000] (daily_point "20250107" 11000 11000) []
             (daily_point "20250108" 9900 9900) [daily_point "20250109" 10450 10450]);
      first [reflexivity | by vm_compute].
  - vm_compute in E. discriminate.
Defined.

Lemma find_first_continuous_data_end_none_witness :
  snd (find_first_continuous_data_end strptime_iso strftime_iso rising_agent)
  = Ok (Some "2025-01-04", None)
  /\ Sorted close_days (omap (gap_day strptime_iso) (self_daily_assets rising_agent)).
Proof.
  destruct (find_first_continuous_data_end strptime_iso strftime_iso rising_agent)
    as [self' r] eqn:E.
  assert (r = Ok (Some "2025-01-04", None)) as -> by (vm_compute in E; by injection E as _ <-).
  split; [reflexivity|].
  apply (find_first_continuous_data_end_none strptime_iso strftime_iso rising_agent self' _ E).
Defined.

Lemma find_first_continuous_data_end_gap_witness :
  snd (find_first_continuous_data_end strptime_iso strftime_iso gapped_agent)
  = Ok (Some "2025-01-07", Some "2025-01-15")
  /\ exists pre entry post,
       self_daily_assets gapped_agent = pre ++ entry :: post
       /\ Sorted close_days (omap (gap_day strptime_iso) pre).
Proof.
  destruct (find_first_continuous_data_end strptime_iso strftime_iso gapped_agent)
    as [self' r] eqn:E.
  assert (r = Ok (Some "2025-01-07", Some "2025-01-15")) as ->
    by (vm_compute in E; by injection E as _ <-).
  split; [reflexivity|].
  destruct (find_first_continuous_data_end_gap strptime_iso strftime_iso gapped_agent self' _ _ E)
    as (pre & entry & post & s & H1 & _ & _ & _ & H2 & _).
  exists pre, entry, post. split; assumption.
Defined.

Lemma rollback_to_unreadable_gap_witness :
  let '(self', r) := find_first_continuous_data_end strptime_iso strftime_iso misdated_agent in
  r = Ok (Some "2025-01-06", Some "2025-13-45")
  /\ rollback_to_date strptime_iso no_price_update self' "2025-13-45" = None.
Proof.
  destruct (find_first_continuous_data_end strptime_iso strftime_iso misdated_agent)
    as [self' r] eqn:E.
  assert (r = Ok (Some "2025-01-06", Some "2025-13-45")) as ->
    by (vm_compute in E; by injection E as _ <-).
  split; [reflexivity|].
  apply (rollback_to_unreadable_gap strptime_iso strftime_iso no_price_update
           misdated_agent self' _ _ E).
  vm_compute. reflexivity.
Defined.

Lemma extract_json_array_first_array_witness :
  _extract_json_array (option string) None loads_nested id (fun _ => None)
    "Buy: [1, [2]] done]"
  = Some "[1, [2]]".
Proof.
  apply (extract_json_array_first_array (option string) None loads_nested id (fun _ => None)
           "Buy: " "1, [2]" " done]").
  - reflexivity.
  - do 3 (apply ab_char; [reflexivity..|]).
    apply (ab_array "2" ""); [|constructor].
    apply ab_char; [reflexivity..|constructor].
  - reflexivity.
  - reflexivity.
Defined.

Lemma execute_sells_honours_witness :
  let env := table_env closes_2025 5 in
  let state := set_sell_analysis [sell_order "000001.SZ"]
                 (state_of agent_after_day1 "20250107") in
  match _execute_sells env state aged_heap with
  | (Ok state', _) =>
      is_Some (holdings state !! "000001.SZ")
      /\ (holdings state' !! "000001.SZ" = None
          \/ exists l, holdings state !! "000001.SZ" = Some l
                       /\ holdings state' !! "000001.SZ" = Some l
                       /\ ~ sellable (aged_heap !!! l))
  | _ => False
  end.
Proof.
  intros env state.
  destruct (_execute_sells env state aged_heap) as [[state'|e] h'] eqn:E.
  - split; [by eexists|].
    apply (execute_sells_honours env state aged_heap state' h' E
             [("action", VStr "sell"); ("code", VStr "000001.SZ"); ("reason", VStr "stop loss")]).
    + left.
    + reflexivity.
    + reflexivity.
    + discriminate.
  - vm_compute in E. discriminate.
Defined.

Lemma evaluate_holdings_forced_witness :
  let env := table_env closes_2025 5 in
  let state := state_of agent_after_day1 "20250107" in
  match evaluate_holdings (5 # 100) (15 # 100) plain_reason nothing_to_sell env state
          losing_heap with
  | (Ok state', _) =>
      length (sell_analysis state') = 1%nat
      /\ forall d, d ∈ sell_analysis state' ->
           sells_holding "000001.SZ" (losing_heap !!! 1%positive) d
  | _ => False
  end.
Proof.
  intros env state.
  assert (Hh : holdings state = {["000001.SZ" := 1%positive]}) by (vm_compute; reflexivity).
  destruct (evaluate_holdings (5 # 100) (15 # 100) plain_reason nothing_to_sell env state
              losing_heap) as [[state'|e] h'] eqn:E.
  - destruct (evaluate_holdings_forced (5 # 100) (15 # 100) plain_reason nothing_to_sell
                env state losing_heap state' h' E eq_refl)
      as (ds & -> & _ & Hsound & _).
    + exists "000001.SZ", 1%positive. split; [by rewrite Hh|].
      exists (-10)%Q. split; [reflexivity|]. left. by vm_compute.
    + split; [vm_compute in E; by injection E as <- _|].
      intros d Hd. destruct (Hsound d Hd) as (c & l & Hl & _ & Hs).
      rewrite Hh in Hl. apply lookup_singleton_Some in Hl. by destruct Hl as [<- <-].
  - vm_compute in E. discriminate.
Defined.

Lemma stop_enforced_witness :
  let env := table_env closes_2025 5 in
  let state := state_of agent_after_day1 "20250107" in
  match evaluate_holdings (5 # 100) (15 # 100) plain_reason nothing_to_sell env state
          losing_heap with
  | (Ok s1, h1) =>
      match _execute_sells env s1 h1 with
      | (Ok s2, _) =>
          holdings state !! "000001.SZ" = Some 1%positive
          /\ holdings s2 !! "000001.SZ" = None
      | _ => False
      end
  | _ => False
  end.
Proof.
  intros env state.
  assert (Hh : holdings state = {["000001.SZ" := 1%positive]}) by (vm_compute; reflexivity).
  destruct (evaluate_holdings (5 # 100) (15 # 100) plain_reason nothing_to_sell env state
              losing_heap) as [[s1|e] h1] eqn:E.
  - destruct (_execute_sells env s1 h1) as [[s2|e] h2] eqn:E2.
    + split; [by rewrite Hh|].
      apply (stop_enforced (5 # 100) (15 # 100) plain_reason nothing_to_sell
               env state losing_heap s1 h1 s2 h2 E eq_refl E2 "000001.SZ" 1%positive).
      * by rewrite Hh.
      * discriminate.
      * exists (-10)%Q. split; [reflexivity|]. left. by vm_compute.
      * reflexivity.
    + vm_compute in E. injection E as <- <-. vm_compute in E2. discriminate.
  - vm_compute in E. discriminate.
Defined.

Lemma get_current_rankings_table_witness :
  match get_current_rankings 10000 arena with
  | Ok rankings =>
      (fun r => st_name (rk_standing r)) <$> rankings = ["beta"; "alpha"; "gamma"]
      /\ rk_rank <$> rankings = [1; 2; 3]%nat
      /\ by_falling_profit (rk_standing <$> rankings)
  | Raise _ => False
  end.
Proof.
  destruct (get_current_rankings 10000 arena) as [rankings|e] eqn:E.
  - destruct (get_current_rankings_table 10000 arena rankings E)
      as (ss & _ & Hranks & _ & Hsorted & _).
    split; [vm_compute in E; by injection E as <-|]. by split.
  - vm_compute in E. discriminate.
Defined.

Lemma table_drawdown_current_witness :
  match table_drawdown finished_agent, _calculate_result finished_state with
  | Ok max_drawdown, Ok r =>
      (max_drawdown == 5)%Q /\ (res_max_drawdown r == 10)%Q
      /\ (max_drawdown <= res_max_drawdown r)%Q
  | _, _ => False
  end.
Proof.
  destruct (table_drawdown finished_agent) as [max_drawdown|e] eqn:E.
  - destruct (_calculate_result finished_state) as [r|e] eqn:Er.
    + split; [vm_compute in E; by injection E as <-|].
      split; [vm_compute in Er; by injection Er as <-|].
      apply (proj2 (proj2 (table_drawdown_current finished_agent max_drawdown E))
               finished_state r (daily_point "20250109" 10450 10450) Er).
      * reflexivity.
      * reflexivity.
      * repeat constructor; intros a [= <-]; by vm_compute.
      * reflexivity.
      * reflexivity.
    + vm_compute in Er. discriminate.
  - vm_compute in E. discriminate.
Defined.


Lemma low_cash_buys_nothing_witness :
  let env := table_env closes_2025 5 in
  let state := state_of (new_agent 100) "20250106" in
  exists s1 s2 s3,
    find_candidates 500 2 0 (fun _ => []) (fun _ => ["600000.SH"]) three_candidates []
      int_of_digits env state = Ok s1
    /\ candidates s1 = []
    /\ _analyze_candidates env llm_two_minds s1 ∅ = (Ok s2, ∅)
    /\ buy_analysis s2 = []
    /\ _execute_buys env s2 ∅ = (Ok s3, ∅)
    /\ buy_trades s3 = []
    /\ cash s3 = cash state
    /\ holdings s3 = holdings state
    /\ trade_history s3 = trade_history state.
Proof.
  intros env state.
  apply (low_cash_buys_nothing 500 2 0 (fun _ => []) (fun _ => ["600000.SH"]) three_candidates
           [] int_of_digits env llm_two_minds state ∅).
  by vm_compute.
Defined.
